(** * Monday API interface: request executor, entity model and dispatcher

    A shallow embedding of [monday.py].  Python values are modelled by the
    type [value]; the remote service is a script of replies that
    [post_request] consumes one at a time; everything observable that the
    code does (HTTP posts, sleeps, appends to [errors.txt], prints, thread
    starts) is collected in a trace of [event]s.

    Modelling conventions.
    - Python [str] is [string]: the texts that matter (error messages,
      titles, ids) are ASCII.
    - A Python [dict] with string keys is an insertion-ordered association
      list with unique keys ([Dict.set] replaces in place or appends).
    - JSON numbers are integers.
    - A call that waits for a reply the remote never gives ends in
      [Blocked]; [post_request] recurses on the replies, one per call, so
      no fuel is involved. *)

From stdpp Require Import base list strings.
From Stdlib Require Import ZArith Lia Ascii String.

Local Open Scope string_scope.
Local Open Scope Z_scope.
Local Open Scope list_scope.

Set Warnings "-register-all".

(** ** Python values *)

Abbreviation addr := nat (only parsing).

Inductive value : Type :=
| VNone
| VBool (b : bool)
| VInt (z : Z)
| VStr (s : string)
| VList (l : list value)
| VDict (d : list (string * value))
| VRef (a : addr)
| VFun (id : nat).

Inductive exn : Type :=
| TypeError
| KeyError
| IndexError
| AttributeError
| ValueError.

(** [Blocked]: the remote never answers (the reply script is exhausted). *)
Inductive result (A : Type) : Type :=
| Ok (a : A)
| Raise (e : exn)
| Blocked.

Arguments Ok {A} a.
Arguments Raise {A} e.
Arguments Blocked {A}.

(** The fields of an [Analyzer] thread. *)
Record Analyzer : Type := {
  a_input_board : value;
  a_item_id : value;
  a_function : value;
  a_inputs : list (string * value)
}.

Inductive event : Type :=
| HttpPost (url : string) (authorization : string) (query : string)
| Sleep (seconds : Z)
| Append (file : string) (text : string)
| Print (args : list value)
| Start (thread : Analyzer).

(** ** Dictionaries *)

Module Dict.

Definition t (V : Type) := list (string * V).

Fixpoint get {V} (k : string) (d : t V) : option V :=
  match d with
  | [] => None
  | (k', v) :: d' => if String.eqb k k' then Some v else get k d'
  end.

(** [d[k] = v] *)
Fixpoint set {V} (k : string) (v : V) (d : t V) : t V :=
  match d with
  | [] => [(k, v)]
  | (k', v') :: d' =>
      if String.eqb k k' then (k', v) :: d' else (k', v') :: set k v d'
  end.

Definition keys {V} (d : t V) : list string := map fst d.

Definition values {V} (d : t V) : list V := map snd d.

Definition mem {V} (k : string) (d : t V) : bool :=
  match get k d with Some _ => true | None => false end.

End Dict.

(** ** String primitives *)

(** [needle in s] for two strings. *)
Fixpoint contains (needle s : string) : bool :=
  String.prefix needle s ||
  match s with
  | EmptyString => false
  | String _ s' => contains needle s'
  end.

(** [s.split(sep)] for a non-empty [sep]: scan from the left, cutting at
    every non-overlapping occurrence.  [skip] counts the characters of a
    matched separator still to be dropped, [cur] is the piece being built. *)
Fixpoint split_aux (sep : string) (skip : nat) (cur : string) (s : string)
  : list string :=
  match s with
  | EmptyString => [cur]
  | String c s' =>
      match skip with
      | S k => split_aux sep k cur s'
      | O =>
          if String.prefix sep s
          then cur :: split_aux sep (String.length sep - 1) "" s'
          else split_aux sep 0 (cur +:+ String c "") s'
      end
  end.

Definition split (sep s : string) : list string := split_aux sep 0 "" s.

Definition isdigit (c : ascii) : bool :=
  let n := nat_of_ascii c in (48 <=? n)%nat && (n <=? 57)%nat.

(** [int(c)] for a one-character string. *)
Definition int_of_char (c : ascii) : result Z :=
  if isdigit c then Ok (Z.of_nat (nat_of_ascii c) - 48) else Raise ValueError.

Fixpoint chars (s : string) : list value :=
  match s with
  | EmptyString => []
  | String c s' => VStr (String c "") :: chars s'
  end.

(** ** Dynamic operations on values *)

Definition is_str (k : string) (v : value) : bool :=
  match v with VStr s => String.eqb k s | _ => false end.

(** [k in v] for a string [k]. *)
Definition py_in (k : string) (v : value) : result bool :=
  match v with
  | VDict d => Ok (Dict.mem k d)
  | VList l => Ok (existsb (is_str k) l)
  | VStr s => Ok (contains k s)
  | _ => Raise TypeError
  end.

(** [v[k]] for a string [k]. *)
Definition py_getitem (v : value) (k : string) : result value :=
  match v with
  | VDict d => match Dict.get k d with Some x => Ok x | None => Raise KeyError end
  | _ => Raise TypeError
  end.

(** [v[i]] for a natural number [i]. *)
Definition py_index (v : value) (i : nat) : result value :=
  match v with
  | VList l => match l !! i with Some x => Ok x | None => Raise IndexError end
  | VStr s => match String.get i s with
              | Some c => Ok (VStr (String c ""))
              | None => Raise IndexError
              end
  | VDict _ => Raise KeyError
  | _ => Raise TypeError
  end.

(** The elements a [for] loop over [v] visits. *)
Definition py_iter (v : value) : result (list value) :=
  match v with
  | VList l => Ok l
  | VDict d => Ok (map VStr (Dict.keys d))
  | VStr s => Ok (chars s)
  | _ => Raise TypeError
  end.

(** Truth value of [v] ([if v:], [not v]). *)
Definition py_truthy (v : value) : bool :=
  match v with
  | VNone => false
  | VBool b => b
  | VInt z => negb (z =? 0)
  | VStr s => negb (String.eqb s "")
  | VList l => match l with [] => false | _ => true end
  | VDict d => match d with [] => false | _ => true end
  | VRef _ => true
  | VFun _ => true
  end.

(** [a + b] where [a] is a string: [b] must be a string too. *)
Definition as_str (v : value) : result string :=
  match v with VStr s => Ok s | _ => Raise TypeError end.

(** ** WorkSpace: the request executor *)

Record WorkSpace : Type := {
  ws_name : string;
  ws_token : string;
  ws_apiUrl : string;
  ws_boards_limit : Z;
  ws_print_api_protocol : bool;
  ws_boards : Dict.t addr;
  (** [None]: the attribute is not set yet. *)
  ws_work_space_id : option value
}.

Definition budget_exhausted : string := "Complexity budget exhausted".
Definition reset_in : string := "reset in ".
Definition errors_file : string := "errors.txt".

(** [time.sleep(v)] *)
Definition sleep (v : value) : result unit * list event :=
  match v with
  | VInt z => if z <? 0 then (Raise ValueError, []) else (Ok tt, [Sleep z])
  | VBool b => (Ok tt, [Sleep (if b then 1 else 0)])
  | _ => (Raise TypeError, [])
  end.

(** Lines 168-182: the value of [seconds_to_rest] when [sleep] is reached,
    for a message that matched the rate-limit pattern. *)
Definition seconds_to_rest (error_message : value) : result value :=
  match py_in reset_in error_message with
  | Raise e => Raise e
  | Blocked => Blocked
  | Ok false => Ok (VInt 5)
  | Ok true =>
      match error_message with
      | VStr m =>
          match split reset_in m !! 1%nat with
          | None => Raise IndexError
          | Some piece =>
              match piece with
              | EmptyString => Raise IndexError
              | String c _ =>
                  if isdigit c
                  then match int_of_char c with
                       | Ok n => Ok (VInt (n + 1))
                       | Raise e => Raise e
                       | Blocked => Blocked
                       end
                  else Ok (VStr (String c EmptyString))
              end
          end
      | _ => (* no split method *) Raise AttributeError
      end
  end.

(** Lines 166-188: the rate-limit branch for the message [error_message],
    up to its [return False]. *)
Definition rest_for (error_message : value) : result unit * list event :=
  match seconds_to_rest error_message with
  | Ok v => sleep v
  | Raise e => (Raise e, [])
  | Blocked => (Blocked, [])
  end.

(** The body of [for error in errors] followed by the final
    [return False]. *)
Fixpoint errors_loop (errors : list value) : result bool * list event :=
  match errors with
  | [] => (Ok false, [])
  | error :: errors' =>
      match py_in "message" error with
      | Raise e => (Raise e, [])
      | Blocked => (Blocked, [])
      | Ok false => errors_loop errors'
      | Ok true =>
          match py_getitem error "message" with
          | Raise e => (Raise e, [])
          | Blocked => (Blocked, [])
          | Ok error_message =>
              match py_in budget_exhausted error_message with
              | Raise e => (Raise e, [])
              | Blocked => (Blocked, [])
              | Ok true =>
                  match rest_for error_message with
                  | (Ok _, ev) => (Ok false, ev)
                  | (Raise e, ev) => (Raise e, ev)
                  | (Blocked, ev) => (Blocked, ev)
                  end
              | Ok false =>
                  match error_message with
                  | VStr m =>
                      let '(r, ev) := errors_loop errors' in
                      (r, Append errors_file m :: ev)
                  | _ => (* write() of a non-str *) (Raise TypeError, [])
                  end
              end
          end
      end
  end.

Definition handle_response_errors (response : value)
  : result bool * list event :=
  match py_in "errors" response with
  | Raise e => (Raise e, [])
  | Blocked => (Blocked, [])
  | Ok false => (Ok true, [])
  | Ok true =>
      match py_getitem response "errors" with
      | Raise e => (Raise e, [])
      | Blocked => (Blocked, [])
      | Ok errors =>
          match py_iter errors with
          | Raise e => (Raise e, [])
          | Blocked => (Blocked, [])
          | Ok l => errors_loop l
          end
      end
  end.

(** What [post_request] does before the reply arrives. *)
Definition sending (self : WorkSpace) (query : string) : list event :=
  (if ws_print_api_protocol self
   then [Print [VStr "sending:"; VStr query]] else [])
  ++ [HttpPost (ws_apiUrl self) (ws_token self) query].

Definition received (self : WorkSpace) (response : value) : list event :=
  if ws_print_api_protocol self
  then [Print [VStr "received:"; response]; Print []] else [].

Definition untracked (self : WorkSpace) (query : string) (response : value)
  : list event :=
  if ws_print_api_protocol self
  then [Print [VStr "untracked error in post request:"];
        Print [VStr "query:"; VStr query];
        Print [VStr "error: "; response];
        Print []]
  else [].

(** [post_request]: the recursion of the source is on the replies the
    remote gives, one reply per call.  Returns the result, the replies not
    yet consumed, and the events. *)
Fixpoint post_request (self : WorkSpace) (query : string)
  (replies : list value) : result value * list value * list event :=
  match replies with
  | [] => (Blocked, [], sending self query)
  | response :: replies' =>
      match handle_response_errors response with
      | (Raise e, ev) => (Raise e, replies', sending self query ++ ev)
      | (Blocked, ev) => (Blocked, replies', sending self query ++ ev)
      | (Ok false, ev) =>
          let '(r, rest, ev') := post_request self query replies' in
          (r, rest, sending self query ++ ev ++ ev')
      | (Ok true, ev) =>
          match py_getitem response "data" with
          | Ok data =>
              (Ok data, replies',
               sending self query ++ ev ++ received self response)
          | _ =>
              (Ok VNone, replies',
               sending self query ++ ev ++ received self response
               ++ untracked self query response)
          end
      end
  end.

(** ** The object store *)

Record Board : Type := {
  b_work_space : value;
  b_name : string;
  b_columns : Dict.t addr;
  b_groups : Dict.t addr;
  (** [None]: the attribute is not set. *)
  b_board_id : option value
}.

Record Group : Type := {
  g_board : value;
  g_title : string;
  g_items : Dict.t addr;
  g_group_id : value
}.

Record Column : Type := {
  c_board : value;
  c_title : string;
  c_description : value;
  c_column_type : value;
  c_column_id : value
}.

Record Item : Type := {
  i_group : value;
  i_item_id : value;
  i_name : string;
  i_columns_values : Dict.t value
}.

(** The fields [InputBoard] adds to [Board]. *)
Record InputBoard : Type := {
  ib_board : Board;
  ib_status_column_id : value;
  ib_execution_dict : Dict.t value;
  ib_check_rate : value
}.

Inductive obj : Type :=
| OWorkSpace (w : WorkSpace)
| OBoard (b : Board)
| OInputBoard (ib : InputBoard)
| OGroup (g : Group)
| OColumn (c : Column)
| OItem (i : Item).

Record state : Type := {
  heap : list obj;
  (** The replies the remote will give, in order. *)
  replies : list value
}.

(** ** The monad of the program: state, exceptions and a trace *)

Definition M (A : Type) : Type := state -> result A * state * list event.

Definition ret {A} (a : A) : M A := fun s => (Ok a, s, []).

Definition bind {A B} (m : M A) (f : A -> M B) : M B :=
  fun s =>
    match m s with
    | (Ok a, s', ev) => let '(r, s'', ev') := f a s' in (r, s'', ev ++ ev')
    | (Raise e, s', ev) => (Raise e, s', ev)
    | (Blocked, s', ev) => (Blocked, s', ev)
    end.

Notation "x <- m ;; k" := (bind m (fun x => k))
  (at level 100, m at next level, right associativity).
Notation "m ;;; k" := (bind m (fun _ => k))
  (at level 100, right associativity).

Definition raise {A} (e : exn) : M A := fun s => (Raise e, s, []).

Definition emit (e : event) : M unit := fun s => (Ok tt, s, [e]).

Definition lift {A} (r : result A) : M A := fun s => (r, s, []).

Definition alloc (o : obj) : M addr :=
  fun s =>
    (Ok (List.length (heap s)),
     {| heap := heap s ++ [o]; replies := replies s |}, []).

Definition store (a : addr) (o : obj) : M unit :=
  fun s => (Ok tt, {| heap := <[a := o]> (heap s); replies := replies s |}, []).

(** Attribute access on a value: anything that is not an object of the
    expected class has no such attribute. *)
Definition get_obj (v : value) : M obj :=
  fun s =>
    match v with
    | VRef a => match heap s !! a with
                | Some o => (Ok o, s, [])
                | None => (Raise AttributeError, s, [])
                end
    | _ => (Raise AttributeError, s, [])
    end.

Definition get_ws (v : value) : M WorkSpace :=
  o <- get_obj v ;;
  match o with OWorkSpace w => ret w | _ => raise AttributeError end.

Definition board_of (o : obj) : option Board :=
  match o with
  | OBoard b => Some b
  | OInputBoard ib => Some (ib_board ib)
  | _ => None
  end.

Definition with_board (o : obj) (b : Board) : obj :=
  match o with
  | OInputBoard ib =>
      OInputBoard {| ib_board := b;
                     ib_status_column_id := ib_status_column_id ib;
                     ib_execution_dict := ib_execution_dict ib;
                     ib_check_rate := ib_check_rate ib |}
  | _ => OBoard b
  end.

Definition get_board (v : value) : M Board :=
  o <- get_obj v ;;
  match board_of o with Some b => ret b | None => raise AttributeError end.

Definition get_group (v : value) : M Group :=
  o <- get_obj v ;;
  match o with OGroup g => ret g | _ => raise AttributeError end.

Definition get_column (v : value) : M Column :=
  o <- get_obj v ;;
  match o with OColumn c => ret c | _ => raise AttributeError end.

Definition get_item (v : value) : M Item :=
  o <- get_obj v ;;
  match o with OItem i => ret i | _ => raise AttributeError end.

Definition get_attr {A} (x : option A) : M A :=
  match x with Some a => ret a | None => raise AttributeError end.

Definition dict_lookup {V} (k : string) (d : Dict.t V) : M V :=
  match Dict.get k d with Some v => ret v | None => raise KeyError end.

(** [self.post_request(query)] on the workspace [self]. *)
Definition WorkSpace_post_request (self : WorkSpace) (query : string) : M value :=
  fun s =>
    let '(r, rest, ev) := post_request self query (replies s) in
    (r, {| heap := heap s; replies := rest |}, ev).

Definition no_boards_message : string :=
  "Please create at least one board, can't locate an empty workspace.".

(** [WorkSpace.get_ws_id] *)
Definition get_ws_id (self : value) : M value :=
  w <- get_ws self ;;
  match Dict.values (ws_boards w) with
  | [] => emit (Print [VStr no_boards_message]) ;;; ret VNone
  | first :: _ =>
      b <- get_board (VRef first) ;;
      id <- get_attr (b_board_id b) ;;
      board_id <- lift (as_str id) ;;
      r <- WorkSpace_post_request w
             ("{ boards (ids:" +:+ board_id +:+ "){id name workspace {id name} }}") ;;
      boards <- lift (py_getitem r "boards") ;;
      board <- lift (py_index boards 0) ;;
      workspace <- lift (py_getitem board "workspace") ;;
      lift (py_getitem workspace "id")
  end.

(** ** The entity model *)

(** The double quote and the backslash, which the queries embed. *)
Definition dq : string := String "034"%char EmptyString.
Definition bs : string := String "092"%char EmptyString.
(** A backslash and a double quote: the escaped quote of the source. *)
Definition esc_dq : string := bs +:+ dq.

(** The entries of a board-detail reply, as the detail query shapes them:
    [groups{id title} columns{id title type description}
     items{id name group{id title} column_values{id text}}]. *)
Record column_json : Type := {
  cj_id : value;
  cj_title : string;
  cj_type : value;
  cj_description : value
}.

Record group_json : Type := {
  gj_id : value;
  gj_title : string
}.

Record item_json : Type := {
  ij_id : value;
  ij_name : string;
  ij_group : group_json;
  (** [(id, text)] pairs. *)
  ij_column_values : list (string * value)
}.

Definition update_board (self : addr) (f : Board -> Board) : M unit :=
  o <- get_obj (VRef self) ;;
  match board_of o with
  | Some b => store self (with_board o (f b))
  | None => raise AttributeError
  end.

Definition set_b_columns (cols : Dict.t addr) (b : Board) : Board :=
  {| b_work_space := b_work_space b; b_name := b_name b;
     b_columns := cols; b_groups := b_groups b;
     b_board_id := b_board_id b |}.

Definition set_b_groups (groups : Dict.t addr) (b : Board) : Board :=
  {| b_work_space := b_work_space b; b_name := b_name b;
     b_columns := b_columns b; b_groups := groups;
     b_board_id := b_board_id b |}.

Definition set_b_board_id (id : value) (b : Board) : Board :=
  {| b_work_space := b_work_space b; b_name := b_name b;
     b_columns := b_columns b; b_groups := b_groups b;
     b_board_id := Some id |}.

Definition set_g_items (items : Dict.t addr) (g : Group) : Group :=
  {| g_board := g_board g; g_title := g_title g;
     g_items := items; g_group_id := g_group_id g |}.

(** [Column.__init__] *)
Definition Column_init (board : value) (title : string)
  (description column_type column_id : value) : M addr :=
  if py_truthy column_id
  then alloc (OColumn {| c_board := board; c_title := title;
                         c_description := description;
                         c_column_type := column_type;
                         c_column_id := column_id |})
  else
    b <- get_board board ;;
    ws <- get_ws (b_work_space b) ;;
    id <- get_attr (b_board_id b) ;;
    board_id <- lift (as_str id) ;;
    d <- lift (as_str description) ;;
    ty <- lift (as_str column_type) ;;
    r <- WorkSpace_post_request ws
           ("mutation{ create_column(board_id: " +:+ board_id +:+ ", title:" +:+ dq
            +:+ title +:+ dq +:+ ", description: " +:+ dq +:+ d +:+ dq
            +:+ ", column_type:" +:+ ty +:+ ") { id title description } }") ;;
    cc <- lift (py_getitem r "create_column") ;;
    new_id <- lift (py_getitem cc "id") ;;
    alloc (OColumn {| c_board := board; c_title := title;
                      c_description := description;
                      c_column_type := column_type;
                      c_column_id := new_id |}).

(** [Group.__init__] *)
Definition Group_init (board : value) (title : string) (group_id : value)
  : M addr :=
  if py_truthy group_id
  then alloc (OGroup {| g_board := board; g_title := title;
                        g_items := []; g_group_id := group_id |})
  else
    b <- get_board board ;;
    ws <- get_ws (b_work_space b) ;;
    id <- get_attr (b_board_id b) ;;
    board_id <- lift (as_str id) ;;
    r <- WorkSpace_post_request ws
           ("mutation { create_group (board_id: " +:+ board_id +:+ ", group_name: "
            +:+ dq +:+ title +:+ dq +:+ ") { id } }") ;;
    cg <- lift (py_getitem r "create_group") ;;
    new_id <- lift (py_getitem cg "id") ;;
    alloc (OGroup {| g_board := board; g_title := title;
                     g_items := []; g_group_id := new_id |}).

(** [Group.add_item]: [self.items[item.name] = item] *)
Definition Group_add_item (self : value) (item : addr) : M unit :=
  g <- get_group self ;;
  i <- get_item (VRef item) ;;
  match self with
  | VRef a => store a (OGroup (set_g_items (Dict.set (i_name i) item (g_items g)) g))
  | _ => raise AttributeError
  end.

(** [Item.set_columns]: the loop [self.columns_values[cv['id']] = cv['text']] *)
Definition Item_set_columns (json_columns_values : option (list (string * value)))
  : result (Dict.t value) :=
  match json_columns_values with
  | None => Raise TypeError
  | Some l => Ok (fold_left (fun d cv => Dict.set (fst cv) (snd cv) d) l [])
  end.

(** [s[:-2]] *)
Definition drop_last_two (s : string) : string :=
  String.substring 0 (String.length s - 2) s.

Definition create_item_query (board_id group_id name json : string) : string :=
  "mutation {create_item (board_id: " +:+ board_id +:+ ", group_id: "
  +:+ dq +:+ group_id +:+ dq +:+ ", item_name: " +:+ dq +:+ name
  +:+ dq +:+ ", column_values: " +:+ dq +:+ json +:+ dq +:+ ") { id } }".

Section Serialization.

(** [json.dumps] and [str] of the Python library. *)
Variable json_dumps : value -> string.
Variable py_str : value -> string.

(** One pass of the loop over [columns_values] in [Item.__init__]:
    what is appended to [columns_values_json] for one pair. *)
Definition column_value_fragment (group : value) (column_title : string)
  (v : value) : M string :=
  match v with
  | VStr s =>
      g <- get_group group ;;
      b <- get_board (g_board g) ;;
      ca <- dict_lookup column_title (b_columns b) ;;
      c <- get_column (VRef ca) ;;
      column_id <- lift (as_str (c_column_id c)) ;;
      ret (esc_dq +:+ column_id +:+ esc_dq +:+ ": " +:+ esc_dq +:+ s
           +:+ esc_dq +:+ ", ")
  | VDict _ =>
      g <- get_group group ;;
      b <- get_board (g_board g) ;;
      ca <- dict_lookup column_title (b_columns b) ;;
      c <- get_column (VRef ca) ;;
      column_id <- lift (as_str (c_column_id c)) ;;
      ret (esc_dq +:+ column_id +:+ esc_dq +:+ ": " +:+ json_dumps v
           +:+ ", ")
  | _ => ret ""
  end.

Fixpoint columns_values_loop (group : value)
  (columns_values : list (string * value)) (acc : string) : M string :=
  match columns_values with
  | [] => ret acc
  | (column_title, v) :: rest =>
      frag <- column_value_fragment group column_title v ;;
      columns_values_loop group rest (acc +:+ frag)
  end.

(** Lines 710-725: the text placed in [column_values: "..."]. *)
Definition columns_values_json (group : value)
  (columns_values : list (string * value)) : M string :=
  s <- columns_values_loop group columns_values "{" ;;
  ret ((if (1 <? String.length s)%nat then drop_last_two s else s) +:+ "}").

(** [Item.__init__] *)
Definition Item_init (group : value) (name : string) (item_id : value)
  (json_columns_values : option (list (string * value)))
  (columns_values : list (string * value)) : M addr :=
  if py_truthy item_id
  then
    cvs <- lift (Item_set_columns json_columns_values) ;;
    alloc (OItem {| i_group := group; i_item_id := item_id;
                    i_name := name; i_columns_values := cvs |})
  else
    json <- columns_values_json group columns_values ;;
    g <- get_group group ;;
    b <- get_board (g_board g) ;;
    ws <- get_ws (b_work_space b) ;;
    id <- get_attr (b_board_id b) ;;
    board_id <- lift (as_str id) ;;
    group_id <- lift (as_str (g_group_id g)) ;;
    r <- WorkSpace_post_request ws
           (create_item_query board_id group_id name json) ;;
    ci <- lift (py_getitem r "create_item") ;;
    new_id <- lift (py_getitem ci "id") ;;
    alloc (OItem {| i_group := group; i_item_id := new_id;
                    i_name := name; i_columns_values := [] |}).

(** [Board.set_columns] *)
Fixpoint set_columns_loop (self : addr) (json_columns : list column_json)
  : M unit :=
  match json_columns with
  | [] => ret tt
  | column :: rest =>
      c <- Column_init (VRef self) (cj_title column) (cj_description column)
             (cj_type column) (cj_id column) ;;
      update_board self
        (fun b => set_b_columns (Dict.set (cj_title column) c (b_columns b)) b) ;;;
      set_columns_loop self rest
  end.

Definition Board_set_columns (self : addr)
  (json_columns : option (list column_json)) : M unit :=
  match json_columns with
  | None => raise TypeError
  | Some l => set_columns_loop self l
  end.

(** [Board.set_groups] *)
Fixpoint set_groups_loop (self : addr) (json_groups : list group_json)
  : M unit :=
  match json_groups with
  | [] => ret tt
  | group :: rest =>
      g <- Group_init (VRef self) (gj_title group) (gj_id group) ;;
      update_board self
        (fun b => set_b_groups (Dict.set (gj_title group) g (b_groups b)) b) ;;;
      set_groups_loop self rest
  end.

(** [Board.set_items] *)
Fixpoint set_items_loop (self : addr) (json_items : list item_json)
  : M unit :=
  match json_items with
  | [] => ret tt
  | item :: rest =>
      let item_group_title := gj_title (ij_group item) in
      new_item <- Item_init (VStr item_group_title) (ij_name item)
                    (ij_id item) (Some (ij_column_values item)) [] ;;
      b <- get_board (VRef self) ;;
      g <- dict_lookup item_group_title (b_groups b) ;;
      Group_add_item (VRef g) new_item ;;;
      set_items_loop self rest
  end.

Definition Board_set_items (self : addr)
  (json_items : option (list item_json)) : M unit :=
  match json_items with
  | None => raise TypeError
  | Some l => set_items_loop self l
  end.

(** [Board.add_column]: [self.columns[column.title] = column] *)
Definition Board_add_column (self : addr) (column : addr) : M unit :=
  c <- get_column (VRef column) ;;
  update_board self
    (fun b => set_b_columns (Dict.set (c_title c) column (b_columns b)) b).

(** [Board.add_group] *)
Definition Board_add_group (self : addr) (group : addr) : M unit :=
  g <- get_group (VRef group) ;;
  update_board self
    (fun b => set_b_groups (Dict.set (g_title g) group (b_groups b)) b).

(** Lines 287-299 of [Board.__init__]: the board is already on monday. *)
Definition Board_hydrate (self : addr) (board_id : value)
  (json_groups : list group_json)
  (json_columns : option (list column_json))
  (json_items : option (list item_json)) : M unit :=
  update_board self (set_b_board_id board_id) ;;;
  Board_set_columns self json_columns ;;;
  set_groups_loop self json_groups ;;;
  Board_set_items self json_items.

(** The loop that removes the default groups of a board. *)
Fixpoint delete_groups_loop (ws : WorkSpace) (self : addr)
  (groups : list value) : M unit :=
  match groups with
  | [] => ret tt
  | group :: rest =>
      b <- get_board (VRef self) ;;
      id <- get_attr (b_board_id b) ;;
      board_id <- lift (as_str id) ;;
      gid <- lift (py_getitem group "id") ;;
      group_id <- lift (as_str gid) ;;
      WorkSpace_post_request ws
        ("mutation { delete_group (board_id: " +:+ board_id +:+ ", group_id: "
         +:+ dq +:+ group_id +:+ dq +:+ ") { id deleted } }") ;;;
      delete_groups_loop ws self rest
  end.

Definition delete_default_groups (ws : WorkSpace) (self : addr) : M unit :=
  b <- get_board (VRef self) ;;
  id <- get_attr (b_board_id b) ;;
  board_id <- lift (as_str id) ;;
  r <- WorkSpace_post_request ws
         ("{ boards (ids: " +:+ board_id +:+ ") {id groups{id title}} }") ;;
  boards <- lift (py_getitem r "boards") ;;
  board <- lift (py_index boards 0) ;;
  groups <- lift (py_getitem board "groups") ;;
  l <- lift (py_iter groups) ;;
  delete_groups_loop ws self l.

(** Lines 329-354: the search for the board among the listed ones. *)
Fixpoint find_board_loop (ws : WorkSpace) (self : addr) (name : string)
  (boards : list value) : M unit :=
  match boards with
  | [] => ret tt
  | board :: rest =>
      w <- lift (py_getitem board "workspace") ;;
      if negb (py_truthy w) then find_board_loop ws self name rest
      else
        wn <- lift (py_getitem w "name") ;;
        if negb (is_str (ws_name ws) wn) then find_board_loop ws self name rest
        else
          bn <- lift (py_getitem board "name") ;;
          if negb (is_str name bn) then find_board_loop ws self name rest
          else
            id <- lift (py_getitem board "id") ;;
            update_board self (set_b_board_id id) ;;;
            delete_default_groups ws self
  end.

(** [WorkSpace.add_board]: [self.boards[board.name] = board] *)
Definition WorkSpace_add_board (self : value) (board : addr) : M unit :=
  b <- get_board (VRef board) ;;
  w <- get_ws self ;;
  match self with
  | VRef a =>
      store a (OWorkSpace
                 {| ws_name := ws_name w; ws_token := ws_token w;
                    ws_apiUrl := ws_apiUrl w;
                    ws_boards_limit := ws_boards_limit w;
                    ws_print_api_protocol := ws_print_api_protocol w;
                    ws_boards := Dict.set (b_name b) board (ws_boards w);
                    ws_work_space_id := ws_work_space_id w |})
  | _ => raise AttributeError
  end.

(** Lines 302-357 of [Board.__init__]: the board is created on monday,
    or looked up there when [exists] is set. *)
Definition Board_create (self : addr) (ws : value) (name : string)
  (exists_ : bool) : M unit :=
  (if negb exists_
   then
     w <- get_ws ws ;;
     wid <- get_attr (ws_work_space_id w) ;;
     r <- WorkSpace_post_request w
            ("mutation { create_board (board_name: " +:+ dq +:+ name +:+ dq
             +:+ ", board_kind: private, workspace_id: " +:+ py_str wid
             +:+ ") { id } }") ;;
     cb <- lift (py_getitem r "create_board") ;;
     id <- lift (py_getitem cb "id") ;;
     update_board self (set_b_board_id id) ;;;
     delete_default_groups w self
   else
     w <- get_ws ws ;;
     boards_names <- WorkSpace_post_request w
                       "{ boards {id name workspace {id name} }}" ;;
     boards <- lift (py_getitem boards_names "boards") ;;
     l <- lift (py_iter boards) ;;
     find_board_loop w self name l) ;;;
  WorkSpace_add_board ws self.

(** [Board.__init__] *)
Definition Board_init (ws : value) (name : string) (exists_ : bool)
  (json_groups : option (list group_json))
  (json_columns : option (list column_json))
  (json_items : option (list item_json)) (board_id : value) : M addr :=
  self <- alloc (OBoard {| b_work_space := ws; b_name := name;
                           b_columns := []; b_groups := [];
                           b_board_id := None |}) ;;
  match json_groups with
  | Some (g :: gs) =>
      Board_hydrate self board_id (g :: gs) json_columns json_items ;;;
      ret self
  | _ => Board_create self ws name exists_ ;;; ret self
  end.

End Serialization.

(** ** The polling dispatcher and the handler threads *)

Definition get_input_board (v : value) : M InputBoard :=
  o <- get_obj v ;;
  match o with OInputBoard ib => ret ib | _ => raise AttributeError end.

Definition lift_ev {A} (x : result A * list event) : M A :=
  fun s => (fst x, s, snd x).

(** [d[k]] where the key [k] is any value and the keys of [d] are strings. *)
Definition dict_lookup_value {V} (k : value) (d : Dict.t V) : M V :=
  match k with
  | VStr s => dict_lookup s d
  | VList _ | VDict _ => raise TypeError
  | _ => raise KeyError
  end.

Definition items_query (board_id : string) : string :=
  "{ boards (ids: " +:+ board_id
  +:+ ") {id items{id name group {id title} column_values {title value}}} }".

(** The status mutation: [index] is 0 (working on it) or 1 (done). *)
Definition status_query (board_id item_id status_column_id index : string)
  : string :=
  "mutation { change_column_value (board_id: " +:+ board_id +:+ ", item_id: "
  +:+ item_id +:+ ", column_id: " +:+ dq +:+ status_column_id +:+ dq
  +:+ ", value: " +:+ dq +:+ "{" +:+ esc_dq +:+ "index" +:+ esc_dq +:+ " : "
  +:+ index +:+ "}" +:+ dq +:+ ") { id } }".

(** [current_item['column_values'][0]['value']] *)
Definition first_value (current_item : value) : result value :=
  match py_getitem current_item "column_values" with
  | Ok cvs =>
      match py_index cvs 0 with
      | Ok cv => py_getitem cv "value"
      | Raise e => Raise e
      | Blocked => Blocked
      end
  | Raise e => Raise e
  | Blocked => Blocked
  end.

(** Lines 465-470: the status of the item is set to working on it. *)
Definition mark_in_progress (self : value) (current_item : value) : M value :=
  ib <- get_input_board self ;;
  ws <- get_ws (b_work_space (ib_board ib)) ;;
  id <- get_attr (b_board_id (ib_board ib)) ;;
  board_id <- lift (as_str id) ;;
  iid <- lift (py_getitem current_item "id") ;;
  item_id <- lift (as_str iid) ;;
  status_column_id <- lift (as_str (ib_status_column_id ib)) ;;
  WorkSpace_post_request ws
    (status_query board_id item_id status_column_id "0").

(** Lines 472-478: the handler of the item's group is started as a thread. *)
Definition start_analyzer (self : value) (current_item : value) : M unit :=
  iid <- lift (py_getitem current_item "id") ;;
  ib <- get_input_board self ;;
  group <- lift (py_getitem current_item "group") ;;
  title <- lift (py_getitem group "title") ;;
  function <- dict_lookup_value title (ib_execution_dict ib) ;;
  name <- lift (py_getitem current_item "name") ;;
  emit (Start {| a_input_board := self; a_item_id := iid;
                 a_function := function;
                 a_inputs := [("item_name", name)] |}).

(** Lines 465-478: what the dispatcher does for a new item. *)
Definition dispatch_item (self : value) (current_item : value) : M unit :=
  mark_in_progress self current_item ;;;
  start_analyzer self current_item.

(** Lines 460-478: the loop over the items of one poll. *)
Fixpoint dispatch_items (self : value) (items_json : list value) : M unit :=
  match items_json with
  | [] => ret tt
  | current_item :: rest =>
      v <- lift (first_value current_item) ;;
      (if py_truthy v then ret tt else dispatch_item self current_item) ;;;
      dispatch_items self rest
  end.

(** Lines 454-457: the items of the board, as the remote lists them. *)
Definition fetch_items (self : value) : M (list value) :=
  ib <- get_input_board self ;;
  ws <- get_ws (b_work_space (ib_board ib)) ;;
  id <- get_attr (b_board_id (ib_board ib)) ;;
  board_id <- lift (as_str id) ;;
  r <- WorkSpace_post_request ws (items_query board_id) ;;
  boards <- lift (py_getitem r "boards") ;;
  board <- lift (py_index boards 0) ;;
  items <- lift (py_getitem board "items") ;;
  lift (py_iter items).

(** One pass through the body of [while True] in [InputBoard.manager]. *)
Definition poll_cycle (self : value) : M unit :=
  items_json <- fetch_items self ;;
  dispatch_items self items_json ;;;
  ib <- get_input_board self ;;
  lift_ev (sleep (ib_check_rate ib)).

(** [InputBoard.manager], observed for [cycles] passes of its loop. *)
Fixpoint InputBoard_manager (self : value) (cycles : nat) : M unit :=
  match cycles with
  | O => ret tt
  | S n => poll_cycle self ;;; InputBoard_manager self n
  end.

Section Handlers.

(** Calling an integrator-supplied function with keyword arguments. *)
Variable call : value -> list (string * value) -> M value.

(** [Analyzer.manager] *)
Definition Analyzer_manager (self : Analyzer) : M value :=
  call (a_function self) (a_inputs self) ;;;
  b <- get_board (a_input_board self) ;;
  ws <- get_ws (b_work_space b) ;;
  id <- get_attr (b_board_id b) ;;
  board_id <- lift (as_str id) ;;
  item_id <- lift (as_str (a_item_id self)) ;;
  ib <- get_input_board (a_input_board self) ;;
  status_column_id <- lift (as_str (ib_status_column_id ib)) ;;
  WorkSpace_post_request ws
    (status_query board_id item_id status_column_id "1") ;;;
  ret VNone.

End Handlers.

(** [Item.add_update] *)
Definition Item_add_update (self : addr) (content : string) : M value :=
  i <- get_item (VRef self) ;;
  item_id <- lift (as_str (i_item_id i)) ;;
  g <- get_group (i_group i) ;;
  b <- get_board (g_board g) ;;
  ws <- get_ws (b_work_space b) ;;
  WorkSpace_post_request ws
    ("mutation { create_update (item_id: " +:+ item_id +:+ ", body: " +:+ dq
     +:+ content +:+ dq +:+ ") { id } }") ;;;
  ret VNone.

(** [board.add_column(Column(board=board, ...))]: the way the source
    registers a column that it constructs (lines 432, 853-858). *)
Definition add_new_column (self : addr) (title : string)
  (description column_type column_id : value) : M addr :=
  c <- Column_init (VRef self) title description column_type column_id ;;
  Board_add_column self c ;;;
  ret c.

(** ** Vocabulary of the statements *)

(** The queries posted in a trace, in order. *)
Definition posts (ev : list event) : list string :=
  flat_map (fun e => match e with HttpPost _ _ q => [q] | _ => [] end) ev.

(** The threads started in a trace, in order. *)
Definition starts (ev : list event) : list Analyzer :=
  flat_map (fun e => match e with Start a => [a] | _ => [] end) ev.

(** An error entry that is not a rate-limit one: a dict whose message, if
    any, is a text without the rate-limit pattern. *)
Definition other_error (error : value) : bool :=
  match error with
  | VDict d =>
      match Dict.get "message" d with
      | None => true
      | Some (VStr m) => negb (contains budget_exhausted m)
      | Some _ => false
      end
  | _ => false
  end.

Definition message_of (error : value) : list string :=
  match error with
  | VDict d => match Dict.get "message" d with Some (VStr m) => [m] | _ => [] end
  | _ => []
  end.

Definition messages (errors : list value) : list string :=
  flat_map message_of errors.

Definition rate_limit_response (m : string) : value :=
  VDict [("errors", VList [VDict [("message", VStr m)]])].

(** The objects that hydration builds from the entries of a reply. *)
Definition mk_column (board : value) (c : column_json) : obj :=
  OColumn {| c_board := board; c_title := cj_title c;
             c_description := cj_description c;
             c_column_type := cj_type c; c_column_id := cj_id c |}.

Definition mk_group (board : value) (g : group_json) : obj :=
  OGroup {| g_board := board; g_title := gj_title g;
            g_items := []; g_group_id := gj_id g |}.

Definition mk_item (i : item_json) : Item :=
  {| i_group := VStr (gj_title (ij_group i)); i_item_id := ij_id i;
     i_name := ij_name i;
     i_columns_values :=
       fold_left (fun d cv => Dict.set (fst cv) (snd cv) d)
         (ij_column_values i) [] |}.

(** Registering the objects allocated at [base], [base + 1], ... under
    their titles, in order. *)
Fixpoint register (base : nat) (titles : list string) (d : Dict.t addr)
  : Dict.t addr :=
  match titles with
  | [] => d
  | t :: ts => register (S base) ts (Dict.set t base d)
  end.

(** The same for the items of the group titled [title]: the items of other
    groups take an address but are not registered here. *)
Fixpoint register_items (base : nat) (items : list item_json)
  (title : string) (d : Dict.t addr) : Dict.t addr :=
  match items with
  | [] => d
  | i :: rest =>
      register_items (S base) rest title
        (if String.eqb (gj_title (ij_group i)) title
         then Dict.set (ij_name i) base d else d)
  end.






(** The entries, each one followed by [", "]. *)
Fixpoint trailing_entries (l : list string) : string :=
  match l with
  | [] => ""
  | x :: rest => x +:+ ", " +:+ trailing_entries rest
  end.

(** The dispatcher's test on an item: its first column value is empty. *)
Definition unprocessed (current_item : value) : bool :=
  match first_value current_item with
  | Ok v => negb (py_truthy v)
  | _ => false
  end.




Definition done_mutation (board_id item_id status_column_id : string)
  : string :=
  "mutation { change_column_value (board_id: " +:+ board_id +:+ ", item_id: "
  +:+ item_id +:+ ", column_id: " +:+ dq +:+ status_column_id +:+ dq
  +:+ ", value: " +:+ dq +:+ "{" +:+ bs +:+ dq +:+ "index" +:+ bs +:+ dq
  +:+ " : 1}" +:+ dq +:+ ") { id } }".

(** The thread that the dispatcher binds to an item: the item's id, the
    function registered for its group title, the item's name as input. *)
Definition analyzer_for (self : value) (ib : InputBoard) (current_item : value)
  : option Analyzer :=
  match py_getitem current_item "id", py_getitem current_item "group",
        py_getitem current_item "name" with
  | Ok iid, Ok group, Ok name =>
      match py_getitem group "title" with
      | Ok (VStr title) =>
          match Dict.get title (ib_execution_dict ib) with
          | Some function =>
              Some {| a_input_board := self; a_item_id := iid;
                      a_function := function;
                      a_inputs := [("item_name", name)] |}
          | None => None
          end
      | _ => None
      end
  | _, _, _ => None
  end.

(** The input board at [self] is set up: its workspace, its remote id and
    the id of its status column are in place. *)
Definition input_board_ready (h : list obj) (self : value) (ib : InputBoard)
  (w : WorkSpace) (board_id status_column_id : string) : Prop :=
  exists ia wa,
    self = VRef ia /\ h !! ia = Some (OInputBoard ib)
    /\ b_work_space (ib_board ib) = VRef wa /\ h !! wa = Some (OWorkSpace w)
    /\ b_board_id (ib_board ib) = Some (VStr board_id)
    /\ ib_status_column_id ib = VStr status_column_id.


(** The post that marks the item of the thread [a] as in progress: [e] is
    the status mutation with index 0 for an unprocessed item of
    [items_json] to which the dispatcher binds [a]. *)
Definition marks (self : value) (ib : InputBoard) (w : WorkSpace)
  (board_id status_column_id : string) (items_json : list value)
  (a : Analyzer) (e : event) : Prop :=
  exists current_item item_id,
    In current_item items_json
    /\ unprocessed current_item = true
    /\ analyzer_for self ib current_item = Some a
    /\ py_getitem current_item "id" = Ok (VStr item_id)
    /\ e = HttpPost (ws_apiUrl w) (ws_token w)
             (status_query board_id item_id status_column_id "0").

(** Every thread start in the trace comes after an event related to it. *)
Definition preceded (P : Analyzer -> event -> Prop) (ev : list event) : Prop :=
  forall k a, ev !! k = Some (Start a) ->
              exists j e, (j < k)%nat /\ ev !! j = Some e /\ P a e.

(** Every query posted in the trace is the in-progress mutation of an
    unprocessed item. *)
Definition only_marks (board_id status_column_id : string)
  (items_json : list value) (ev : list event) : Prop :=
  forall q, In q (posts ev) ->
            exists current_item item_id,
              In current_item items_json
              /\ unprocessed current_item = true
              /\ py_getitem current_item "id" = Ok (VStr item_id)
              /\ q = status_query board_id item_id status_column_id "0".

(** A reader leaves the state alone and is silent. *)
Definition reader {A} (m : M A) : Prop :=
  forall s, exists r, m s = (r, s, []).

(** The heap of the state is what the readers look at. *)
Definition board_at (h : list obj) (a : addr) (b : Board) : Prop :=
  exists o, h !! a = Some o /\ board_of o = Some b.

(** Distinct keys have distinct objects. *)
Definition injective (d : Dict.t addr) : Prop :=
  forall k1 k2 a, Dict.get k1 d = Some a -> Dict.get k2 d = Some a -> k1 = k2.

(** Every object of the dictionary is below the address [n]. *)
Definition bounded (d : Dict.t addr) (n : nat) : Prop :=
  forall k a, Dict.get k d = Some a -> (a < n)%nat.

(** Events of the request executor other than the post itself. *)
Definition silent (ev : list event) : Prop := posts ev = [] /\ starts ev = [].

(** ** The other methods of the entities *)

(** The loop of [Group.set_items]:
    [items[item['name']] = Item(group=self, item_id=item['id'], name=item['name'])] *)
Fixpoint Group_set_items_loop (json_dumps : value -> string) (self : addr)
  (json_items : list item_json) (items : Dict.t value) : M (Dict.t value) :=
  match json_items with
  | [] => ret items
  | item :: rest =>
      i <- Item_init json_dumps (VRef self) (ij_name item) (ij_id item) None [] ;;
      Group_set_items_loop json_dumps self rest
        (Dict.set (ij_name item) (VRef i) items)
  end.

(** [Group.set_items]: an empty list for no items, else the dict of the
    items built. *)
Definition Group_set_items (json_dumps : value -> string) (self : addr)
  (json_items : option (list item_json)) : M value :=
  match json_items with
  | None | Some [] => ret (VList [])
  | Some l =>
      items <- Group_set_items_loop json_dumps self l [] ;;
      ret (VDict items)
  end.

Definition groups_query (board_id : string) : string :=
  "{ boards (ids: " +:+ board_id +:+ ") {id groups {id title}}}".

(** The loop of [Group.get_id] and the [return ''] after it. *)
Fixpoint find_group_id (title : string) (groups : list value) : result value :=
  match groups with
  | [] => Ok (VStr "")
  | group :: rest =>
      match py_getitem group "title" with
      | Ok t =>
          if is_str title t then py_getitem group "id"
          else find_group_id title rest
      | Raise e => Raise e
      | Blocked => Blocked
      end
  end.

(** [Group.get_id] *)
Definition Group_get_id (self : addr) : M value :=
  g <- get_group (VRef self) ;;
  b <- get_board (g_board g) ;;
  ws <- get_ws (b_work_space b) ;;
  id <- get_attr (b_board_id b) ;;
  board_id <- lift (as_str id) ;;
  r <- WorkSpace_post_request ws (groups_query board_id) ;;
  boards <- lift (py_getitem r "boards") ;;
  board <- lift (py_index boards 0) ;;
  groups <- lift (py_getitem board "groups") ;;
  l <- lift (py_iter groups) ;;
  lift (find_group_id (g_title g) l).

(** The mutation of [Item.add_link]: the link with its display text. *)
Definition link_query (board_id item_id column_id link text : string) : string :=
  "mutation { change_column_value (board_id: " +:+ board_id +:+ ", item_id: "
  +:+ item_id +:+ ", column_id: " +:+ dq +:+ column_id +:+ dq +:+ ", value: "
  +:+ dq +:+ "{" +:+ esc_dq +:+ "url" +:+ esc_dq +:+ ":" +:+ esc_dq +:+ link
  +:+ esc_dq +:+ "," +:+ esc_dq +:+ "text" +:+ esc_dq +:+ ":" +:+ esc_dq
  +:+ text +:+ esc_dq +:+ "}" +:+ dq +:+ ") { id } }".

(** The mutation of [Item.set_rating]. *)
Definition rating_query (board_id item_id column_id rating : string) : string :=
  "mutation { change_column_value (board_id: " +:+ board_id +:+ ", item_id: "
  +:+ item_id +:+ ", column_id: " +:+ dq +:+ column_id +:+ dq +:+ ", value: "
  +:+ dq +:+ "{" +:+ esc_dq +:+ "rating" +:+ esc_dq +:+ ":" +:+ rating +:+ "}"
  +:+ dq +:+ ") { id } }".

(** What the queries of [add_link] and [set_rating] read, in the order of
    the source: [self.group.board.board_id], [self.item_id],
    [self.group.board.columns[column_title].column_id]. *)
Definition column_value_target (self : addr) (column_title : string)
  : M (string * string * string) :=
  i <- get_item (VRef self) ;;
  g <- get_group (i_group i) ;;
  b <- get_board (g_board g) ;;
  id <- get_attr (b_board_id b) ;;
  board_id <- lift (as_str id) ;;
  item_id <- lift (as_str (i_item_id i)) ;;
  ca <- dict_lookup column_title (b_columns b) ;;
  c <- get_column (VRef ca) ;;
  column_id <- lift (as_str (c_column_id c)) ;;
  ret (board_id, item_id, column_id).

(** [self.group.board.work_space.post_request(query=query)] on an item. *)
Definition Item_post (self : addr) (query : string) : M value :=
  i <- get_item (VRef self) ;;
  g <- get_group (i_group i) ;;
  b <- get_board (g_board g) ;;
  ws <- get_ws (b_work_space b) ;;
  WorkSpace_post_request ws query ;;;
  ret VNone.

(** [Item.add_link] *)
Definition Item_add_link (self : addr) (column_title link description : string)
  : M value :=
  if negb (String.eqb description "")
  then
    t <- column_value_target self column_title ;;
    Item_post self (link_query t.1.1 t.1.2 t.2 link description)
  else
    t <- column_value_target self column_title ;;
    Item_post self (link_query t.1.1 t.1.2 t.2 link link).

(** [Item.set_rating] *)
Definition Item_set_rating (self : addr) (column_title : string) (v : value)
  : M value :=
  t <- column_value_target self column_title ;;
  rating <- lift (as_str v) ;;
  Item_post self (rating_query t.1.1 t.1.2 t.2 rating).

Definition status_title : string := "Execution Status".

(** [InputBoard.__init__]: the board is created as a [Board]; the fields
    of the input board are set once the status column is there. *)
Definition InputBoard_init (json_dumps py_str : value -> string) (ws : value)
  (name : string) (execution_dict : Dict.t value) (check_rate : value)
  : M addr :=
  self <- Board_init json_dumps py_str ws name false None None None VNone ;;
  add_new_column self status_title (VStr "") (VStr "status") VNone ;;;
  b <- get_board (VRef self) ;;
  ca <- dict_lookup status_title (b_columns b) ;;
  c <- get_column (VRef ca) ;;
  store self (OInputBoard {| ib_board := b;
                             ib_status_column_id := c_column_id c;
                             ib_execution_dict := execution_dict;
                             ib_check_rate := check_rate |}) ;;;
  ret self.

(** [InputBoard.update_handled_successfully]:
    [self.work_space.post_request()], a call without its argument. *)
Definition InputBoard_update_handled_successfully (self : value)
  (item_id : value) : M value :=
  b <- get_board self ;;
  ws <- get_ws (b_work_space b) ;;
  raise TypeError.

(** ** Vocabulary of the further statements *)

(** The reply [response] carries no error and answers with [data]. *)
Definition answers (response data : value) : Prop :=
  py_in "errors" response = Ok false /\ py_getitem response "data" = Ok data.

(** What a trace does besides printing. *)
Definition effects (ev : list event) : list event :=
  List.filter (fun e => match e with Print _ => false | _ => true end) ev.

(** The sleeps of a trace, in order. *)
Definition sleeps (ev : list event) : list Z :=
  flat_map (fun e => match e with Sleep z => [z] | _ => [] end) ev.

(** The texts appended to files in a trace, in order. *)
Definition appends (ev : list event) : list string :=
  flat_map (fun e => match e with Append _ m => [m] | _ => [] end) ev.

(** The rate-limit message [m] asks for a rest of [seconds]: 5 without a
    cool-down text, the digit plus 1 when the text starts with a digit. *)
Definition cool_down (m : string) (seconds : Z) : Prop :=
  (contains reset_in m = false /\ seconds = 5)
  \/ (exists c tl,
        contains reset_in m = true
        /\ split reset_in m !! 1%nat = Some (String c tl)
        /\ isdigit c = true
        /\ seconds = Z.of_nat (nat_of_ascii c) - 48 + 1).

(** An error entry with a rate-limit message that asks for [seconds]. *)
Definition rate_limit_error (error : value) (seconds : Z) : Prop :=
  exists d m,
    error = VDict d /\ Dict.get "message" d = Some (VStr m)
    /\ contains budget_exhausted m = true
    /\ cool_down m seconds.

(** The workspace with the print flag set to [flag]. *)
Definition with_print (flag : bool) (w : WorkSpace) : WorkSpace :=
  {| ws_name := ws_name w; ws_token := ws_token w; ws_apiUrl := ws_apiUrl w;
     ws_boards_limit := ws_boards_limit w; ws_print_api_protocol := flag;
     ws_boards := ws_boards w; ws_work_space_id := ws_work_space_id w |}.

(** The listed board [board] is the one that [Board.__init__] looks for:
    it is in the workspace named [ws_name] and its name is [name]. *)
Definition listed_as (ws_name name : string) (board : value) : bool :=
  match py_getitem board "workspace" with
  | Ok w =>
      py_truthy w
      && match py_getitem w "name" with
         | Ok wn => is_str ws_name wn
         | _ => false
         end
      && match py_getitem board "name" with
         | Ok bn => is_str name bn
         | _ => false
         end
  | _ => false
  end.

(** A listed board that the search passes over without an error. *)
Definition passed_over (ws_name name : string) (board : value) : bool :=
  match py_getitem board "workspace" with
  | Ok w =>
      negb (py_truthy w)
      || match py_getitem w "name" with
         | Ok wn =>
             negb (is_str ws_name wn)
             || match py_getitem board "name" with
                | Ok bn => negb (is_str name bn)
                | _ => false
                end
         | _ => false
         end
  | _ => false
  end.

(** The queries that the statements name, as the source writes them. *)
Definition identity_query (board_id : string) : string :=
  "{ boards (ids:" +:+ board_id +:+ "){id name workspace {id name} }}".

Definition create_board_query (name workspace_id : string) : string :=
  "mutation { create_board (board_name: " +:+ dq +:+ name +:+ dq
  +:+ ", board_kind: private, workspace_id: " +:+ workspace_id +:+ ") { id } }".

Definition default_groups_query (board_id : string) : string :=
  "{ boards (ids: " +:+ board_id +:+ ") {id groups{id title}} }".

Definition delete_group_query (board_id group_id : string) : string :=
  "mutation { delete_group (board_id: " +:+ board_id +:+ ", group_id: "
  +:+ dq +:+ group_id +:+ dq +:+ ") { id deleted } }".

Definition listing_query : string := "{ boards {id name workspace {id name} }}".

Definition create_column_query (board_id title description column_type : string)
  : string :=
  "mutation{ create_column(board_id: " +:+ board_id +:+ ", title:" +:+ dq
  +:+ title +:+ dq +:+ ", description: " +:+ dq +:+ description +:+ dq
  +:+ ", column_type:" +:+ column_type +:+ ") { id title description } }".

(** [data['boards'][0][key]] for the data of a reply. *)
Definition first_board_entry (data : value) (key : string) : result value :=
  match py_getitem data "boards" with
  | Ok boards =>
      match py_index boards 0 with
      | Ok board => py_getitem board key
      | Raise e => Raise e
      | Blocked => Blocked
      end
  | Raise e => Raise e
  | Blocked => Blocked
  end.

(** [data[key]['id']] for the data of a reply to a create mutation. *)
Definition created_id (data : value) (key : string) : result value :=
  match py_getitem data key with
  | Ok created => py_getitem created "id"
  | Raise e => Raise e
  | Blocked => Blocked
  end.

(** The workspace with [board] registered under [name]. *)
Definition with_board_registered (name : string) (board : addr) (w : WorkSpace)
  : WorkSpace :=
  {| ws_name := ws_name w; ws_token := ws_token w; ws_apiUrl := ws_apiUrl w;
     ws_boards_limit := ws_boards_limit w;
     ws_print_api_protocol := ws_print_api_protocol w;
     ws_boards := Dict.set name board (ws_boards w);
     ws_work_space_id := ws_work_space_id w |}.

(** A group entry of a reply whose title is not [title]. *)
Definition other_title (title : string) (group : value) : bool :=
  match py_getitem group "title" with
  | Ok t => negb (is_str title t)
  | _ => false
  end.

(** An item that the dispatcher passes over: its first column value is
    there and is not empty. *)
Definition processed (current_item : value) : bool :=
  match first_value current_item with
  | Ok v => py_truthy v
  | _ => false
  end.

(** The dictionary [d] with every address as a reference to its object. *)
Definition refs (d : Dict.t addr) : Dict.t value :=
  map (fun kv => (fst kv, VRef (snd kv))) d.

(** The object that [Item.__init__] builds for an item it creates on the
    remote: no column values are kept. *)
Definition created_item (group : value) (name : string) (item_id : value)
  : obj :=
  OItem {| i_group := group; i_item_id := item_id; i_name := name;
           i_columns_values := [] |}.

(** The text that [add_link] shows for the link. *)
Definition link_text (link description : string) : string :=
  if String.eqb description "" then link else description.

(** * Theorems *)

(** ** Dictionaries *)

Module DictFacts.

Lemma get_set_eq {V} k (v : V) d : Dict.get k (Dict.set k v d) = Some v.
Proof.
  induction d as [|[k' v'] d IH]; simpl.
  - by rewrite String.eqb_refl.
  - destruct (String.eqb k k') eqn:E; simpl; rewrite E; [done | exact IH].
Qed.

Lemma get_set_ne {V} k k' (v : V) d :
  k <> k' -> Dict.get k' (Dict.set k v d) = Dict.get k' d.
Proof.
  intros Hne. induction d as [|[k0 v0] d IH]; simpl.
  - destruct (String.eqb k' k) eqn:E; [|done].
    apply String.eqb_eq in E. congruence.
  - destruct (String.eqb k k0) eqn:E; simpl.
    + apply String.eqb_eq in E. subst k0.
      destruct (String.eqb k' k) eqn:E'; [|done].
      apply String.eqb_eq in E'. congruence.
    + destruct (String.eqb k' k0); [done | exact IH].
Qed.

Lemma keys_set {V} k (v : V) d t :
  In t (Dict.keys (Dict.set k v d)) <-> t = k \/ In t (Dict.keys d).
Proof.
  unfold Dict.keys. induction d as [|[k0 v0] d IH]; simpl.
  - intuition.
  - destruct (String.eqb k k0) eqn:E; simpl.
    + apply String.eqb_eq in E. subst k0. intuition.
    + rewrite IH. intuition.
Qed.

Lemma NoDup_keys_set {V} k (v : V) d :
  List.NoDup (Dict.keys d) -> List.NoDup (Dict.keys (Dict.set k v d)).
Proof.
  unfold Dict.keys. induction d as [|[k0 v0] d IH]; simpl; intros Hnd.
  - constructor; [intros [] | constructor].
  - inversion_clear Hnd as [|? ? Hnotin Hnd'].
    destruct (String.eqb k k0) eqn:E; simpl.
    + constructor; assumption.
    + constructor; [|by apply IH].
      intros Hin. apply (keys_set k v d k0) in Hin as [->|Hin]; [|done].
      by rewrite String.eqb_refl in E.
Qed.

Lemma get_Some_keys {V} k (d : Dict.t V) :
  In k (Dict.keys d) <-> exists v, Dict.get k d = Some v.
Proof.
  unfold Dict.keys. induction d as [|[k0 v0] d IH]; simpl.
  - split; [intros [] | intros [v Hv]; discriminate].
  - destruct (String.eqb k k0) eqn:E.
    + apply String.eqb_eq in E. subst k0. split; [eauto | auto].
    + rewrite <- IH. split; [|auto].
      intros [->|H]; [|done]. by rewrite String.eqb_refl in E.
Qed.

(** Every value of [Dict.set k v d] is [v] or was a value of [d]. *)
Lemma get_set_inv {V} k (v : V) d k' v' :
  Dict.get k' (Dict.set k v d) = Some v' ->
  (k' = k /\ v' = v) \/ (k' <> k /\ Dict.get k' d = Some v').
Proof.
  destruct (String.eqb k k') eqn:E.
  - apply String.eqb_eq in E. subst k'. rewrite get_set_eq.
    intros [= <-]. by left.
  - apply String.eqb_neq in E. rewrite get_set_ne by done.
    intros H. right. split; [congruence | done].
Qed.

End DictFacts.

(** ** The request executor *)

Lemma isdigit_range c :
  isdigit c = true -> (48 <= nat_of_ascii c <= 57)%nat.
Proof.
  unfold isdigit. intros H. apply andb_prop in H as [H1 H2].
  apply Nat.leb_le in H1, H2. lia.
Qed.

(** Without ['reset in '] in the message the rest is the default. *)
Lemma rest_for_default m :
  contains reset_in m = false -> rest_for (VStr m) = (Ok tt, [Sleep 5]).
Proof. intros H. unfold rest_for, seconds_to_rest. simpl. by rewrite H. Qed.

(** With a digit [c] right after ['reset in '] the rest is [c + 1]. *)
Lemma rest_for_digit m c tl :
  contains reset_in m = true ->
  split reset_in m !! 1%nat = Some (String c tl) ->
  isdigit c = true ->
  rest_for (VStr m) = (Ok tt, [Sleep (Z.of_nat (nat_of_ascii c) - 48 + 1)]).
Proof.
  intros Hin Hsplit Hd. unfold rest_for, seconds_to_rest. simpl.
  rewrite Hin, Hsplit. unfold int_of_char. rewrite Hd. simpl.
  apply isdigit_range in Hd.
  destruct (Z.ltb_spec (Z.of_nat (nat_of_ascii c) - 48 + 1) 0); [lia | done].
Qed.

(** With anything else right after ['reset in '], [sleep] is handed a
    string. *)
Lemma rest_for_not_digit m c tl :
  contains reset_in m = true ->
  split reset_in m !! 1%nat = Some (String c tl) ->
  isdigit c = false ->
  rest_for (VStr m) = (Raise TypeError, []).
Proof.
  intros Hin Hsplit Hd. unfold rest_for, seconds_to_rest. simpl.
  by rewrite Hin, Hsplit, Hd.
Qed.

(** The wait for a response with one rate-limit message, case by case. *)
Lemma rate_limit_wait m :
  contains budget_exhausted m = true ->
  handle_response_errors (rate_limit_response m)
  = if contains reset_in m
    then match split reset_in m !! 1%nat with
         | Some (String c _) =>
             if isdigit c
             then (Ok false, [Sleep (Z.of_nat (nat_of_ascii c) - 48 + 1)])
             else (Raise TypeError, [])
         | _ => (Raise IndexError, [])
         end
    else (Ok false, [Sleep 5]).
Proof.
  intros Hm. unfold handle_response_errors, rate_limit_response. simpl.
  rewrite Hm.
  destruct (contains reset_in m) eqn:Hr; [|by rewrite rest_for_default].
  destruct (split reset_in m !! 1%nat) as [[|c tl]|] eqn:Hs.
  - unfold rest_for, seconds_to_rest. simpl. by rewrite Hr, Hs.
  - destruct (isdigit c) eqn:Hd.
    + by rewrite (rest_for_digit m c tl Hr Hs Hd).
    + by rewrite (rest_for_not_digit m c tl Hr Hs Hd).
  - unfold rest_for, seconds_to_rest. simpl. by rewrite Hr, Hs.
Qed.

Example rest_for_monday_message :
  handle_response_errors
    (rate_limit_response
       "Complexity budget exhausted, query cost 30001 budget remaining 19984 out of 1000000 reset in 7 seconds")
  = (Ok false, [Sleep 8]).
Proof. reflexivity. Qed.

Example rest_for_no_cool_down :
  handle_response_errors (rate_limit_response "Complexity budget exhausted")
  = (Ok false, [Sleep 5]).
Proof. reflexivity. Qed.

(** C1: a rate-limit message whose cool-down is not a digit.  The source
    keeps the character read after ['reset in '] in [seconds_to_rest] and
    hands it to [sleep], which raises [TypeError]: no wait of 5 seconds
    takes place and the error leaves [handle_response_errors]. *)
Theorem rate_limit_unparsable_cool_down :
  handle_response_errors
    (rate_limit_response "Complexity budget exhausted, reset in a few seconds")
  = (Raise TypeError, []).
Proof. reflexivity. Qed.

Lemma errors_loop_other errors :
  forallb other_error errors = true ->
  errors_loop errors = (Ok false, map (Append errors_file) (messages errors)).
Proof.
  induction errors as [|error errors IH]; simpl; [done|].
  intros H. apply andb_prop in H as [Hother Hrest].
  specialize (IH Hrest). unfold messages in *. simpl.
  destruct error as [| | | |?|d| |]; simpl in Hother; try discriminate.
  simpl. unfold Dict.mem.
  destruct (Dict.get "message" d) as [msg|] eqn:Hmsg; [|by rewrite IH].
  destruct msg as [| | |m| | | |]; try discriminate.
  simpl. apply negb_true_iff in Hother. rewrite Hother, IH. done.
Qed.

(** Every call of [post_request] starts by sending its query. *)
Lemma post_request_sends self query replies :
  exists ev, (post_request self query replies).2 = sending self query ++ ev.
Proof.
  destruct replies as [|response rest]; simpl.
  - exists []. by rewrite app_nil_r.
  - destruct (handle_response_errors response) as [[[]| |] ev]; simpl.
    + destruct (py_getitem response "data"); simpl; eauto.
    + destruct (post_request self query rest) as [[r rest'] ev']. simpl. eauto.
    + eauto.
    + eauto.
Qed.

Lemma errors_loop_other_app pre tail :
  forallb other_error pre = true ->
  errors_loop (pre ++ tail)
  = (let '(r, ev) := errors_loop tail in
     (r, map (Append errors_file) (messages pre) ++ ev)).
Proof.
  induction pre as [|error pre IH].
  - intros _. simpl. by destruct (errors_loop tail).
  - intros H. simpl in H. apply andb_prop in H as [Hother Hrest].
    specialize (IH Hrest). rewrite <- app_comm_cons.
    destruct error as [| | | |?|d| |]; simpl in Hother; try discriminate.
    unfold messages in *. cbn [errors_loop flat_map message_of py_in py_getitem].
    unfold Dict.mem.
    destruct (Dict.get "message" d) as [msg|] eqn:Hmsg; [|by rewrite IH].
    destruct msg as [| | |m| | | |]; try discriminate.
    cbn [py_in]. apply negb_true_iff in Hother. rewrite Hother, IH.
    by destruct (errors_loop tail).
Qed.

(** C2: a response whose list of errors begins with errors of the other
    kind, [pre].  (a) Whatever follows them in the list, the message of
    each is appended to [errors.txt] as it is, in order, right after the
    post.  (b) When nothing follows, the same query is then posted again:
    what comes next is [post_request] with the same query on the remaining
    replies.  (c) When a rate-limit error with a cool-down follows, the
    cool-down is slept and the query is posted again in the same way,
    whatever the list holds after that error.  (d) The call that comes next
    starts by sending the query. *)
Theorem post_request_other_errors self query d pre tail rest :
  Dict.get "errors" d = Some (VList (pre ++ tail)) ->
  forallb other_error pre = true ->
  (exists ev',
     (post_request self query (VDict d :: rest)).2
     = sending self query ++ map (Append errors_file) (messages pre) ++ ev')
  /\ (tail = [] ->
      post_request self query (VDict d :: rest) =
        (let '(r, rest', ev) := post_request self query rest in
         (r, rest',
          sending self query ++ map (Append errors_file) (messages pre) ++ ev)))
  /\ (forall error seconds post,
        tail = error :: post -> rate_limit_error error seconds ->
        post_request self query (VDict d :: rest) =
          (let '(r, rest', ev) := post_request self query rest in
           (r, rest',
            sending self query ++ map (Append errors_file) (messages pre)
            ++ Sleep seconds :: ev)))
  /\ exists ev', (post_request self query rest).2 = sending self query ++ ev'.
Proof.
  intros Hd Hother.
  assert (Hrun : post_request self query (VDict d :: rest)
                 = match errors_loop (pre ++ tail) with
                   | (Raise e, ev) => (Raise e, rest, sending self query ++ ev)
                   | (Blocked, ev) => (Blocked, rest, sending self query ++ ev)
                   | (Ok false, ev) =>
                       let '(r, rest', ev') := post_request self query rest in
                       (r, rest', sending self query ++ ev ++ ev')
                   | (Ok true, ev) =>
                       match py_getitem (VDict d) "data" with
                       | Ok data =>
                           (Ok data, rest,
                            sending self query ++ ev ++ received self (VDict d))
                       | _ =>
                           (Ok VNone, rest,
                            sending self query ++ ev ++ received self (VDict d)
                            ++ untracked self query (VDict d))
                       end
                   end).
  { cbn [post_request]. unfold handle_response_errors.
    cbn [py_in py_getitem]. unfold Dict.mem. rewrite Hd. reflexivity. }
  split; [|split; [|split; [|apply post_request_sends]]].
  - rewrite Hrun, (errors_loop_other_app _ _ Hother).
    destruct (errors_loop tail) as [[[]| |] ev].
    + destruct (py_getitem (VDict d) "data"); simpl;
        rewrite <- !app_assoc; eauto.
    + destruct (post_request self query rest) as [[r rest'] ev'']. simpl.
      rewrite <- !app_assoc. eauto.
    + simpl. eauto.
    + simpl. eauto.
  - intros ->. rewrite Hrun, (errors_loop_other_app _ _ Hother). simpl.
    destruct (post_request self query rest) as [[r rest'] ev'].
    by rewrite app_nil_r.
  - intros error seconds post -> (de & m & -> & Hm & Hb & Hcool).
    rewrite Hrun, (errors_loop_other_app _ _ Hother).
    assert (Hrest : rest_for (VStr m) = (Ok tt, [Sleep seconds])).
    { destruct Hcool as [[H ->] | (c & tl & Hin & Hs & Hdigit & ->)].
      - by apply rest_for_default.
      - by apply (rest_for_digit m c tl). }
    cbn [errors_loop py_in py_getitem]. unfold Dict.mem. rewrite Hm.
    cbn [py_in]. rewrite Hb, Hrest.
    destruct (post_request self query rest) as [[r rest'] ev'].
    by rewrite <- app_assoc.
Qed.

Lemma post_request_other_errors_witness :
  let self := {| ws_name := "w"; ws_token := "t"; ws_apiUrl := "u";
                 ws_boards_limit := 500; ws_print_api_protocol := false;
                 ws_boards := []; ws_work_space_id := None |} in
  let errors := [VDict [("message", VStr "Parse error on line 1")];
                 VDict [("message", VStr "Field is missing")]] in
  let d := [("errors", VList errors); ("account_id", VInt 1)] in
  let rest := [VDict [("data", VInt 1)]] in
  Dict.get "errors" d = Some (VList errors)
  /\ forallb other_error errors = true
  /\ post_request self "q" (VDict d :: rest)
     = (Ok (VInt 1), [],
        [HttpPost "u" "t" "q";
         Append "errors.txt" "Parse error on line 1";
         Append "errors.txt" "Field is missing";
         HttpPost "u" "t" "q"]).
Proof.
  intros self errors d rest. split; [reflexivity|]. split; [reflexivity|].
  destruct (post_request_other_errors self "q" d errors [] rest eq_refl eq_refl)
    as (_ & H & _).
  rewrite (H eq_refl). reflexivity.
Defined.

(** C2, as stated for every response that carries an error of the other
    kind: a response that lists a rate-limit error before it.  The scan of
    the errors returns at the rate-limit error, so the message of the error
    listed after it is not written anywhere; the query is posted again
    after the rest. *)
Lemma rate_limit_first_hides_other_error :
  let self := {| ws_name := "w"; ws_token := "t"; ws_apiUrl := "u";
                 ws_boards_limit := 500; ws_print_api_protocol := false;
                 ws_boards := []; ws_work_space_id := None |} in
  let limit :=
    VDict [("message",
            VStr "Complexity budget exhausted, query cost 30001 budget remaining 19984 out of 1000000 reset in 3 seconds")] in
  let other := VDict [("message", VStr "Field is missing")] in
  let response := VDict [("errors", VList [limit; other])] in
  other_error other = true
  /\ post_request self "q" [response; VDict [("data", VInt 1)]]
     = (Ok (VInt 1), [],
        [HttpPost "u" "t" "q"; Sleep 4; HttpPost "u" "t" "q"])
  /\ appends (post_request self "q" [response; VDict [("data", VInt 1)]]).2 = [].
Proof. intros self limit other response. repeat split; reflexivity. Qed.

Lemma posts_app ev1 ev2 : posts (ev1 ++ ev2) = posts ev1 ++ posts ev2.
Proof. unfold posts. by rewrite flat_map_app. Qed.

Lemma posts_sending self query : posts (sending self query) = [query].
Proof. unfold sending. by destruct (ws_print_api_protocol self). Qed.

Lemma posts_received self response : posts (received self response) = [].
Proof. unfold received. by destruct (ws_print_api_protocol self). Qed.

Lemma posts_untracked self query response :
  posts (untracked self query response) = [].
Proof. unfold untracked. by destruct (ws_print_api_protocol self). Qed.

(** C3: a response without error indicator.  [post_request] returns its
    ['data'] entry when there is one and [None] otherwise; in both cases
    the query was posted once and no further reply is consumed. *)
Theorem post_request_no_errors self query response rest :
  py_in "errors" response = Ok false ->
  let '(r, rest', ev) := post_request self query (response :: rest) in
  r = match py_getitem response "data" with
      | Ok data => Ok data
      | _ => Ok VNone
      end
  /\ rest' = rest /\ posts ev = [query].
Proof.
  intros H. simpl. unfold handle_response_errors. rewrite H.
  destruct (py_getitem response "data"); simpl;
    rewrite ?posts_app, ?posts_sending, ?posts_received, ?posts_untracked;
    done.
Qed.

Lemma post_request_no_errors_witness :
  let self := {| ws_name := "w"; ws_token := "t"; ws_apiUrl := "u";
                 ws_boards_limit := 500; ws_print_api_protocol := true;
                 ws_boards := []; ws_work_space_id := None |} in
  (let '(r, rest', ev) :=
     post_request self "q" [VDict [("account_id", VInt 1)]; VDict []] in
   r = Ok VNone /\ rest' = [VDict []] /\ posts ev = ["q"])
  /\
  (let '(r, rest', ev) :=
     post_request self "q" [VDict [("data", VStr "payload")]; VDict []] in
   r = Ok (VStr "payload") /\ rest' = [VDict []] /\ posts ev = ["q"]).
Proof.
  intros self. split.
  - exact (post_request_no_errors self "q" (VDict [("account_id", VInt 1)])
             [VDict []] eq_refl).
  - exact (post_request_no_errors self "q" (VDict [("data", VStr "payload")])
             [VDict []] eq_refl).
Defined.

(** C4: a workspace without boards.  [get_ws_id] prints its complaint and
    returns [None]; the state is untouched: nothing is posted, no reply is
    consumed, nothing is retried. *)
Theorem get_ws_id_empty_workspace s a w :
  heap s !! a = Some (OWorkSpace w) ->
  ws_boards w = [] ->
  get_ws_id (VRef a) s = (Ok VNone, s, [Print [VStr no_boards_message]]).
Proof.
  intros Ha Hempty. unfold get_ws_id, get_ws, bind, get_obj.
  rewrite Ha. simpl. rewrite Hempty. simpl. done.
Qed.

Lemma get_ws_id_empty_workspace_witness :
  let w := {| ws_name := "w"; ws_token := "t"; ws_apiUrl := "u";
              ws_boards_limit := 500; ws_print_api_protocol := false;
              ws_boards := []; ws_work_space_id := None |} in
  let s := {| heap := [OWorkSpace w]; replies := [VDict [("data", VInt 1)]] |} in
  get_ws_id (VRef 0%nat) s = (Ok VNone, s, [Print [VStr no_boards_message]])
  /\ posts [Print [VStr no_boards_message]] = [].
Proof.
  intros w s. split; [|reflexivity].
  apply (get_ws_id_empty_workspace s 0%nat w); reflexivity.
Defined.

(** ** Stepping through monadic code *)

Lemma bind_Ok {A B} (m : M A) (f : A -> M B) s a s1 ev1 :
  m s = (Ok a, s1, ev1) ->
  bind m f s = (let '(r, s2, ev2) := f a s1 in (r, s2, ev1 ++ ev2)).
Proof. intros H. unfold bind. by rewrite H. Qed.

Lemma bind_Ok_nil {A B} (m : M A) (f : A -> M B) s a s1 :
  m s = (Ok a, s1, []) -> bind m f s = f a s1.
Proof.
  intros H. rewrite (bind_Ok _ _ _ _ _ _ H).
  by destruct (f a s1) as [[r s2] ev2].
Qed.

Lemma bind_reader {A B} (m : M A) (f : A -> M B) s a :
  m s = (Ok a, s, []) -> bind m f s = f a s.
Proof. apply bind_Ok_nil. Qed.

Lemma bind_Raise {A B} (m : M A) (f : A -> M B) s e s1 ev1 :
  m s = (Raise e, s1, ev1) -> bind m f s = (Raise e, s1, ev1).
Proof. intros H. unfold bind. by rewrite H. Qed.

Lemma bind_Blocked {A B} (m : M A) (f : A -> M B) s s1 ev1 :
  m s = (Blocked, s1, ev1) -> bind m f s = (Blocked, s1, ev1).
Proof. intros H. unfold bind. by rewrite H. Qed.

Lemma bind_Ok_inv {A B} (m : M A) (f : A -> M B) s b s' ev :
  bind m f s = (Ok b, s', ev) ->
  exists a s1 ev1 ev2,
    m s = (Ok a, s1, ev1) /\ f a s1 = (Ok b, s', ev2) /\ ev = ev1 ++ ev2.
Proof.
  unfold bind. destruct (m s) as [[[a| |] s1] ev1]; try discriminate.
  destruct (f a s1) as [[r s2] ev2] eqn:Hf. intros [= -> -> <-].
  by exists a, s1, ev1, ev2.
Qed.

Lemma reader_inv {A} (m : M A) s r s' ev :
  reader m -> m s = (r, s', ev) -> s' = s /\ ev = [].
Proof. intros Hm H. destruct (Hm s) as [r' Hr]. rewrite Hr in H. by inversion H. Qed.

Lemma reader_ret {A} (a : A) : reader (ret a).
Proof. intros s. by eexists. Qed.

Lemma reader_raise {A} e : reader (@raise A e).
Proof. intros s. by eexists. Qed.

Lemma reader_lift {A} (r : result A) : reader (lift r).
Proof. intros s. by eexists. Qed.

Lemma reader_bind {A B} (m : M A) (f : A -> M B) :
  reader m -> (forall a, reader (f a)) -> reader (bind m f).
Proof.
  intros Hm Hf s. unfold bind. destruct (Hm s) as [[a| |] ->]; eauto.
  destruct (Hf a s) as [r ->]. eauto.
Qed.

Lemma reader_get_obj v : reader (get_obj v).
Proof.
  intros s. unfold get_obj.
  destruct v; eauto. destruct (heap s !! a); eauto.
Qed.

Lemma reader_get_attr {A} (x : option A) : reader (get_attr x).
Proof. destruct x; [apply reader_ret | apply reader_raise]. Qed.

Lemma reader_dict_lookup {V} k (d : Dict.t V) : reader (dict_lookup k d).
Proof.
  unfold dict_lookup. destruct (Dict.get k d); [apply reader_ret | apply reader_raise].
Qed.

Lemma reader_dict_lookup_value {V} k (d : Dict.t V) :
  reader (dict_lookup_value k d).
Proof.
  destruct k; simpl; try apply reader_raise. apply reader_dict_lookup.
Qed.

Lemma reader_get_ws v : reader (get_ws v).
Proof.
  apply reader_bind; [apply reader_get_obj|].
  intros []; try apply reader_raise. apply reader_ret.
Qed.

Lemma reader_get_board v : reader (get_board v).
Proof.
  apply reader_bind; [apply reader_get_obj|].
  intros o. destruct (board_of o); [apply reader_ret | apply reader_raise].
Qed.

Lemma reader_get_group v : reader (get_group v).
Proof.
  apply reader_bind; [apply reader_get_obj|].
  intros []; try apply reader_raise. apply reader_ret.
Qed.

Lemma reader_get_column v : reader (get_column v).
Proof.
  apply reader_bind; [apply reader_get_obj|].
  intros []; try apply reader_raise. apply reader_ret.
Qed.

Lemma reader_get_item v : reader (get_item v).
Proof.
  apply reader_bind; [apply reader_get_obj|].
  intros []; try apply reader_raise. apply reader_ret.
Qed.

Lemma reader_get_input_board v : reader (get_input_board v).
Proof.
  apply reader_bind; [apply reader_get_obj|].
  intros []; try apply reader_raise. apply reader_ret.
Qed.

Create HintDb readers.
#[local] Hint Resolve reader_ret reader_raise reader_lift reader_get_obj
  reader_get_attr reader_dict_lookup reader_dict_lookup_value reader_get_ws
  reader_get_board reader_get_group reader_get_column reader_get_item
  reader_get_input_board : readers.

Lemma get_obj_ref s a o :
  heap s !! a = Some o -> get_obj (VRef a) s = (Ok o, s, []).
Proof. intros H. unfold get_obj. by rewrite H. Qed.

Lemma get_board_ref s a b :
  board_at (heap s) a b -> get_board (VRef a) s = (Ok b, s, []).
Proof.
  intros (o & Ho & Hb). unfold get_board.
  rewrite (bind_Ok_nil _ _ _ _ _ (get_obj_ref _ _ _ Ho)). by rewrite Hb.
Qed.

Lemma get_ws_ref s a w :
  heap s !! a = Some (OWorkSpace w) -> get_ws (VRef a) s = (Ok w, s, []).
Proof.
  intros H. unfold get_ws. by rewrite (bind_Ok_nil _ _ _ _ _ (get_obj_ref _ _ _ H)).
Qed.

Lemma get_group_ref s a g :
  heap s !! a = Some (OGroup g) -> get_group (VRef a) s = (Ok g, s, []).
Proof.
  intros H. unfold get_group. by rewrite (bind_Ok_nil _ _ _ _ _ (get_obj_ref _ _ _ H)).
Qed.

Lemma get_column_ref s a c :
  heap s !! a = Some (OColumn c) -> get_column (VRef a) s = (Ok c, s, []).
Proof.
  intros H. unfold get_column. by rewrite (bind_Ok_nil _ _ _ _ _ (get_obj_ref _ _ _ H)).
Qed.

Lemma get_item_ref s a i :
  heap s !! a = Some (OItem i) -> get_item (VRef a) s = (Ok i, s, []).
Proof.
  intros H. unfold get_item. by rewrite (bind_Ok_nil _ _ _ _ _ (get_obj_ref _ _ _ H)).
Qed.

Lemma get_input_board_ref s a ib :
  heap s !! a = Some (OInputBoard ib) ->
  get_input_board (VRef a) s = (Ok ib, s, []).
Proof.
  intros H. unfold get_input_board.
  by rewrite (bind_Ok_nil _ _ _ _ _ (get_obj_ref _ _ _ H)).
Qed.

Lemma board_of_with_board o b : board_of (with_board o b) = Some b.
Proof. by destruct o. Qed.

Lemma with_board_with_board o b b' :
  with_board (with_board o b) b' = with_board o b'.
Proof. by destruct o. Qed.

Lemma with_board_id o b : board_of o = Some b -> with_board o b = o.
Proof. destruct o as [| |[]| | |]; simpl; intros [= <-]; done. Qed.

Lemma update_board_at h rs a o b f :
  h !! a = Some o -> board_of o = Some b ->
  update_board a f {| heap := h; replies := rs |}
  = (Ok tt, {| heap := <[a := with_board o (f b)]> h; replies := rs |}, []).
Proof.
  intros Ho Hb. unfold update_board.
  rewrite (bind_reader _ _ {| heap := h; replies := rs |} o)
    by (apply get_obj_ref; exact Ho).
  by rewrite Hb.
Qed.

(** ** Registration *)

Lemma keys_register base ts d t :
  In t (Dict.keys (register base ts d)) <-> In t (Dict.keys d) \/ In t ts.
Proof.
  revert base d. induction ts as [|t0 ts IH]; intros base d; simpl.
  - intuition.
  - rewrite IH, DictFacts.keys_set. intuition.
Qed.

Lemma NoDup_keys_register base ts d :
  List.NoDup (Dict.keys d) -> List.NoDup (Dict.keys (register base ts d)).
Proof.
  revert base d. induction ts as [|t0 ts IH]; intros base d Hnd; simpl; [done|].
  apply IH. by apply DictFacts.NoDup_keys_set.
Qed.

(** Where an entry of a registered dictionary comes from. *)
Lemma get_register_inv base ts d k a :
  Dict.get k (register base ts d) = Some a ->
  (Dict.get k d = Some a /\ ~ In k ts)
  \/ (exists i, a = (base + i)%nat /\ ts !! i = Some k
                /\ forall j, (i < j)%nat -> ts !! j <> Some k).
Proof.
  revert base d. induction ts as [|t0 ts IH]; intros base d H; simpl in *.
  - left. split; [done | tauto].
  - apply IH in H as [[H Hnotin] | (i & -> & Hi & Hlast)].
    + apply DictFacts.get_set_inv in H as [[-> ->] | [Hne H]].
      * right. exists 0%nat. split; [lia|]. split; [done|].
        intros [|j] Hj; [lia|]. simpl. intros Hj'.
        apply Hnotin. eapply list_elem_of_In, list_elem_of_lookup_2, Hj'.
      * left. split; [done|]. intros [->|Hin]; [done | by apply Hnotin].
    + right. exists (S i). split; [lia|]. split; [done|].
      intros [|j] Hj; [lia|]. simpl. apply Hlast. lia.
Qed.

(** Last write wins: the entry of [k] is the last object with title [k]. *)
Lemma get_register_last base ts d i k :
  ts !! i = Some k ->
  (forall j, (i < j)%nat -> ts !! j <> Some k) ->
  Dict.get k (register base ts d) = Some (base + i)%nat.
Proof.
  revert base d i. induction ts as [|t0 ts IH]; intros base d i Hi Hlast;
    simpl in *; [done|].
  destruct i as [|i]; simpl in *.
  - injection Hi as ->.
    assert (Hnotin : ~ In k ts).
    { intros Hin. apply list_elem_of_In, list_elem_of_lookup in Hin as [j Hj].
      apply (Hlast (S j)); [lia | done]. }
    clear IH Hlast. replace (base + 0)%nat with base by lia.
    assert (Hget : Dict.get k (Dict.set k base d) = Some base)
      by apply DictFacts.get_set_eq.
    revert Hget. generalize (Dict.set k base d) as d'. generalize (S base) as b'.
    induction ts as [|t1 ts IH]; intros b' d' Hget; simpl; [done|].
    apply IH; [intros Hin; apply Hnotin; by right|].
    rewrite DictFacts.get_set_ne; [done|].
    intros ->. apply Hnotin. by left.
  - replace (base + S i)%nat with (S base + i)%nat by lia.
    apply IH; [done|]. intros j Hj. apply (Hlast (S j)). lia.
Qed.

Lemma injective_register base ts d :
  injective d -> bounded d base -> injective (register base ts d).
Proof.
  intros Hinj Hb k1 k2 a H1 H2.
  apply get_register_inv in H1 as [[H1 _] | (i1 & -> & Hi1 & _)];
    apply get_register_inv in H2 as [[H2 _] | (i2 & E & Hi2 & _)].
  - eauto.
  - apply Hb in H1. lia.
  - apply Hb in H2. lia.
  - assert (i1 = i2) as -> by lia. congruence.
Qed.

Lemma keys_register_items base items title d n :
  In n (Dict.keys (register_items base items title d)) <->
  In n (Dict.keys d)
  \/ exists i, In i items /\ ij_name i = n /\ gj_title (ij_group i) = title.
Proof.
  revert base d. induction items as [|i0 items IH]; intros base d; simpl.
  - split; [auto | intros [H | (i & [] & _)]; done].
  - rewrite IH. destruct (String.eqb_spec (gj_title (ij_group i0)) title) as [E|E].
    + rewrite DictFacts.keys_set. split.
      * intros [[-> | H] | (i & Hi & Hn & Ht)]; eauto 8.
      * intros [H | (i & [<- | Hi] & Hn & Ht)]; eauto 8.
    + split.
      * intros [H | (i & Hi & Hn & Ht)]; eauto 8.
      * intros [H | (i & [<- | Hi] & Hn & Ht)]; eauto 8. done.
Qed.

Lemma get_register_items_inv base items title d n a :
  Dict.get n (register_items base items title d) = Some a ->
  Dict.get n d = Some a
  \/ exists k i, a = (base + k)%nat /\ items !! k = Some i
                 /\ ij_name i = n /\ gj_title (ij_group i) = title.
Proof.
  revert base d. induction items as [|i0 items IH]; intros base d H; simpl in *.
  - by left.
  - apply IH in H as [H | (k & i & -> & Hk & Hn & Ht)].
    + destruct (String.eqb_spec (gj_title (ij_group i0)) title) as [E|E];
        [|by left].
      apply DictFacts.get_set_inv in H as [[-> ->] | [_ H]]; [|by left].
      right. exists 0%nat, i0. split; [lia | done].
    + right. exists (S k), i. split; [lia | done].
Qed.

Lemma get_register_items_other base items title d n :
  (forall i, In i items ->
     ~ (ij_name i = n /\ gj_title (ij_group i) = title)) ->
  Dict.get n (register_items base items title d) = Dict.get n d.
Proof.
  revert base d. induction items as [|i0 items IH]; intros base d Hother; [done|].
  simpl. rewrite IH by (intros i Hi; apply Hother; by right).
  destruct (String.eqb_spec (gj_title (ij_group i0)) title) as [E|E]; [|done].
  apply DictFacts.get_set_ne. intros Hn. apply (Hother i0); [by left | done].
Qed.

Lemma get_register_items_last base items title d k i :
  items !! k = Some i -> gj_title (ij_group i) = title ->
  (forall j i', (k < j)%nat -> items !! j = Some i' ->
     ~ (ij_name i' = ij_name i /\ gj_title (ij_group i') = title)) ->
  Dict.get (ij_name i) (register_items base items title d) = Some (base + k)%nat.
Proof.
  revert base d k.
  induction items as [|i0 items IH]; intros base d k Hk Ht Hlast; [done|].
  destruct k as [|k]; simpl in Hk.
  - injection Hk as ->. simpl. rewrite Ht, String.eqb_refl.
    rewrite get_register_items_other.
    + rewrite DictFacts.get_set_eq. f_equal. lia.
    + intros i' Hi'. apply list_elem_of_In, list_elem_of_lookup in Hi' as [j Hj].
      apply (Hlast (S j)); [lia | done].
  - simpl. rewrite (IH (S base) _ k Hk Ht).
    + f_equal. lia.
    + intros j i' Hj Hi'. apply (Hlast (S j)); [lia | done].
Qed.

(** ** Hydration of a board *)

Lemma set_b_columns_id b : set_b_columns (b_columns b) b = b.
Proof. by destruct b. Qed.

Lemma set_b_groups_id b : set_b_groups (b_groups b) b = b.
Proof. by destruct b. Qed.

Lemma alloc_run o h rs :
  alloc o {| heap := h; replies := rs |}
  = (Ok (List.length h), {| heap := h ++ [o]; replies := rs |}, []).
Proof. reflexivity. Qed.

Lemma Column_init_hydrate board title description column_type column_id h rs :
  py_truthy column_id = true ->
  Column_init board title description column_type column_id
    {| heap := h; replies := rs |}
  = (Ok (List.length h),
     {| heap := h ++ [OColumn {| c_board := board; c_title := title;
                                 c_description := description;
                                 c_column_type := column_type;
                                 c_column_id := column_id |}];
        replies := rs |}, []).
Proof. intros H. unfold Column_init. by rewrite H. Qed.

Lemma Group_init_hydrate board title group_id h rs :
  py_truthy group_id = true ->
  Group_init board title group_id {| heap := h; replies := rs |}
  = (Ok (List.length h),
     {| heap := h ++ [OGroup {| g_board := board; g_title := title;
                                g_items := []; g_group_id := group_id |}];
        replies := rs |}, []).
Proof. intros H. unfold Group_init. by rewrite H. Qed.

Lemma Item_init_hydrate dumps group name item_id cvs columns_values h rs :
  py_truthy item_id = true ->
  Item_init dumps group name item_id (Some cvs) columns_values
    {| heap := h; replies := rs |}
  = (Ok (List.length h),
     {| heap := h ++ [OItem {| i_group := group; i_item_id := item_id;
                               i_name := name;
                               i_columns_values :=
                                 fold_left (fun d cv => Dict.set (fst cv) (snd cv) d)
                                   cvs [] |}];
        replies := rs |}, []).
Proof. intros H. unfold Item_init. by rewrite H. Qed.

(** [Board.set_columns] on a reply whose ids are set: the columns are
    allocated in order and registered under their titles. *)
Lemma set_columns_loop_hydrate self cols : forall h rs o b,
  h !! self = Some o -> board_of o = Some b ->
  Forall (fun c => py_truthy (cj_id c) = true) cols ->
  set_columns_loop self cols {| heap := h; replies := rs |}
  = (Ok tt,
     {| heap :=
          <[self := with_board o
                      (set_b_columns
                         (register (List.length h) (map cj_title cols) (b_columns b)) b)]> h
          ++ map (mk_column (VRef self)) cols;
        replies := rs |}, []).
Proof.
  induction cols as [|c cols IH]; intros h rs o b Ho Hb Hall; simpl.
  - rewrite set_b_columns_id, (with_board_id _ _ Hb), list_insert_id by done.
    by rewrite app_nil_r.
  - inversion_clear Hall as [|? ? Hc Hcols].
    rewrite (bind_Ok_nil _ _ _ _ _
               (Column_init_hydrate _ _ _ _ _ h rs Hc)).
    assert (Hlt : (self < List.length h)%nat) by (eapply lookup_lt_Some; eauto).
    rewrite (bind_Ok_nil _ _ _ tt _
               (update_board_at _ rs self o b _
                  (lookup_app_l_Some _ _ _ _ Ho) Hb)).
    match goal with
    | |- context [<[self := ?x]> ?l] =>
        assert (Hnew : <[self := x]> l !! self = Some x)
          by (apply list_lookup_insert_eq; rewrite length_app; simpl; lia)
    end.
    rewrite (IH _ rs _ _ Hnew (board_of_with_board _ _) Hcols).
    rewrite with_board_with_board, list_insert_insert_eq.
    rewrite length_insert, length_app. simpl.
    rewrite insert_app_l by done. rewrite <- app_assoc. simpl.
    replace (List.length h + 1)%nat with (S (List.length h)) by lia.
    by destruct b.
Qed.

Lemma set_groups_loop_hydrate self groups : forall h rs o b,
  h !! self = Some o -> board_of o = Some b ->
  Forall (fun g => py_truthy (gj_id g) = true) groups ->
  set_groups_loop self groups {| heap := h; replies := rs |}
  = (Ok tt,
     {| heap :=
          <[self := with_board o
                      (set_b_groups
                         (register (List.length h) (map gj_title groups) (b_groups b)) b)]> h
          ++ map (mk_group (VRef self)) groups;
        replies := rs |}, []).
Proof.
  induction groups as [|g groups IH]; intros h rs o b Ho Hb Hall; simpl.
  - rewrite set_b_groups_id, (with_board_id _ _ Hb), list_insert_id by done.
    by rewrite app_nil_r.
  - inversion_clear Hall as [|? ? Hg Hgroups].
    rewrite (bind_Ok_nil _ _ _ _ _ (Group_init_hydrate _ _ _ h rs Hg)).
    assert (Hlt : (self < List.length h)%nat) by (eapply lookup_lt_Some; eauto).
    rewrite (bind_Ok_nil _ _ _ tt _
               (update_board_at _ rs self o b _
                  (lookup_app_l_Some _ _ _ _ Ho) Hb)).
    match goal with
    | |- context [<[self := ?x]> ?l] =>
        assert (Hnew : <[self := x]> l !! self = Some x)
          by (apply list_lookup_insert_eq; rewrite length_app; simpl; lia)
    end.
    rewrite (IH _ rs _ _ Hnew (board_of_with_board _ _) Hgroups).
    rewrite with_board_with_board, list_insert_insert_eq.
    rewrite length_insert, length_app. simpl.
    rewrite insert_app_l by done. rewrite <- app_assoc. simpl.
    replace (List.length h + 1)%nat with (S (List.length h)) by lia.
    by destruct b.
Qed.

Lemma set_g_items_id g : set_g_items (g_items g) g = g.
Proof. by destruct g. Qed.

Lemma dict_lookup_run {V} k (d : Dict.t V) v s :
  Dict.get k d = Some v -> dict_lookup k d s = (Ok v, s, []).
Proof. intros H. unfold dict_lookup. by rewrite H. Qed.

Lemma Group_add_item_run h rs ga g ia it :
  h !! ga = Some (OGroup g) -> h !! ia = Some (OItem it) ->
  Group_add_item (VRef ga) ia {| heap := h; replies := rs |}
  = (Ok tt,
     {| heap := <[ga := OGroup (set_g_items (Dict.set (i_name it) ia (g_items g)) g)]> h;
        replies := rs |}, []).
Proof.
  intros Hg Hi. unfold Group_add_item.
  rewrite (bind_reader _ _ {| heap := h; replies := rs |} g)
    by (by apply get_group_ref).
  rewrite (bind_reader _ _ {| heap := h; replies := rs |} it)
    by (by apply get_item_ref).
  reflexivity.
Qed.

(** [Board.set_items] on a reply whose items have ids and belong to groups
    of the board: the items are allocated in order and each one is
    registered in the group that its entry names. *)
Lemma set_items_loop_hydrate dumps self items : forall h rs b,
  board_at h self b ->
  (forall t ga, Dict.get t (b_groups b) = Some ga ->
                exists g, h !! ga = Some (OGroup g)) ->
  injective (b_groups b) ->
  Forall (fun i => py_truthy (ij_id i) = true
                   /\ In (gj_title (ij_group i)) (Dict.keys (b_groups b))) items ->
  exists h',
    set_items_loop dumps self items {| heap := h; replies := rs |}
    = (Ok tt, {| heap := h'; replies := rs |}, [])
    /\ List.length h' = (List.length h + List.length items)%nat
    /\ (forall a, (forall t, Dict.get t (b_groups b) <> Some a) ->
                  (a < List.length h)%nat -> h' !! a = h !! a)
    /\ (forall t ga g,
          Dict.get t (b_groups b) = Some ga -> h !! ga = Some (OGroup g) ->
          h' !! ga = Some (OGroup (set_g_items
                                     (register_items (List.length h) items t (g_items g)) g)))
    /\ (forall k i, items !! k = Some i ->
                    h' !! (List.length h + k)%nat = Some (OItem (mk_item i))).
Proof.
  induction items as [|i items IH]; intros h rs b Hb Hgroups Hinj Hall.
  - exists h. simpl. split; [done|]. split; [lia|]. split; [done|].
    split; [|done]. intros t ga g _ Hg. by rewrite set_g_items_id.
  - inversion_clear Hall as [|? ? [Hid Hin] Hitems].
    apply DictFacts.get_Some_keys in Hin as [ga0 Hga0].
    destruct (Hgroups _ _ Hga0) as [g0 Hg0].
    assert (Hlt0 : (ga0 < List.length h)%nat) by (eapply lookup_lt_Some; eauto).
    destruct Hb as (o & Ho & Hob).
    assert (Hself : self <> ga0).
    { intros ->. rewrite Hg0 in Ho. injection Ho as <-. discriminate. }
    set (it0 := OItem (mk_item i)).
    set (g1 := set_g_items (Dict.set (ij_name i) (List.length h) (g_items g0)) g0).
    set (h1 := <[ga0 := OGroup g1]> (h ++ [it0])).
    assert (Hb1 : board_at h1 self b).
    { exists o. split; [|done]. unfold h1.
      rewrite list_lookup_insert_ne by done. by apply lookup_app_l_Some. }
    assert (Hgroups1 : forall t ga, Dict.get t (b_groups b) = Some ga ->
                                    exists g, h1 !! ga = Some (OGroup g)).
    { intros t ga Hga. destruct (Hgroups _ _ Hga) as [g Hg]. unfold h1.
      destruct (decide (ga0 = ga)) as [<-|Hne].
      - exists g1. apply list_lookup_insert_eq. rewrite length_app. lia.
      - exists g. rewrite list_lookup_insert_ne by done.
        by apply lookup_app_l_Some. }
    destruct (IH h1 rs b Hb1 Hgroups1 Hinj Hitems)
      as (h' & Hrun & Hlen & Hframe & Hreg & Hnew).
    assert (Hlen1 : List.length h1 = S (List.length h)).
    { unfold h1. rewrite length_insert, length_app. simpl. lia. }
    exists h'. split; [|split; [|split; [|split]]].
    + simpl set_items_loop.
      rewrite (bind_Ok_nil _ _ _ _ _
                 (Item_init_hydrate dumps (VStr (gj_title (ij_group i)))
                    (ij_name i) (ij_id i) (ij_column_values i) [] h rs Hid)).
      rewrite (bind_reader _ _ {| heap := h ++ [it0]; replies := rs |} b).
      2:{ apply get_board_ref. exists o. split; [|done]. by apply lookup_app_l_Some. }
      rewrite (bind_reader _ _ {| heap := h ++ [it0]; replies := rs |} ga0)
        by (by apply dict_lookup_run).
      rewrite (bind_Ok_nil _ _ {| heap := h ++ [it0]; replies := rs |} tt
                 {| heap := h1; replies := rs |}).
      2:{ apply (Group_add_item_run _ rs ga0 g0 (List.length h) (mk_item i)).
          - by apply lookup_app_l_Some.
          - by apply list_lookup_middle. }
      exact Hrun.
    + rewrite Hlen, Hlen1. simpl. lia.
    + intros a Hnot Ha. rewrite (Hframe a Hnot) by lia. unfold h1.
      rewrite list_lookup_insert_ne by (intros <-; by apply (Hnot _ Hga0)).
      by apply lookup_app_l.
    + intros t ga g Hga Hg. simpl register_items.
      destruct (String.eqb_spec (gj_title (ij_group i)) t) as [E|E].
      * subst t. assert (ga = ga0) as -> by congruence.
        assert (g = g0) as -> by congruence.
        rewrite (Hreg _ ga0 g1 Hga0).
        -- rewrite Hlen1. by destruct g0.
        -- unfold h1. apply list_lookup_insert_eq. rewrite length_app. lia.
      * assert (ga <> ga0).
        { intros ->. apply E. symmetry. eapply Hinj; eauto. }
        rewrite (Hreg _ ga g Hga).
        -- by rewrite Hlen1.
        -- unfold h1. rewrite list_lookup_insert_ne by done.
           by apply lookup_app_l_Some.
    + intros [|k] i' Hk; simpl in Hk.
      * injection Hk as <-. rewrite Nat.add_0_r.
        assert (Hnotgroup : forall t, Dict.get t (b_groups b) <> Some (List.length h)).
        { intros t Ht. destruct (Hgroups _ _ Ht) as [g Hg].
          apply lookup_lt_Some in Hg. lia. }
        rewrite (Hframe _ Hnotgroup) by lia. unfold h1.
        rewrite list_lookup_insert_ne by lia. by apply list_lookup_middle.
      * replace (List.length h + S k)%nat with (List.length h1 + k)%nat by lia.
        by apply Hnew.
Qed.

Lemma injective_nil : injective [].
Proof. intros k1 k2 a H. discriminate. Qed.

Lemma bounded_nil n : bounded [] n.
Proof. intros k a H. discriminate. Qed.

Lemma lookup_app_map {A} (o : list obj) (l : list A) (f : A -> obj) i x :
  l !! i = Some x ->
  (o ++ map f l) !! (List.length o + i)%nat = Some (f x).
Proof.
  intros H. rewrite lookup_app_r by lia.
  replace (List.length o + i - List.length o)%nat with i by lia.
  change (map f l) with (f <$> l). by rewrite list_lookup_fmap, H.
Qed.

Lemma lookup_insert_app_map {A} (h : list obj) a x (l : list A) (f : A -> obj) i y :
  l !! i = Some y ->
  (<[a := x]> h ++ map f l) !! (List.length h + i)%nat = Some (f y).
Proof.
  intros H. rewrite lookup_app_r by (rewrite length_insert; lia).
  rewrite length_insert.
  replace (List.length h + i - List.length h)%nat with i by lia.
  change (map f l) with (f <$> l). by rewrite list_lookup_fmap, H.
Qed.

(** C5: hydrating a board from a detail reply with at least one group,
    whose ids are set and whose items name groups of the reply.
    [Board.__init__] returns the new board without talking to the remote;
    the keys of its columns and groups mappings are the titles of the
    reply; every group registered holds, under their names, exactly the
    items whose entry names that group; the columns were created before
    the groups, the groups before the items (addresses are given out in
    order of creation); and every entry of an item that no later entry
    repeats, by name and group, is stored under its name in the group
    registered under the title it names. *)
Theorem Board_init_hydrates dumps pstr ws name exists_ groups columns items
  board_id s :
  groups <> [] ->
  Forall (fun g => py_truthy (gj_id g) = true) groups ->
  Forall (fun c => py_truthy (cj_id c) = true) columns ->
  Forall (fun i => py_truthy (ij_id i) = true
                   /\ In (gj_title (ij_group i)) (map gj_title groups)) items ->
  exists s' b,
    Board_init dumps pstr ws name exists_ (Some groups) (Some columns)
      (Some items) board_id s
    = (Ok (List.length (heap s)), s', [])
    /\ replies s' = replies s
    /\ board_at (heap s') (List.length (heap s)) b
    /\ b_board_id b = Some board_id
    /\ (forall t, In t (Dict.keys (b_columns b)) <-> In t (map cj_title columns))
    /\ (forall t, In t (Dict.keys (b_groups b)) <-> In t (map gj_title groups))
    /\ (forall t ca, Dict.get t (b_columns b) = Some ca ->
          exists c, In c columns /\ cj_title c = t
                    /\ heap s' !! ca
                       = Some (mk_column (VRef (List.length (heap s))) c))
    /\ (forall t ga, Dict.get t (b_groups b) = Some ga ->
          exists g, heap s' !! ga = Some (OGroup g) /\ g_title g = t
            /\ (forall n, In n (Dict.keys (g_items g)) <->
                          exists i, In i items /\ ij_name i = n
                                    /\ gj_title (ij_group i) = t)
            /\ (forall n ia, Dict.get n (g_items g) = Some ia ->
                  exists i, In i items /\ ij_name i = n
                            /\ gj_title (ij_group i) = t
                            /\ heap s' !! ia = Some (OItem (mk_item i))))
    /\ (forall tc ca tg ga g n ia,
          Dict.get tc (b_columns b) = Some ca ->
          Dict.get tg (b_groups b) = Some ga ->
          heap s' !! ga = Some (OGroup g) ->
          Dict.get n (g_items g) = Some ia ->
          (ca < ga)%nat /\ (ga < ia)%nat)
    /\ (forall k i,
          items !! k = Some i ->
          (forall j i', (k < j)%nat -> items !! j = Some i' ->
             ~ (ij_name i' = ij_name i
                /\ gj_title (ij_group i') = gj_title (ij_group i))) ->
          exists ga g ia,
            Dict.get (gj_title (ij_group i)) (b_groups b) = Some ga
            /\ heap s' !! ga = Some (OGroup g)
            /\ Dict.get (ij_name i) (g_items g) = Some ia
            /\ heap s' !! ia = Some (OItem (mk_item i))).
Proof.
  intros Hne Hgroups Hcols Hitems. destruct s as [h rs]. simpl heap.
  simpl replies.
  set (n0 := List.length h).
  set (b0 := {| b_work_space := ws; b_name := name; b_columns := [];
                b_groups := []; b_board_id := None |}).
  set (b1 := set_b_board_id board_id b0).
  set (h1 := <[n0 := OBoard b1]> (h ++ [OBoard b0])).
  set (b2 := set_b_columns (register (List.length h1) (map cj_title columns) []) b1).
  set (h2 := <[n0 := OBoard b2]> h1 ++ map (mk_column (VRef n0)) columns).
  set (b3 := set_b_groups (register (List.length h2) (map gj_title groups) []) b2).
  set (h3 := <[n0 := OBoard b3]> h2 ++ map (mk_group (VRef n0)) groups).
  assert (Hlen1 : List.length h1 = S n0).
  { unfold h1. rewrite length_insert, length_app. simpl. lia. }
  assert (Hlen2 : List.length h2 = (S n0 + List.length columns)%nat).
  { unfold h2. rewrite length_app, length_insert, length_map. lia. }
  assert (Hlen3 : List.length h3
                  = (S n0 + List.length columns + List.length groups)%nat).
  { unfold h3. rewrite length_app, length_insert, length_map. lia. }
  assert (H1 : h1 !! n0 = Some (OBoard b1)).
  { unfold h1. apply list_lookup_insert_eq. rewrite length_app. simpl. lia. }
  assert (H2 : h2 !! n0 = Some (OBoard b2)).
  { unfold h2. apply lookup_app_l_Some, list_lookup_insert_eq. lia. }
  assert (H3 : h3 !! n0 = Some (OBoard b3)).
  { unfold h3. apply lookup_app_l_Some, list_lookup_insert_eq. lia. }
  assert (Hcol : forall i c, columns !! i = Some c ->
                   h3 !! (List.length h1 + i)%nat = Some (mk_column (VRef n0) c)).
  { intros i c Hi. unfold h3. apply lookup_app_l_Some.
    rewrite list_lookup_insert_ne by lia. unfold h2.
    rewrite <- (length_insert h1 n0 (OBoard b2)). by apply lookup_app_map. }
  assert (Hgrp : forall i g, groups !! i = Some g ->
                   h3 !! (List.length h2 + i)%nat = Some (mk_group (VRef n0) g)).
  { intros i g Hi. unfold h3.
    rewrite <- (length_insert h2 n0 (OBoard b3)). by apply lookup_app_map. }
  assert (Hgroup_of : forall t ga, Dict.get t (b_groups b3) = Some ga ->
            exists i g, ga = (List.length h2 + i)%nat /\ groups !! i = Some g
                        /\ gj_title g = t).
  { intros t ga Hga. simpl in Hga.
    apply get_register_inv in Hga as [[Hga _] | (i & -> & Hi & _)];
      [discriminate|].
    change (map gj_title groups) with (gj_title <$> groups) in Hi.
    rewrite list_lookup_fmap in Hi.
    destruct (groups !! i) as [g|] eqn:Hg; [|discriminate].
    injection Hi as <-. by exists i, g. }
  assert (Hcolumn_of : forall t ca, Dict.get t (b_columns b3) = Some ca ->
            exists i c, ca = (List.length h1 + i)%nat /\ columns !! i = Some c
                        /\ cj_title c = t).
  { intros t ca Hca. simpl in Hca.
    apply get_register_inv in Hca as [[Hca _] | (i & -> & Hi & _)];
      [discriminate|].
    change (map cj_title columns) with (cj_title <$> columns) in Hi.
    rewrite list_lookup_fmap in Hi.
    destruct (columns !! i) as [c|] eqn:Hc; [|discriminate].
    injection Hi as <-. by exists i, c. }
  destruct (set_items_loop_hydrate dumps n0 items h3 rs b3)
    as (h4 & Hrun & Hlen4 & Hframe & Hreg & Hnew).
  { by exists (OBoard b3). }
  { intros t ga Hga. destruct (Hgroup_of _ _ Hga) as (i & g & -> & Hi & _).
    eexists. by apply Hgrp. }
  { apply injective_register; [apply injective_nil | apply bounded_nil]. }
  { eapply Forall_impl; [exact Hitems|]. intros i [Hi Hin]. split; [done|].
    simpl. apply keys_register. by right. }
  assert (Hnotgroup : forall a, (a < List.length h2)%nat ->
                        forall t, Dict.get t (b_groups b3) <> Some a).
  { intros a Ha t Ht. destruct (Hgroup_of _ _ Ht) as (i & g & -> & _). lia. }
  exists {| heap := h4; replies := rs |}, b3.
  split; [|split; [done|split; [|split; [done|split; [|split; [|split; [|split; [|split]]]]]]]].
  - unfold Board_init. destruct groups as [|g0 groups0]; [done|].
    rewrite (bind_Ok_nil _ _ _ _ _ (alloc_run (OBoard b0) h rs)).
    fold n0. unfold Board_hydrate.
    rewrite (bind_Ok_nil _ _ {| heap := h ++ [OBoard b0]; replies := rs |} tt
               {| heap := h4; replies := rs |}); [done|].
    rewrite (bind_Ok_nil _ _ _ tt _
               (update_board_at (h ++ [OBoard b0]) rs n0 (OBoard b0) b0
                  (set_b_board_id board_id) (list_lookup_middle _ _ _ _ eq_refl)
                  eq_refl)).
    simpl with_board. fold b1. fold h1.
    rewrite (bind_Ok_nil _ _ _ tt _
               (set_columns_loop_hydrate n0 columns h1 rs _ _ H1 eq_refl Hcols)).
    simpl with_board. fold b2. fold h2.
    rewrite (bind_Ok_nil _ _ _ tt _
               (set_groups_loop_hydrate n0 (g0 :: groups0) h2 rs _ _ H2
                  eq_refl Hgroups)).
    simpl with_board. fold b3. fold h3. exact Hrun.
  - exists (OBoard b3). split; [|done]. simpl.
    rewrite Hframe; [done | by apply Hnotgroup; lia | lia].
  - intros t. simpl. rewrite keys_register. simpl. tauto.
  - intros t. simpl. rewrite keys_register. simpl. tauto.
  - intros t ca Hca. destruct (Hcolumn_of _ _ Hca) as (i & c & -> & Hi & Ht).
    exists c. split; [by eapply list_elem_of_In, list_elem_of_lookup_2|].
    split; [done|]. simpl.
    assert (i < List.length columns)%nat by (by eapply lookup_lt_Some).
    rewrite Hframe; [by apply Hcol | apply Hnotgroup; lia | lia].
  - intros t ga Hga. destruct (Hgroup_of _ _ Hga) as (i & g & -> & Hi & Ht).
    eexists. split; [apply (Hreg _ _ _ Hga (Hgrp _ _ Hi))|].
    split; [done|]. simpl. split.
    + intros n. rewrite keys_register_items. simpl. tauto.
    + intros n ia Hia.
      apply get_register_items_inv in Hia as [Hia | (k & it & -> & Hk & Hn & Hg)];
        [discriminate|].
      exists it. split; [by eapply list_elem_of_In, list_elem_of_lookup_2|].
      split; [done|]. split; [done|]. by apply Hnew.
  - intros tc ca tg ga g n ia Hca Hga Hg Hia.
    destruct (Hcolumn_of _ _ Hca) as (i & c & -> & Hi & _).
    destruct (Hgroup_of _ _ Hga) as (j & gj & -> & Hj & _).
    simpl in Hg. rewrite (Hreg _ _ _ Hga (Hgrp _ _ Hj)) in Hg.
    injection Hg as <-. simpl in Hia.
    apply get_register_items_inv in Hia as [Hia | (k & it & -> & Hk & _)];
      [discriminate|].
    apply lookup_lt_Some in Hi, Hj. lia.
  - intros k i Hk Hlast.
    assert (Hin : In (gj_title (ij_group i)) (Dict.keys (b_groups b3))).
    { simpl. apply keys_register. right.
      assert (Hi : In i items)
        by (by eapply list_elem_of_In, list_elem_of_lookup_2).
      rewrite List.Forall_forall in Hitems. by destruct (Hitems i Hi). }
    apply DictFacts.get_Some_keys in Hin as [ga Hga].
    destruct (Hgroup_of _ _ Hga) as (j & g & -> & Hj & Ht).
    eexists _, _, (List.length h3 + k)%nat.
    split; [exact Hga|]. split; [apply (Hreg _ _ _ Hga (Hgrp _ _ Hj))|].
    split; [|by apply Hnew].
    simpl. by apply get_register_items_last.
Qed.

Lemma Board_init_hydrates_witness :
  let G t := {| gj_id := VStr ("g_" +:+ t); gj_title := t |} in
  let C t := {| cj_id := VStr ("c_" +:+ t); cj_title := t;
                cj_type := VStr "text"; cj_description := VNone |} in
  let I n t := {| ij_id := VStr ("i_" +:+ n); ij_name := n; ij_group := G t;
                  ij_column_values := [("c_A", VStr n)] |} in
  let groups := [G "G1"; G "G2"; G "G3"] in
  let columns := [C "A"; C "B"] in
  let items := [I "a" "G1"; I "b" "G2"; I "c" "G1"; I "d" "G3"; I "e" "G3"] in
  let w := {| ws_name := "w"; ws_token := "t"; ws_apiUrl := "u";
              ws_boards_limit := 500; ws_print_api_protocol := false;
              ws_boards := []; ws_work_space_id := None |} in
  let s := {| heap := [OWorkSpace w]; replies := [] |} in
  exists s' b,
    Board_init (fun _ => "") (fun _ => "") (VRef 0%nat) "B" false
      (Some groups) (Some columns) (Some items) (VStr "123") s
    = (Ok 1%nat, s', [])
    /\ replies s' = []
    /\ board_at (heap s') 1%nat b
    /\ b_board_id b = Some (VStr "123")
    /\ (forall t, In t (Dict.keys (b_columns b)) <-> In t ["A"; "B"])
    /\ (forall t, In t (Dict.keys (b_groups b)) <-> In t ["G1"; "G2"; "G3"])
    /\ (forall t ca, Dict.get t (b_columns b) = Some ca ->
          exists c, In c columns /\ cj_title c = t
                    /\ heap s' !! ca = Some (mk_column (VRef 1%nat) c))
    /\ (forall t ga, Dict.get t (b_groups b) = Some ga ->
          exists g, heap s' !! ga = Some (OGroup g) /\ g_title g = t
            /\ (forall n, In n (Dict.keys (g_items g)) <->
                          exists i, In i items /\ ij_name i = n
                                    /\ gj_title (ij_group i) = t)
            /\ (forall n ia, Dict.get n (g_items g) = Some ia ->
                  exists i, In i items /\ ij_name i = n
                            /\ gj_title (ij_group i) = t
                            /\ heap s' !! ia = Some (OItem (mk_item i))))
    /\ (forall tc ca tg ga g n ia,
          Dict.get tc (b_columns b) = Some ca ->
          Dict.get tg (b_groups b) = Some ga ->
          heap s' !! ga = Some (OGroup g) ->
          Dict.get n (g_items g) = Some ia ->
          (ca < ga)%nat /\ (ga < ia)%nat)
    /\ (forall k i,
          items !! k = Some i ->
          (forall j i', (k < j)%nat -> items !! j = Some i' ->
             ~ (ij_name i' = ij_name i
                /\ gj_title (ij_group i') = gj_title (ij_group i))) ->
          exists ga g ia,
            Dict.get (gj_title (ij_group i)) (b_groups b) = Some ga
            /\ heap s' !! ga = Some (OGroup g)
            /\ Dict.get (ij_name i) (g_items g) = Some ia
            /\ heap s' !! ia = Some (OItem (mk_item i))).
Proof.
  intros G C I groups columns items w s.
  apply (Board_init_hydrates (fun _ => "") (fun _ => "") (VRef 0%nat) "B"
           false groups columns items (VStr "123") s).
  - discriminate.
  - repeat constructor.
  - repeat constructor.
  - repeat constructor; simpl; tauto.
Defined.

(** C9: the item that hydration stores in a group.  Its [group] field is
    the title of the group, a string, not the group that owns it
    ([Board.set_items] passes [group=item_group_title]); following the
    back-reference, as [add_update] does, raises [AttributeError]. *)
Theorem hydrated_item_group_is_a_title dumps pstr :
  let w := {| ws_name := "w"; ws_token := "t"; ws_apiUrl := "u";
              ws_boards_limit := 500; ws_print_api_protocol := false;
              ws_boards := []; ws_work_space_id := None |} in
  let board := {| b_work_space := VRef 0%nat; b_name := "B"; b_columns := [];
                  b_groups := [("G1", 2%nat)];
                  b_board_id := Some (VStr "123") |} in
  let group := {| g_board := VRef 1%nat; g_title := "G1";
                  g_items := [("a", 3%nat)]; g_group_id := VStr "g1" |} in
  let item := {| i_group := VStr "G1"; i_item_id := VStr "77";
                 i_name := "a"; i_columns_values := [] |} in
  let s' := {| heap := [OWorkSpace w; OBoard board; OGroup group; OItem item];
               replies := [] |} in
  Board_init dumps pstr (VRef 0%nat) "B" false
    (Some [{| gj_id := VStr "g1"; gj_title := "G1" |}]) (Some [])
    (Some [{| ij_id := VStr "77"; ij_name := "a";
              ij_group := {| gj_id := VStr "g1"; gj_title := "G1" |};
              ij_column_values := [] |}])
    (VStr "123") {| heap := [OWorkSpace w]; replies := [] |}
  = (Ok 1%nat, s', [])
  /\ i_group item <> VRef 2%nat
  /\ Item_add_update 3%nat "done" s' = (Raise AttributeError, s', []).
Proof. intros w board group item s'. split; [reflexivity|]. by split. Qed.

(** ** Columns with the same title *)

Lemma WorkSpace_post_request_heap w query s r s' ev :
  WorkSpace_post_request w query s = (r, s', ev) -> heap s' = heap s.
Proof.
  unfold WorkSpace_post_request.
  destruct (post_request w query (replies s)) as [[r0 rest] ev0].
  by intros [= _ <- _].
Qed.

(** Invert a bind whose first step is a reader. *)
Ltac inv_read H :=
  let a := fresh "a" in
  let s1 := fresh "s" in
  let ev1 := fresh "ev" in
  let ev2 := fresh "ev" in
  let H1 := fresh "Hstep" in
  let E := fresh "Hev" in
  apply bind_Ok_inv in H as (a & s1 & ev1 & ev2 & H1 & H & E);
  match type of H1 with
  | ?m _ = _ =>
      let R := fresh "R" in
      assert (R : reader m) by auto with readers;
      destruct (reader_inv _ _ _ _ _ R H1) as [? ?]; subst; clear R
  end.

(** Invert a bind whose first step is a request. *)
Ltac inv_post H :=
  let a := fresh "a" in
  let s1 := fresh "s" in
  let ev1 := fresh "ev" in
  let ev2 := fresh "ev" in
  let H1 := fresh "Hpost" in
  let E := fresh "Hev" in
  apply bind_Ok_inv in H as (a & s1 & ev1 & ev2 & H1 & H & E);
  pose proof (WorkSpace_post_request_heap _ _ _ _ _ _ H1).

(** However a column is constructed, it is a new object at the end of the
    heap, and nothing else changes. *)
Lemma Column_init_inv board title description column_type column_id s c s' ev :
  Column_init board title description column_type column_id s = (Ok c, s', ev) ->
  c = List.length (heap s)
  /\ exists id, heap s' = heap s ++ [OColumn {| c_board := board; c_title := title;
                                              c_description := description;
                                              c_column_type := column_type;
                                              c_column_id := id |}].
Proof.
  unfold Column_init. destruct (py_truthy column_id).
  - intros [= <- <- <-]. split; [done|]. by eexists.
  - intros H.
    do 6 inv_read H. inv_post H. do 2 inv_read H.
    injection H as <- <- <-. simpl. split; [congruence|]. eexists. by f_equal.
Qed.

Lemma Board_add_column_run h rs self o b c col :
  h !! self = Some o -> board_of o = Some b -> h !! c = Some (OColumn col) ->
  Board_add_column self c {| heap := h; replies := rs |}
  = (Ok tt,
     {| heap := <[self := with_board o
                            (set_b_columns (Dict.set (c_title col) c (b_columns b)) b)]> h;
        replies := rs |}, []).
Proof.
  intros Ho Hb Hc. unfold Board_add_column.
  rewrite (bind_reader _ _ {| heap := h; replies := rs |} col)
    by (by apply get_column_ref).
  exact (update_board_at h rs self o b
           (fun b => set_b_columns (Dict.set (c_title col) c (b_columns b)) b)
           Ho Hb).
Qed.

(** Constructing and registering one column. *)
Lemma add_new_column_inv self title description column_type column_id
  h rs o b c s' ev :
  h !! self = Some o -> board_of o = Some b ->
  add_new_column self title description column_type column_id
    {| heap := h; replies := rs |} = (Ok c, s', ev) ->
  c = List.length h
  /\ exists id,
      heap s'
      = <[self := with_board o (set_b_columns (Dict.set title c (b_columns b)) b)]> h
        ++ [OColumn {| c_board := VRef self; c_title := title;
                       c_description := description;
                       c_column_type := column_type; c_column_id := id |}].
Proof.
  intros Ho Hb H. unfold add_new_column in H.
  apply bind_Ok_inv in H as (c0 & [h1 rs1] & ev1 & ev2 & Hstep & H & Hev).
  apply Column_init_inv in Hstep as [-> [id Hheap]].
  simpl in Hheap. subst h1.
  assert (Hlt : (self < List.length h)%nat) by (by eapply lookup_lt_Some).
  rewrite (bind_Ok_nil _ _ _ tt _
             (Board_add_column_run _ rs1 self o b (List.length h) _
                (lookup_app_l_Some _ _ _ _ Ho) Hb
                (list_lookup_middle _ _ _ _ eq_refl))) in H.
  injection H as <- <- _. split; [done|]. exists id. simpl.
  by rewrite insert_app_l.
Qed.

(** C6: two columns with the same title on one board.  (a) Constructed and
    registered with [add_column] one after the other, whichever way they
    are constructed: the title maps to the second column, its only entry;
    the other entries are untouched and keys stay unique.  (b) Listed in a
    reply handed to [set_columns]: each title maps to the column built
    from the last entry with that title, and keys stay unique. *)
Theorem same_title_last_write_wins self :
  (forall title d1 ty1 id1 d2 ty2 id2 s b c1 c2 s' ev,
     board_at (heap s) self b ->
     (c1 <- add_new_column self title d1 ty1 id1 ;;
      c2 <- add_new_column self title d2 ty2 id2 ;;
      ret (c1, c2)) s = (Ok (c1, c2), s', ev) ->
     exists b' id,
       board_at (heap s') self b'
       /\ Dict.get title (b_columns b') = Some c2
       /\ c1 <> c2
       /\ heap s' !! c2
          = Some (OColumn {| c_board := VRef self; c_title := title;
                             c_description := d2; c_column_type := ty2;
                             c_column_id := id |})
       /\ (forall t, t <> title ->
                     Dict.get t (b_columns b') = Dict.get t (b_columns b))
       /\ (forall t, In t (Dict.keys (b_columns b')) <->
                     t = title \/ In t (Dict.keys (b_columns b)))
       /\ (List.NoDup (Dict.keys (b_columns b)) ->
           List.NoDup (Dict.keys (b_columns b'))))
  /\
  (forall json_columns s b,
     board_at (heap s) self b ->
     Forall (fun c => py_truthy (cj_id c) = true) json_columns ->
     exists s' b',
       Board_set_columns self (Some json_columns) s = (Ok tt, s', [])
       /\ board_at (heap s') self b'
       /\ (forall i c,
             json_columns !! i = Some c ->
             (forall j c', (i < j)%nat -> json_columns !! j = Some c' ->
                           cj_title c' <> cj_title c) ->
             Dict.get (cj_title c) (b_columns b')
             = Some (List.length (heap s) + i)%nat
             /\ heap s' !! (List.length (heap s) + i)%nat
                = Some (mk_column (VRef self) c))
       /\ (List.NoDup (Dict.keys (b_columns b)) ->
           List.NoDup (Dict.keys (b_columns b')))).
Proof.
  split.
  - intros title d1 ty1 id1 d2 ty2 id2 [h rs] b c1 c2 s' ev (o & Ho & Hb) H.
    simpl in Ho.
    apply bind_Ok_inv in H as (ca & [h1 rs1] & ev1 & ev2 & Hstep & H & Hev).
    destruct (add_new_column_inv _ _ _ _ _ _ _ _ _ _ _ _ Ho Hb Hstep)
      as [-> [ida Hh1]].
    simpl in Hh1. subst h1.
    assert (Hlt : (self < List.length h)%nat) by (by eapply lookup_lt_Some).
    set (b1 := set_b_columns (Dict.set title (List.length h) (b_columns b)) b) in *.
    set (h1 := <[self := with_board o b1]> h ++ _) in *.
    assert (Ho1 : h1 !! self = Some (with_board o b1)).
    { unfold h1. apply lookup_app_l_Some, list_lookup_insert_eq. lia. }
    apply bind_Ok_inv in H as (cb & [h2 rs2] & ev3 & ev4 & Hstep0 & H & Hev0).
    destruct (add_new_column_inv _ _ _ _ _ _ _ _ _ _ _ _ Ho1
                (board_of_with_board _ _) Hstep0) as [-> [idb Hh2]].
    simpl in Hh2. injection H as <- <- <- _.
    assert (Hlen1 : List.length h1 = S (List.length h)).
    { unfold h1. rewrite length_app, length_insert. simpl. lia. }
    rewrite with_board_with_board in Hh2.
    exists (set_b_columns (Dict.set title (List.length h1) (b_columns b1)) b1), idb.
    rewrite Hh2. split; [|split; [|split; [|split; [|split; [|split]]]]].
    + eexists. split; [|apply board_of_with_board].
      apply lookup_app_l_Some, list_lookup_insert_eq. lia.
    + simpl. apply DictFacts.get_set_eq.
    + lia.
    + simpl. apply list_lookup_middle. by rewrite length_insert.
    + intros t Ht. simpl. by rewrite !DictFacts.get_set_ne.
    + intros t. simpl. rewrite !DictFacts.keys_set. tauto.
    + intros Hnd. simpl. by do 2 apply DictFacts.NoDup_keys_set.
  - intros json_columns [h rs] b (o & Ho & Hb) Hall. simpl in Ho.
    assert (Hlt : (self < List.length h)%nat) by (by eapply lookup_lt_Some).
    eexists _, _. split; [apply (set_columns_loop_hydrate _ _ _ _ _ _ Ho Hb Hall)|].
    simpl. split; [|split].
    + eexists. split; [|apply board_of_with_board].
      apply lookup_app_l_Some, list_lookup_insert_eq. lia.
    + intros i c Hi Hlast. split.
      * simpl. apply get_register_last.
        -- change (map cj_title json_columns) with (cj_title <$> json_columns).
           by rewrite list_lookup_fmap, Hi.
        -- intros j Hj Hj'.
           change (map cj_title json_columns) with (cj_title <$> json_columns) in Hj'.
           rewrite list_lookup_fmap in Hj'.
           destruct (json_columns !! j) as [c'|] eqn:Hc'; [|discriminate].
           injection Hj' as Hj'. by apply (Hlast j c').
      * by apply lookup_insert_app_map.
    + intros Hnd. simpl. by apply NoDup_keys_register.
Qed.

Lemma same_title_last_write_wins_witness :
  let w := {| ws_name := "w"; ws_token := "t"; ws_apiUrl := "u";
              ws_boards_limit := 500; ws_print_api_protocol := false;
              ws_boards := []; ws_work_space_id := None |} in
  let b := {| b_work_space := VRef 0%nat; b_name := "B"; b_columns := [];
              b_groups := []; b_board_id := Some (VStr "123") |} in
  let s := {| heap := [OWorkSpace w; OBoard b];
              replies := [VDict [("data",
                            VDict [("create_column", VDict [("id", VStr "date4")])])]] |} in
  let run := (c1 <- add_new_column 1%nat "Date" (VStr "first") (VStr "date") (VStr "date1") ;;
              c2 <- add_new_column 1%nat "Date" (VStr "second") (VStr "date") VNone ;;
              ret (c1, c2)) s in
  let C id := {| cj_id := VStr id; cj_title := "Date"; cj_type := VStr "date";
                 cj_description := VNone |} in
  (exists b' id,
     board_at (heap run.1.2) 1%nat b'
     /\ Dict.get "Date" (b_columns b') = Some 3%nat
     /\ 2%nat <> 3%nat
     /\ heap run.1.2 !! 3%nat
        = Some (OColumn {| c_board := VRef 1%nat; c_title := "Date";
                           c_description := VStr "second";
                           c_column_type := VStr "date"; c_column_id := id |})
     /\ (forall t, t <> "Date" ->
                   Dict.get t (b_columns b') = Dict.get t (b_columns b))
     /\ (forall t, In t (Dict.keys (b_columns b')) <->
                   t = "Date" \/ In t (Dict.keys (b_columns b)))
     /\ (List.NoDup (Dict.keys (b_columns b)) ->
         List.NoDup (Dict.keys (b_columns b'))))
  /\
  (exists s' b',
     Board_set_columns 1%nat (Some [C "date1"; C "date2"]) s = (Ok tt, s', [])
     /\ board_at (heap s') 1%nat b'
     /\ (forall i c,
           [C "date1"; C "date2"] !! i = Some c ->
           (forall j c', (i < j)%nat -> [C "date1"; C "date2"] !! j = Some c' ->
                         cj_title c' <> cj_title c) ->
           Dict.get (cj_title c) (b_columns b') = Some (2 + i)%nat
           /\ heap s' !! (2 + i)%nat = Some (mk_column (VRef 1%nat) c))
     /\ (List.NoDup (Dict.keys (b_columns b)) ->
         List.NoDup (Dict.keys (b_columns b')))).
Proof.
  intros w b s run C.
  destruct (same_title_last_write_wins 1%nat) as [Ha Hb]. split.
  - apply (Ha "Date" (VStr "first") (VStr "date") (VStr "date1")
             (VStr "second") (VStr "date") VNone s b 2%nat 3%nat
             run.1.2 run.2).
    + exists (OBoard b). split; reflexivity.
    + reflexivity.
  - apply (Hb [C "date1"; C "date2"] s b).
    + exists (OBoard b). split; reflexivity.
    + repeat constructor.
Defined.

(** ** Serialization of the column values of a new item *)

Lemma append_cons x (a b : string) : String x a +:+ b = String x (a +:+ b).
Proof. reflexivity. Qed.


Lemma append_assoc (a b c : string) : (a +:+ b) +:+ c = a +:+ (b +:+ c).
Proof.
  induction a as [|x a IH]; [done|]. rewrite !append_cons. by f_equal.
Qed.






Lemma trailing_entries_app l1 l2 :
  trailing_entries (l1 ++ l2) = trailing_entries l1 +:+ trailing_entries l2.
Proof.
  induction l1 as [|x l1 IH]; simpl; [done|].
  by rewrite IH, !append_assoc.
Qed.









(** ** The handler threads *)

(** C8: an [Analyzer] thread.  If the bound function raises (or never
    returns), the thread ends there and its trace is the function's alone:
    no completion mutation.  If the function returns, the thread goes on,
    after the function's events, with [post_request] of the mutation that
    sets the status column of its item to the label with index 1, which
    starts by posting it. *)
Theorem Analyzer_manager_reports_done call self s :
  (forall e s1 ev1,
     call (a_function self) (a_inputs self) s = (Raise e, s1, ev1) ->
     Analyzer_manager call self s = (Raise e, s1, ev1))
  /\
  (forall s1 ev1,
     call (a_function self) (a_inputs self) s = (Blocked, s1, ev1) ->
     Analyzer_manager call self s = (Blocked, s1, ev1))
  /\
  (forall v s1 ev1 ib w board_id status_column_id item_id,
     call (a_function self) (a_inputs self) s = (Ok v, s1, ev1) ->
     input_board_ready (heap s1) (a_input_board self) ib w board_id
       status_column_id ->
     a_item_id self = VStr item_id ->
     let query := done_mutation board_id item_id status_column_id in
     Analyzer_manager call self s
     = (let '(r, rest, ev2) := post_request w query (replies s1) in
        (match r with
         | Ok _ => Ok VNone
         | Raise e => Raise e
         | Blocked => Blocked
         end,
         {| heap := heap s1; replies := rest |}, ev1 ++ ev2))
     /\ exists ev, (post_request w query (replies s1)).2 = sending w query ++ ev).
Proof.
  split; [|split].
  - intros e s1 ev1 Hcall. unfold Analyzer_manager. by apply bind_Raise.
  - intros s1 ev1 Hcall. unfold Analyzer_manager. by apply bind_Blocked.
  - intros v s1 ev1 ib w board_id col item_id Hcall
      (ia & wa & Hself & Hib & Hws & Hw & Hbid & Hcol) Hitem query.
    split; [|apply post_request_sends].
    unfold Analyzer_manager. rewrite (bind_Ok _ _ _ _ _ _ Hcall).
    rewrite Hself, Hitem.
    rewrite (bind_reader _ _ s1 (ib_board ib)).
    2:{ apply get_board_ref. by exists (OInputBoard ib). }
    rewrite Hws. rewrite (bind_reader _ _ s1 w) by (by apply get_ws_ref).
    rewrite Hbid. rewrite (bind_reader _ _ s1 (VStr board_id)) by done.
    rewrite (bind_reader _ _ s1 board_id) by done.
    rewrite (bind_reader _ _ s1 item_id) by done.
    rewrite (bind_reader _ _ s1 ib) by (by apply get_input_board_ref).
    rewrite Hcol. rewrite (bind_reader _ _ s1 col) by done.
    assert (Htext : status_query board_id item_id col "1" = query)
      by reflexivity.
    rewrite Htext. unfold bind, WorkSpace_post_request, ret.
    destruct (post_request w query (replies s1)) as [[[r| |] rest] ev2]; simpl;
      by rewrite ?app_nil_r.
Qed.

Lemma Analyzer_manager_reports_done_witness :
  let call := fun (f : value) (inputs : list (string * value)) =>
                match f, inputs with
                | VFun 0, [("item_name", name)] =>
                    emit (Print [VStr "handling"; name]) ;;; ret VNone
                | _, _ => emit (Print [VStr "failing"]) ;;; raise ValueError
                end in
  let w := {| ws_name := "w"; ws_token := "t"; ws_apiUrl := "u";
              ws_boards_limit := 500; ws_print_api_protocol := false;
              ws_boards := []; ws_work_space_id := None |} in
  let ib := {| ib_board := {| b_work_space := VRef 0%nat; b_name := "Input";
                              b_columns := []; b_groups := [];
                              b_board_id := Some (VStr "55") |};
               ib_status_column_id := VStr "status";
               ib_execution_dict := [("Input Group 1", VFun 0)];
               ib_check_rate := VInt 1 |} in
  let s := {| heap := [OWorkSpace w; OInputBoard ib];
              replies := [VDict [("data", VDict [])]] |} in
  let thread f := {| a_input_board := VRef 1%nat; a_item_id := VStr "77";
                     a_function := f; a_inputs := [("item_name", VStr "hello")] |} in
  Analyzer_manager call (thread (VFun 1)) s
  = (Raise ValueError, s, [Print [VStr "failing"]])
  /\ Analyzer_manager call (thread (VFun 0)) s
     = (Ok VNone, {| heap := heap s; replies := [] |},
        [Print [VStr "handling"; VStr "hello"];
         HttpPost "u" "t"
           ("mutation { change_column_value (board_id: 55, item_id: 77, column_id: "
            +:+ dq +:+ "status" +:+ dq +:+ ", value: " +:+ dq +:+ "{" +:+ bs
            +:+ dq +:+ "index" +:+ bs +:+ dq +:+ " : 1}" +:+ dq
            +:+ ") { id } }")]).
Proof.
  intros call w ib s thread. split.
  - apply (proj1 (Analyzer_manager_reports_done call (thread (VFun 1)) s)
             ValueError s [Print [VStr "failing"]]).
    reflexivity.
  - destruct (proj2 (proj2 (Analyzer_manager_reports_done call
                              (thread (VFun 0)) s))
                VNone s [Print [VStr "handling"; VStr "hello"]] ib w "55"
                "status" "77")
      as [H _].
    + reflexivity.
    + exists 1%nat, 0%nat. repeat split; reflexivity.
    + reflexivity.
    + rewrite H. reflexivity.
Defined.

(** ** The polling dispatcher *)

Lemma starts_app ev1 ev2 : starts (ev1 ++ ev2) = starts ev1 ++ starts ev2.
Proof. unfold starts. by rewrite flat_map_app. Qed.

Lemma silent_nil : silent [].
Proof. by split. Qed.

Lemma silent_app ev1 ev2 : silent ev1 -> silent ev2 -> silent (ev1 ++ ev2).
Proof.
  intros [H1 H2] [H3 H4]. split.
  - by rewrite posts_app, H1, H3.
  - by rewrite starts_app, H2, H4.
Qed.

Lemma silent_sleep v : silent (sleep v).2.
Proof.
  destruct v as [|[]|z| | | | |]; try apply silent_nil; simpl; try by split.
  destruct (z <? 0); by split.
Qed.

Lemma silent_rest_for m : silent (rest_for m).2.
Proof.
  unfold rest_for. destruct (seconds_to_rest m); try apply silent_nil.
  apply silent_sleep.
Qed.

Lemma silent_errors_loop errors : silent (errors_loop errors).2.
Proof.
  induction errors as [|error errors IH]; simpl; [apply silent_nil|].
  destruct (py_in "message" error) as [[]| |]; try apply silent_nil; [|done].
  destruct (py_getitem error "message") as [m| |]; try apply silent_nil.
  destruct (py_in budget_exhausted m) as [[]| |]; try apply silent_nil.
  - pose proof (silent_rest_for m) as H.
    by destruct (rest_for m) as [[| |] ev].
  - destruct m; try apply silent_nil.
    destruct (errors_loop errors) as [r ev]. simpl in *.
    destruct IH as [H1 H2]. by split.
Qed.

Lemma silent_handle_response_errors response :
  silent (handle_response_errors response).2.
Proof.
  unfold handle_response_errors.
  destruct (py_in "errors" response) as [[]| |]; try apply silent_nil.
  destruct (py_getitem response "errors") as [errors| |]; try apply silent_nil.
  destruct (py_iter errors); try apply silent_nil. apply silent_errors_loop.
Qed.

Lemma silent_received w response : silent (received w response).
Proof. unfold received. by destruct (ws_print_api_protocol w). Qed.

Lemma silent_untracked w query response : silent (untracked w query response).
Proof. unfold untracked. by destruct (ws_print_api_protocol w). Qed.

Lemma starts_sending w query : starts (sending w query) = [].
Proof. unfold sending. by destruct (ws_print_api_protocol w). Qed.

(** The trace of [post_request]: the query is posted, only that query is
    posted, and no thread is started. *)
Lemma post_request_trace w query replies :
  let ev := (post_request w query replies).2 in
  starts ev = []
  /\ (forall q, In q (posts ev) -> q = query)
  /\ In (HttpPost (ws_apiUrl w) (ws_token w) query) ev.
Proof.
  assert (Hsend : In (HttpPost (ws_apiUrl w) (ws_token w) query)
                    (sending w query)).
  { unfold sending. apply in_or_app. right. by left. }
  induction replies as [|response rest IH]; simpl.
  - rewrite starts_sending, posts_sending. split; [done|].
    split; [|done]. by intros q [<-|[]].
  - pose proof (silent_handle_response_errors response) as [Hp Hs].
    destruct (handle_response_errors response) as [[[]| |] ev]; simpl in *.
    + destruct (py_getitem response "data"); simpl;
        rewrite !starts_app, !posts_app, starts_sending, posts_sending, Hp, Hs;
        rewrite ?(proj1 (silent_received w response)),
          ?(proj2 (silent_received w response)),
          ?(proj1 (silent_untracked w query response)),
          ?(proj2 (silent_untracked w query response));
        (split; [done|]; split; [by intros q [<-|[]] | by apply in_or_app; left]).
    + destruct (post_request w query rest) as [[r rest'] ev']. simpl in *.
      destruct IH as (IH1 & IH2 & IH3).
      rewrite !starts_app, !posts_app, starts_sending, posts_sending, Hp, Hs, IH1.
      split; [done|]. split; [|by apply in_or_app; left].
      intros q [<-|Hq]; [done | by apply IH2].
    + rewrite !starts_app, !posts_app, starts_sending, posts_sending, Hp, Hs.
      split; [done|]. split; [by intros q [<-|[]] | by apply in_or_app; left].
    + rewrite !starts_app, !posts_app, starts_sending, posts_sending, Hp, Hs.
      split; [done|]. split; [by intros q [<-|[]] | by apply in_or_app; left].
Qed.

Lemma In_starts a ev : In (Start a) ev -> In a (starts ev).
Proof.
  unfold starts. intros H. apply in_flat_map. exists (Start a). split; [done|].
  by left.
Qed.

Lemma no_start ev k a : starts ev = [] -> ev !! k = Some (Start a) -> False.
Proof.
  intros Hs Hk. apply list_elem_of_lookup_2, list_elem_of_In, In_starts in Hk.
  rewrite Hs in Hk. destruct Hk.
Qed.

Lemma preceded_silent P ev : starts ev = [] -> preceded P ev.
Proof. intros Hs k a Hk. destruct (no_start _ _ _ Hs Hk). Qed.

Lemma preceded_app P ev1 ev2 :
  preceded P ev1 -> preceded P ev2 -> preceded P (ev1 ++ ev2).
Proof.
  intros H1 H2 k a Hk. apply lookup_app_Some in Hk as [Hk | [Hle Hk]].
  - destruct (H1 k a Hk) as (j & e & Hj & He & HP).
    exists j, e. split; [done|]. split; [|done]. by apply lookup_app_l_Some.
  - destruct (H2 _ a Hk) as (j & e & Hj & He & HP).
    exists (List.length ev1 + j)%nat, e. split; [lia|]. split; [|done].
    rewrite lookup_app_r by lia.
    by replace (List.length ev1 + j - List.length ev1)%nat with j by lia.
Qed.

Lemma preceded_start (P : Analyzer -> event -> Prop) req a e :
  starts req = [] -> In e req -> P a e -> preceded P (req ++ [Start a]).
Proof.
  intros Hs Hin HP k a' Hk. apply lookup_app_Some in Hk as [Hk | [Hle Hk]].
  - destruct (no_start _ _ _ Hs Hk).
  - destruct (k - List.length req)%nat as [|n] eqn:Hn; [|done].
    injection Hk as <-.
    apply list_elem_of_In, list_elem_of_lookup in Hin as [j Hj].
    exists j, e. split; [|split; [|done]].
    + apply lookup_lt_Some in Hj. lia.
    + by apply lookup_app_l_Some.
Qed.

Lemma preceded_mono (P Q : Analyzer -> event -> Prop) ev :
  (forall a e, P a e -> Q a e) -> preceded P ev -> preceded Q ev.
Proof.
  intros HPQ H k a Hk. destruct (H k a Hk) as (j & e & ? & ? & ?).
  exists j, e. eauto.
Qed.

Lemma marks_cons self ib w board_id col item items a e :
  marks self ib w board_id col items a e ->
  marks self ib w board_id col (item :: items) a e.
Proof.
  intros (i & iid & Hin & H). exists i, iid. split; [by right | done].
Qed.

Lemma only_marks_cons board_id col item items ev :
  only_marks board_id col items ev -> only_marks board_id col (item :: items) ev.
Proof.
  intros H q Hq. destruct (H q Hq) as (i & iid & Hin & H').
  exists i, iid. split; [by right | done].
Qed.

Lemma only_marks_app board_id col items ev1 ev2 :
  only_marks board_id col items ev1 -> only_marks board_id col items ev2 ->
  only_marks board_id col items (ev1 ++ ev2).
Proof.
  intros H1 H2 q Hq. rewrite posts_app in Hq.
  apply in_app_or in Hq as [Hq|Hq]; auto.
Qed.

Lemma only_marks_silent board_id col items ev :
  posts ev = [] -> only_marks board_id col items ev.
Proof. intros H q Hq. rewrite H in Hq. destruct Hq. Qed.

(** Marking an item: a request of the in-progress mutation, or nothing at
    all when the query cannot even be built. *)
Lemma mark_in_progress_cases self ib w board_id col item s :
  input_board_ready (heap s) self ib w board_id col ->
  let '(r, s', ev) := mark_in_progress self item s in
  heap s' = heap s
  /\ ((ev = [] /\ forall v, r <> Ok v)
      \/ exists item_id,
           py_getitem item "id" = Ok (VStr item_id)
           /\ starts ev = []
           /\ (forall q, In q (posts ev) ->
                         q = status_query board_id item_id col "0")
           /\ In (HttpPost (ws_apiUrl w) (ws_token w)
                    (status_query board_id item_id col "0")) ev).
Proof.
  intros (ia & wa & -> & Hib & Hws & Hw & Hbid & Hcol).
  unfold mark_in_progress.
  rewrite (bind_reader _ _ s ib) by (by apply get_input_board_ref).
  rewrite Hws. rewrite (bind_reader _ _ s w) by (by apply get_ws_ref).
  rewrite Hbid. rewrite (bind_reader _ _ s (VStr board_id)) by done.
  rewrite (bind_reader _ _ s board_id) by done.
  destruct (py_getitem item "id") as [iid| |] eqn:Hid;
    [|split; [done | left; split; [done | intros v; discriminate]]..].
  rewrite (bind_reader _ _ s iid) by done.
  destruct iid as [| | |item_id| | | |];
    try (split; [done | left; split; [done | intros v; discriminate]]).
  rewrite (bind_reader _ _ s item_id) by done.
  rewrite Hcol. rewrite (bind_reader _ _ s col) by done.
  pose proof (post_request_trace w (status_query board_id item_id col "0")
                (replies s)) as (H1 & H2 & H3).
  unfold WorkSpace_post_request.
  destruct (post_request w (status_query board_id item_id col "0") (replies s))
    as [[r rest] ev].
  simpl in *. split; [done|]. right. by exists item_id.
Qed.

(** Starting the thread: one [Start] event for the item's analyzer, or
    nothing at all when a lookup fails. *)
Lemma start_analyzer_cases ia ib item s :
  heap s !! ia = Some (OInputBoard ib) ->
  let '(r, s', ev) := start_analyzer (VRef ia) item s in
  s' = s
  /\ ((ev = [] /\ r <> Ok tt)
      \/ exists a, r = Ok tt /\ analyzer_for (VRef ia) ib item = Some a
                   /\ ev = [Start a]).
Proof.
  intros Hib. unfold start_analyzer, analyzer_for.
  destruct (py_getitem item "id") as [iid| |];
    [|split; [done | left; by split]..].
  rewrite (bind_reader _ _ s iid) by done.
  rewrite (bind_reader _ _ s ib) by (by apply get_input_board_ref).
  destruct (py_getitem item "group") as [group| |];
    [|split; [done | left; by split]..].
  rewrite (bind_reader _ _ s group) by done.
  destruct (py_getitem group "title") as [title| |];
    [|split; [done | left; by split]..].
  rewrite (bind_reader _ _ s title) by done.
  destruct title as [| | |title| | | |];
    try (split; [done | left; by split]).
  unfold dict_lookup_value, dict_lookup.
  destruct (Dict.get title (ib_execution_dict ib)) as [function|];
    [|split; [done | left; by split]].
  rewrite (bind_reader _ _ s function) by done.
  destruct (py_getitem item "name") as [name| |];
    [|split; [done | left; by split]..].
  rewrite (bind_reader _ _ s name) by done.
  split; [done|]. right. by eexists.
Qed.

Lemma dispatch_item_trace self ib w board_id col item s :
  input_board_ready (heap s) self ib w board_id col ->
  unprocessed item = true ->
  let '(r, s', ev) := dispatch_item self item s in
  heap s' = heap s
  /\ preceded (marks self ib w board_id col [item]) ev
  /\ only_marks board_id col [item] ev
  /\ ((r <> Ok tt /\ starts ev = [])
      \/ exists a, r = Ok tt /\ analyzer_for self ib item = Some a
                   /\ starts ev = [a]).
Proof.
  intros Hready Hun. unfold dispatch_item, bind.
  pose proof (mark_in_progress_cases self ib w board_id col item s Hready) as Hm.
  destruct (mark_in_progress self item s) as [[r1 s1] ev1].
  destruct Hm as [Hheap Hm].
  assert (Hmarks : forall q, In q (posts ev1) ->
            (exists item_id, py_getitem item "id" = Ok (VStr item_id)
               /\ forall q', In q' (posts ev1) ->
                             q' = status_query board_id item_id col "0") ->
            exists current_item item_id,
              In current_item [item] /\ unprocessed current_item = true
              /\ py_getitem current_item "id" = Ok (VStr item_id)
              /\ q = status_query board_id item_id col "0").
  { intros q Hq (item_id & Hid & Hall). exists item, item_id.
    split; [by left|]. split; [done|]. split; [done|]. by apply Hall. }
  destruct r1 as [v| |].
  - destruct Hm as [[_ Hno] | (item_id & Hid & Hs & Hp & Hin)];
      [by destruct (Hno v)|].
    destruct Hready as (ia & wa & -> & Hib & Hrest).
    rewrite <- Hheap in Hib.
    pose proof (start_analyzer_cases ia ib item s1 Hib) as Hst.
    destruct (start_analyzer (VRef ia) item s1) as [[r2 s2] ev2].
    destruct Hst as [-> [[-> Hr] | (a & -> & Ha & ->)]].
    + rewrite app_nil_r. split; [done|]. split; [by apply preceded_silent|].
      split; [|by left]. intros q Hq. apply (Hmarks q Hq). eauto.
    + split; [done|]. split; [|split].
      * eapply preceded_start; [done | exact Hin|].
        exists item, item_id. split; [by left | done].
      * apply only_marks_app; [|by apply only_marks_silent].
        intros q Hq. apply (Hmarks q Hq). eauto.
      * right. exists a. split; [done|]. split; [done|].
        by rewrite starts_app, Hs.
  - split; [done|].
    destruct Hm as [[-> _] | (item_id & Hid & Hs & Hp & Hin)].
    + split; [by apply preceded_silent|]. split; [by apply only_marks_silent|].
      by left.
    + split; [by apply preceded_silent|]. split; [|by left].
      intros q Hq. apply (Hmarks q Hq). eauto.
  - split; [done|].
    destruct Hm as [[-> _] | (item_id & Hid & Hs & Hp & Hin)].
    + split; [by apply preceded_silent|]. split; [by apply only_marks_silent|].
      by left.
    + split; [by apply preceded_silent|]. split; [|by left].
      intros q Hq. apply (Hmarks q Hq). eauto.
Qed.

Lemma marks_incl self ib w board_id col items items' a e :
  (forall i, In i items -> In i items') ->
  marks self ib w board_id col items a e ->
  marks self ib w board_id col items' a e.
Proof.
  intros Hincl (i & iid & Hin & H). exists i, iid. split; [auto | done].
Qed.

Lemma only_marks_incl board_id col items items' ev :
  (forall i, In i items -> In i items') ->
  only_marks board_id col items ev -> only_marks board_id col items' ev.
Proof.
  intros Hincl H q Hq. destruct (H q Hq) as (i & iid & Hin & H').
  exists i, iid. split; [auto | done].
Qed.

(** The loop over the items of a poll. *)
Lemma dispatch_items_trace self ib w board_id col items : forall s,
  input_board_ready (heap s) self ib w board_id col ->
  let '(r, s', ev) := dispatch_items self items s in
  heap s' = heap s
  /\ preceded (marks self ib w board_id col items) ev
  /\ only_marks board_id col items ev
  /\ (r = Ok tt ->
      Forall2 (fun item a => analyzer_for self ib item = Some a)
        (List.filter unprocessed items) (starts ev)).
Proof.
  induction items as [|item items IH]; intros s Hready.
  - simpl. split; [done|]. split; [by apply preceded_silent|].
    split; [by apply only_marks_silent | by constructor].
  - simpl dispatch_items.
    destruct (first_value item) as [v| |] eqn:Hv;
      [|unfold bind, lift; simpl;
        (split; [done|]; split; [by apply preceded_silent|];
         split; [by apply only_marks_silent | discriminate])..].
    rewrite (bind_reader _ _ s v) by done.
    destruct (py_truthy v) eqn:Ht.
    + rewrite (bind_reader _ _ s tt) by done.
      assert (Hun : unprocessed item = false)
        by (unfold unprocessed; by rewrite Hv, Ht).
      specialize (IH s Hready).
      destruct (dispatch_items self items s) as [[r s'] ev].
      destruct IH as (Hheap & Hpre & Honly & Hall).
      split; [done|]. split; [|split].
      * eapply preceded_mono; [|exact Hpre]. intros a e. apply marks_cons.
      * by apply only_marks_cons.
      * simpl List.filter. by rewrite Hun.
    + assert (Hun : unprocessed item = true) by (unfold unprocessed; by rewrite Hv, Ht).
      pose proof (dispatch_item_trace self ib w board_id col item s Hready Hun) as Hd.
      unfold bind at 1.
      destruct (dispatch_item self item s) as [[r1 s1] ev1].
      destruct Hd as (Hheap1 & Hpre1 & Honly1 & Hres1).
      assert (Hpre1' : preceded (marks self ib w board_id col (item :: items)) ev1).
      { eapply preceded_mono; [|exact Hpre1]. intros a e.
        apply marks_incl. intros i [<-|[]]. by left. }
      assert (Honly1' : only_marks board_id col (item :: items) ev1).
      { eapply only_marks_incl; [|exact Honly1]. intros i [<-|[]]. by left. }
      destruct r1 as [[]| |].
      * assert (Hready1 : input_board_ready (heap s1) self ib w board_id col)
          by (by rewrite Hheap1).
        specialize (IH s1 Hready1).
        destruct (dispatch_items self items s1) as [[r s'] ev].
        destruct IH as (Hheap & Hpre & Honly & Hall).
        split; [congruence|]. split; [|split].
        -- apply preceded_app; [done|].
           eapply preceded_mono; [|exact Hpre]. intros a e. apply marks_cons.
        -- apply only_marks_app; [done | by apply only_marks_cons].
        -- intros Hr. rewrite starts_app. simpl List.filter. rewrite Hun.
           destruct Hres1 as [[Hne _] | (a & _ & Ha & ->)]; [done|].
           constructor; [done | by apply Hall].
      * split; [done|]. split; [done|]. split; [done | discriminate].
      * split; [done|]. split; [done|]. split; [done | discriminate].
Qed.

Lemma bind_reader_tail {A B} (m : M A) (f : A -> M B) s :
  (forall a, reader (f a)) ->
  exists r, bind m f s = (r, (m s).1.2, (m s).2)
            /\ forall b, r = Ok b -> exists a, (m s).1.1 = Ok a.
Proof.
  intros Hf. unfold bind. destruct (m s) as [[[a| |] s1] ev1]; simpl.
  - destruct (Hf a s1) as [r ->]. exists r. rewrite app_nil_r. eauto.
  - eexists. split; [done | discriminate].
  - eexists. split; [done | discriminate].
Qed.

(** Fetching the items: one request of the items query, nothing else. *)
Lemma fetch_items_trace self ib w board_id col s :
  input_board_ready (heap s) self ib w board_id col ->
  let '(r, s', ev) := fetch_items self s in
  heap s' = heap s
  /\ starts ev = []
  /\ (forall q, In q (posts ev) -> q = items_query board_id).
Proof.
  intros (ia & wa & -> & Hib & Hws & Hw & Hbid & Hcol). unfold fetch_items.
  rewrite (bind_reader _ _ s ib) by (by apply get_input_board_ref).
  rewrite Hws. rewrite (bind_reader _ _ s w) by (by apply get_ws_ref).
  rewrite Hbid. rewrite (bind_reader _ _ s (VStr board_id)) by done.
  rewrite (bind_reader _ _ s board_id) by done.
  match goal with
  | |- context [bind ?m ?f s] =>
      destruct (bind_reader_tail m f s) as (r & -> & _)
  end.
  { intros a. repeat (apply reader_bind; [auto with readers | intros ?]).
    auto with readers. }
  pose proof (post_request_trace w (items_query board_id) (replies s))
    as (H1 & H2 & _).
  unfold WorkSpace_post_request.
  destruct (post_request w (items_query board_id) (replies s)) as [[r0 rest] ev].
  by simpl in *.
Qed.





(** A poll cycle leaves the heap as it is, so the board stays set up from
    one pass of the loop to the next. *)
Lemma poll_cycle_heap self ib w board_id col s :
  input_board_ready (heap s) self ib w board_id col ->
  heap (poll_cycle self s).1.2 = heap s.
Proof.
  intros Hready. unfold poll_cycle.
  pose proof (fetch_items_trace self ib w board_id col s Hready) as Hf.
  unfold bind at 1.
  destruct (fetch_items self s) as [[[items| |] s0] ev0];
    destruct Hf as (Hheap0 & _); try done.
  assert (Hready0 : input_board_ready (heap s0) self ib w board_id col)
    by (by rewrite Hheap0).
  pose proof (dispatch_items_trace self ib w board_id col items s0 Hready0) as Hd.
  unfold bind at 1.
  destruct (dispatch_items self items s0) as [[[[]| |] s1] ev1];
    destruct Hd as (Hheap1 & _); simpl; try congruence.
  destruct Hready0 as (ia & wa & -> & Hib & _). rewrite <- Hheap1 in Hib.
  rewrite (bind_reader _ _ s1 ib) by (by apply get_input_board_ref).
  unfold lift_ev. destruct (sleep (ib_check_rate ib)). simpl. congruence.
Qed.


(** ** Replies that are not hydrated as stated *)

(** C5, as stated for every reply.  (1) A reply with a column and no
    group: [Board.__init__] tests [if json_groups:], so the reply is not
    read; here the board is created on monday (a new remote id) and the
    column of the reply is not in its columns mapping.  (2) Two entries
    with one name in one group: both items are built, the group keeps the
    later one and the earlier one (at address 3) is in no mapping.  (3) An
    item without id: its constructor follows [self.group.board] on a title
    and raises [AttributeError].  (4) An item that names a group that the
    reply does not list: [KeyError].  (5, 6) A column or a group without
    id is created on the remote, so that what hydration gives depends on
    the replies: with a reply that holds no created entry, [KeyError]
    after the post. *)
Lemma replies_not_hydrated_as_stated :
  let w := {| ws_name := "w"; ws_token := "t"; ws_apiUrl := "u";
              ws_boards_limit := 500; ws_print_api_protocol := false;
              ws_boards := []; ws_work_space_id := Some (VInt 7) |} in
  let hydrate groups columns items replies :=
    Board_init (fun _ => "{}") (fun _ => "7") (VRef 0%nat) "B" false
      (Some groups) (Some columns) (Some items) (VStr "123")
      {| heap := [OWorkSpace w]; replies := replies |} in
  let column id := {| cj_id := id; cj_title := "A"; cj_type := VStr "text";
                      cj_description := VStr "" |} in
  let group id := {| gj_id := id; gj_title := "G1" |} in
  let item id title := {| ij_id := id; ij_name := "a";
                          ij_group := {| gj_id := VStr "g"; gj_title := title |};
                          ij_column_values := [] |} in
  let board groups := {| b_work_space := VRef 0%nat; b_name := "B";
                         b_columns := []; b_groups := groups;
                         b_board_id := Some (VStr "123") |} in
  let empty := VDict [("data", VDict [])] in
  (let run :=
     hydrate [] [column (VStr "c_A")] []
       [VDict [("data", VDict [("create_board", VDict [("id", VStr "99")])])];
        VDict [("data",
                VDict [("boards", VList [VDict [("groups", VList [])]])])]] in
   exists b,
     run.1.1 = Ok 1%nat
     /\ board_at (heap run.1.2) 1%nat b
     /\ ~ In "A" (Dict.keys (b_columns b))
     /\ b_board_id b = Some (VStr "99")
     /\ posts run.2
        = ["mutation { create_board (board_name: " +:+ dq +:+ "B" +:+ dq
           +:+ ", board_kind: private, workspace_id: 7) { id } }";
           "{ boards (ids: 99) {id groups{id title}} }"])
  /\ hydrate [group (VStr "g")] [] [item (VStr "1") "G1"; item (VStr "2") "G1"] []
     = (Ok 1%nat,
        {| heap := [OWorkSpace w; OBoard (board [("G1", 2%nat)]);
                    OGroup {| g_board := VRef 1%nat; g_title := "G1";
                              g_items := [("a", 4%nat)];
                              g_group_id := VStr "g" |};
                    OItem (mk_item (item (VStr "1") "G1"));
                    OItem (mk_item (item (VStr "2") "G1"))];
           replies := [] |}, [])
  /\ hydrate [group (VStr "g")] [] [item VNone "G1"] [empty]
     = (Raise AttributeError,
        {| heap := [OWorkSpace w; OBoard (board [("G1", 2%nat)]);
                    OGroup {| g_board := VRef 1%nat; g_title := "G1";
                              g_items := []; g_group_id := VStr "g" |}];
           replies := [empty] |}, [])
  /\ (hydrate [group (VStr "g")] [] [item (VStr "1") "G2"] []).1.1
     = Raise KeyError
  /\ (let run := hydrate [group (VStr "g")] [column (VStr "")] [] [empty] in
      run.1.1 = Raise KeyError
      /\ posts run.2
         = ["mutation{ create_column(board_id: 123, title:" +:+ dq +:+ "A" +:+ dq
            +:+ ", description: " +:+ dq +:+ dq
            +:+ ", column_type:text) { id title description } }"])
  /\ (let run := hydrate [group VNone] [] [] [empty] in
      run.1.1 = Raise KeyError
      /\ posts run.2
         = ["mutation { create_group (board_id: 123, group_name: " +:+ dq
            +:+ "G1" +:+ dq +:+ ") { id } }"]).
Proof.
  intros w hydrate column group item board empty.
  split; [|repeat split; reflexivity].
  exists {| b_work_space := VRef 0%nat; b_name := "B"; b_columns := [];
            b_groups := []; b_board_id := Some (VStr "99") |}.
  split; [reflexivity|]. split; [|split; [|split; reflexivity]].
  - eexists. split; reflexivity.
  - intros [].
Qed.

(** * Further properties of the code *)

(** ** The request executor, beyond the claims *)

Lemma py_in_not_Blocked k v : py_in k v <> Blocked.
Proof. by destruct v. Qed.

Lemma py_getitem_not_Blocked v k : py_getitem v k <> Blocked.
Proof. destruct v; simpl; try done. by destruct (Dict.get k d). Qed.

Lemma py_iter_not_Blocked v : py_iter v <> Blocked.
Proof. by destruct v. Qed.

Lemma seconds_to_rest_not_Blocked m : seconds_to_rest m <> Blocked.
Proof.
  unfold seconds_to_rest.
  destruct (py_in reset_in m) as [[]| |] eqn:Hin; try done.
  - destruct m; try done.
    destruct (split reset_in s !! 1%nat) as [[|c tl]|]; try done.
    destruct (isdigit c) eqn:Hd; [|done].
    unfold int_of_char. by rewrite Hd.
  - by destruct (py_in_not_Blocked _ _ Hin).
Qed.

Lemma rest_for_not_Blocked m : (rest_for m).1 <> Blocked.
Proof.
  unfold rest_for. destruct (seconds_to_rest m) as [v| |] eqn:Hv; simpl.
  - destruct v as [|[]|z| | | | |]; simpl; try done. by destruct (z <? 0).
  - done.
  - by destruct (seconds_to_rest_not_Blocked _ Hv).
Qed.

Lemma errors_loop_result errors :
  (errors_loop errors).1 <> Ok true /\ (errors_loop errors).1 <> Blocked.
Proof.
  induction errors as [|error errors IH]; simpl; [by split|].
  destruct (py_in "message" error) as [[]| |] eqn:H1; simpl;
    [|exact IH | by split | by destruct (py_in_not_Blocked _ _ H1)].
  destruct (py_getitem error "message") as [m| |] eqn:H2; simpl;
    [|by split | by destruct (py_getitem_not_Blocked _ _ H2)].
  destruct (py_in budget_exhausted m) as [[]| |] eqn:H3; simpl;
    [| |by split | by destruct (py_in_not_Blocked _ _ H3)].
  - pose proof (rest_for_not_Blocked m) as H4.
    destruct (rest_for m) as [[| |] ev]; simpl in *; by split.
  - destruct m; simpl; try by split.
    destruct (errors_loop errors) as [r ev]. exact IH.
Qed.

Lemma handle_response_errors_not_Blocked response :
  (handle_response_errors response).1 <> Blocked.
Proof.
  unfold handle_response_errors.
  destruct (py_in "errors" response) as [[]| |] eqn:H1; simpl; try done.
  - destruct (py_getitem response "errors") as [errors| |] eqn:H2; simpl;
      try done.
    + destruct (py_iter errors) eqn:H3; simpl; try done.
      * apply errors_loop_result.
      * by destruct (py_iter_not_Blocked _ H3).
    + by destruct (py_getitem_not_Blocked _ _ H2).
  - by destruct (py_in_not_Blocked _ _ H1).
Qed.

(** X1: [handle_response_errors] answers [True] exactly when ['errors'] is
    not in the response, and then it has done nothing: no sleep, no write. *)
Theorem handle_response_errors_True response ev :
  handle_response_errors response = (Ok true, ev) <->
  py_in "errors" response = Ok false /\ ev = [].
Proof.
  unfold handle_response_errors. split.
  - destruct (py_in "errors" response) as [[]| |]; try discriminate.
    + destruct (py_getitem response "errors") as [errors| |]; try discriminate.
      destruct (py_iter errors) as [l| |]; try discriminate.
      intros H. destruct (proj1 (errors_loop_result l)). by rewrite H.
    + by intros [= <-].
  - intros [-> ->]. done.
Qed.

Lemma handle_response_errors_True_witness :
  handle_response_errors (VDict [("data", VInt 1)]) = (Ok true, [])
  /\ handle_response_errors (VDict [("data", VInt 1); ("errors", VList [])])
     <> (Ok true, []).
Proof.
  split.
  - apply (proj2 (handle_response_errors_True (VDict [("data", VInt 1)]) [])).
    by split.
  - intros H.
    apply (proj1 (handle_response_errors_True
                    (VDict [("data", VInt 1); ("errors", VList [])]) [])) in H.
    destruct H as [H _]. discriminate.
Defined.

Lemma sleeps_app ev1 ev2 : sleeps (ev1 ++ ev2) = sleeps ev1 ++ sleeps ev2.
Proof. unfold sleeps. by rewrite flat_map_app. Qed.

Lemma appends_app ev1 ev2 : appends (ev1 ++ ev2) = appends ev1 ++ appends ev2.
Proof. unfold appends. by rewrite flat_map_app. Qed.

Lemma seconds_to_rest_range m v :
  seconds_to_rest m = Ok v ->
  (exists z, v = VInt z /\ 1 <= z <= 10) \/ (exists c, v = VStr c).
Proof.
  unfold seconds_to_rest.
  destruct (py_in reset_in m) as [[]| |]; try discriminate.
  - destruct m; try discriminate.
    destruct (split reset_in s !! 1%nat) as [[|c tl]|]; try discriminate.
    destruct (isdigit c) eqn:Hd.
    + unfold int_of_char. rewrite Hd. intros [= <-]. left.
      apply isdigit_range in Hd. eexists. split; [done | lia].
    + intros [= <-]. right. by eexists.
  - intros [= <-]. left. exists 5. split; [done | lia].
Qed.

Lemma rest_for_sleeps m :
  (rest_for m).2 = []
  \/ exists z, (rest_for m).2 = [Sleep z] /\ 1 <= z <= 10.
Proof.
  unfold rest_for. destruct (seconds_to_rest m) as [v| |] eqn:Hv; try by left.
  apply seconds_to_rest_range in Hv as [(z & -> & Hz) | (c & ->)]; [|by left].
  simpl. destruct (Z.ltb_spec z 0); [lia|]. right. by exists z.
Qed.

(** X2: the rest that [handle_response_errors] takes is bounded: it sleeps
    at most once per response, and for at least 1 and at most 10 seconds. *)
Theorem handle_response_errors_rest_bounded response :
  let ev := (handle_response_errors response).2 in
  (List.length (sleeps ev) <= 1)%nat
  /\ forall z, In z (sleeps ev) -> 1 <= z <= 10.
Proof.
  assert (Hloop : forall errors,
            sleeps (errors_loop errors).2 = []
            \/ exists z, sleeps (errors_loop errors).2 = [z] /\ 1 <= z <= 10).
  { induction errors as [|error errors IH]; simpl; [by left|].
    destruct (py_in "message" error) as [[]| |]; simpl;
      [|exact IH | by left | by left].
    destruct (py_getitem error "message") as [m| |]; simpl;
      [|by left | by left].
    destruct (py_in budget_exhausted m) as [[]| |]; simpl;
      [| |by left | by left].
    - destruct (rest_for_sleeps m) as [H | (z & H & Hz)];
        destruct (rest_for m) as [[| |] ev]; simpl in *; subst;
        (by left) || (right; by exists z).
    - destruct m; simpl; try by left.
      destruct (errors_loop errors) as [r ev]. exact IH. }
  assert (H : sleeps (handle_response_errors response).2 = []
              \/ exists z, sleeps (handle_response_errors response).2 = [z]
                           /\ 1 <= z <= 10).
  { unfold handle_response_errors.
    destruct (py_in "errors" response) as [[]| |]; simpl;
      [|by left | by left | by left].
    destruct (py_getitem response "errors") as [errors| |]; simpl;
      [|by left | by left].
    destruct (py_iter errors) as [l| |]; simpl; [|by left | by left].
    apply Hloop. }
  simpl. destruct H as [-> | (z & -> & Hz)].
  - split; [simpl; lia | intros z []].
  - split; [simpl; lia|]. by intros z' [<-|[]].
Qed.

(** X3: [post_request] posts its query once for every reply it consumes,
    and once more when it is left waiting; the replies it leaves are a
    suffix of the script, and no other query is ever posted. *)
Theorem post_request_posts_once_per_reply w query replies :
  let '(r, rest, ev) := post_request w query replies in
  (exists consumed, replies = consumed ++ rest
     /\ posts ev
        = repeat query (List.length consumed
                        + match r with Blocked => 1 | _ => 0 end)%nat).
Proof.
  induction replies as [|response replies IH]; simpl.
  - exists []. by rewrite posts_sending.
  - pose proof (silent_handle_response_errors response) as [Hp _].
    pose proof (handle_response_errors_not_Blocked response) as Hnb.
    destruct (handle_response_errors response) as [[[]| |] ev]; simpl in *.
    + destruct (py_getitem response "data"); exists [response];
        rewrite !posts_app, posts_sending, Hp, ?posts_received,
          ?posts_untracked; done.
    + destruct (post_request w query replies) as [[r rest] ev'].
      destruct IH as (consumed & -> & IH). exists (response :: consumed).
      split; [done|]. by rewrite !posts_app, posts_sending, Hp, IH.
    + exists [response]. by rewrite posts_app, posts_sending, Hp.
    + done.
Qed.

(** X4: when [post_request] returns, it returns from the first reply that
    carries no error indicator: every reply before it carried one (and was
    retried, whatever data it held), and the value returned is the ['data']
    of that reply, or [None]. *)
Theorem post_request_returns_first_clean_reply w query replies v rest ev :
  post_request w query replies = (Ok v, rest, ev) ->
  exists retried response,
    replies = retried ++ response :: rest
    /\ Forall (fun r => py_in "errors" r = Ok true) retried
    /\ py_in "errors" response = Ok false
    /\ v = match py_getitem response "data" with
           | Ok data => data
           | _ => VNone
           end.
Proof.
  revert ev. induction replies as [|response replies IH]; intros ev;
    simpl; [discriminate|].
  destruct (handle_response_errors response) as [[[]| |] ev0] eqn:Hh.
  - apply handle_response_errors_True in Hh as [Hin _].
    intros H. exists [], response. split.
    + destruct (py_getitem response "data"); by injection H as _ <- _.
    + split; [constructor|]. split; [done|].
      destruct (py_getitem response "data"); by injection H as <- _ _.
  - destruct (post_request w query replies) as [[r rest'] ev'].
    intros [= -> -> _].
    destruct (IH _ eq_refl) as (retried & clean & -> & Hall & Hin & Hv).
    exists (response :: retried), clean. split; [done|].
    split; [|done]. constructor; [|done].
    unfold handle_response_errors in Hh.
    destruct (py_in "errors" response) as [[]| |]; try discriminate. done.
  - discriminate.
  - discriminate.
Qed.

Lemma post_request_returns_first_clean_reply_witness :
  let w := {| ws_name := "w"; ws_token := "t"; ws_apiUrl := "u";
              ws_boards_limit := 500; ws_print_api_protocol := false;
              ws_boards := []; ws_work_space_id := None |} in
  let partial := VDict [("data", VInt 1);
                        ("errors", VList [VDict [("message", VStr "partial")]])] in
  let clean := VDict [("data", VInt 2)] in
  post_request w "q" [partial; clean; clean]
  = (Ok (VInt 2), [clean],
     [HttpPost "u" "t" "q"; Append "errors.txt" "partial"; HttpPost "u" "t" "q"])
  /\ exists retried response,
       [partial; clean; clean] = retried ++ response :: [clean]
       /\ Forall (fun r => py_in "errors" r = Ok true) retried
       /\ py_in "errors" response = Ok false
       /\ VInt 2 = match py_getitem response "data" with
                   | Ok data => data
                   | _ => VNone
                   end.
Proof.
  intros w partial clean. split; [reflexivity|].
  apply (post_request_returns_first_clean_reply w "q" [partial; clean; clean]
           (VInt 2) [clean]
           [HttpPost "u" "t" "q"; Append "errors.txt" "partial";
            HttpPost "u" "t" "q"]).
  reflexivity.
Defined.

Lemma cool_down_rest_for m seconds :
  cool_down m seconds -> rest_for (VStr m) = (Ok tt, [Sleep seconds]).
Proof.
  intros [[H ->] | (c & tl & Hin & Hs & Hd & ->)].
  - by apply rest_for_default.
  - by apply (rest_for_digit m c tl).
Qed.

Lemma errors_loop_rate_limit pre error post seconds :
  forallb other_error pre = true ->
  rate_limit_error error seconds ->
  errors_loop (pre ++ error :: post)
  = (Ok false, map (Append errors_file) (messages pre) ++ [Sleep seconds]).
Proof.
  intros Hpre (d & m & -> & Hm & Hb & Hcool).
  induction pre as [|e pre IH]; simpl.
  - unfold Dict.mem. rewrite Hm. simpl. rewrite Hb.
    by rewrite (cool_down_rest_for _ _ Hcool).
  - simpl in Hpre. apply andb_prop in Hpre as [He Hpre].
    specialize (IH Hpre). unfold messages in *. simpl.
    destruct e as [| | | |?|de| |]; simpl in He; try discriminate.
    simpl. unfold Dict.mem.
    destruct (Dict.get "message" de) as [msg|] eqn:Hmsg; [|by rewrite IH].
    destruct msg as [| | |me| | | |]; try discriminate.
    simpl. apply negb_true_iff in He. by rewrite He, IH.
Qed.

(** X5: a response with a rate-limit error.  The messages of the other
    errors listed before it are written, the rest it asks for is taken,
    and the scan stops there: whatever is listed after it is not looked
    at.  [post_request] then goes on as the same call on the remaining
    replies. *)
Theorem post_request_rate_limit_retry w query d pre error post seconds rest :
  Dict.get "errors" d = Some (VList (pre ++ error :: post)) ->
  forallb other_error pre = true ->
  rate_limit_error error seconds ->
  post_request w query (VDict d :: rest)
  = (let '(r, rest', ev) := post_request w query rest in
     (r, rest',
      sending w query ++ (map (Append errors_file) (messages pre)
                          ++ [Sleep seconds]) ++ ev)).
Proof.
  intros Hd Hpre Herr. simpl. unfold handle_response_errors. simpl.
  unfold Dict.mem. rewrite Hd. simpl.
  rewrite (errors_loop_rate_limit _ _ _ _ Hpre Herr).
  by destruct (post_request w query rest) as [[r rest'] ev'].
Qed.

Lemma post_request_rate_limit_retry_witness :
  let w := {| ws_name := "w"; ws_token := "t"; ws_apiUrl := "u";
              ws_boards_limit := 500; ws_print_api_protocol := false;
              ws_boards := []; ws_work_space_id := None |} in
  let limit := VDict [("message",
                 VStr "Complexity budget exhausted, query cost 30001 budget remaining 19984 out of 1000000 reset in 7 seconds")] in
  let d := [("errors", VList [VDict [("message", VStr "Parse error")]; limit;
                              VInt 3])] in
  post_request w "q" [VDict d; VDict [("data", VNone)]]
  = (Ok VNone, [],
     [HttpPost "u" "t" "q"; Append "errors.txt" "Parse error"; Sleep 8;
      HttpPost "u" "t" "q"]).
Proof.
  intros w limit d.
  rewrite (post_request_rate_limit_retry w "q" d
             [VDict [("message", VStr "Parse error")]] limit [VInt 3] 8
             [VDict [("data", VNone)]]).
  - reflexivity.
  - reflexivity.
  - reflexivity.
  - eexists _, _. split; [reflexivity|]. split; [reflexivity|].
    split; [reflexivity|]. right. eexists _, _.
    split; [reflexivity|]. split; [reflexivity|]. split; reflexivity.
Defined.

Lemma effects_app ev1 ev2 : effects (ev1 ++ ev2) = effects ev1 ++ effects ev2.
Proof. unfold effects. apply List.filter_app. Qed.

Lemma effects_sending w query :
  effects (sending w query) = [HttpPost (ws_apiUrl w) (ws_token w) query].
Proof. unfold sending. by destruct (ws_print_api_protocol w). Qed.

Lemma effects_received w response : effects (received w response) = [].
Proof. unfold received. by destruct (ws_print_api_protocol w). Qed.

Lemma effects_untracked w query response :
  effects (untracked w query response) = [].
Proof. unfold untracked. by destruct (ws_print_api_protocol w). Qed.

(** X6: the diagnostic echo changes nothing but the prints: with
    [print_api_protocol] set either way, [post_request] returns the same
    value, leaves the same replies and posts, sleeps and writes the same. *)
Theorem post_request_echo_changes_nothing w flag query replies :
  let '(r, rest, ev) := post_request w query replies in
  let '(r', rest', ev') := post_request (with_print flag w) query replies in
  r = r' /\ rest = rest' /\ effects ev = effects ev'.
Proof.
  induction replies as [|response replies IH]; simpl.
  - by rewrite !effects_sending.
  - destruct (handle_response_errors response) as [[[]| |] ev0]; simpl.
    + destruct (py_getitem response "data"); simpl;
        rewrite !effects_app, !effects_sending, ?effects_received,
          ?effects_untracked; done.
    + destruct (post_request w query replies) as [[r rest] ev].
      destruct (post_request (with_print flag w) query replies)
        as [[r' rest'] ev'].
      destruct IH as (-> & -> & IH).
      by rewrite !effects_app, !effects_sending, IH.
    + by rewrite !effects_app, !effects_sending.
    + by rewrite !effects_app, !effects_sending.
Qed.

Lemma post_request_answers w query response data rest :
  answers response data ->
  post_request w query (response :: rest)
  = (Ok data, rest, sending w query ++ received w response).
Proof.
  intros [Hin Hdata]. simpl. unfold handle_response_errors.
  by rewrite Hin, Hdata.
Qed.

Lemma WorkSpace_post_request_answers w query response data h rest :
  answers response data ->
  WorkSpace_post_request w query {| heap := h; replies := response :: rest |}
  = (Ok data, {| heap := h; replies := rest |},
     sending w query ++ received w response).
Proof.
  intros H. unfold WorkSpace_post_request. simpl replies.
  by rewrite (post_request_answers _ _ _ _ _ H).
Qed.

Lemma posts_request w query response :
  posts (sending w query ++ received w response) = [query].
Proof. by rewrite posts_app, posts_sending, posts_received. Qed.

(** ** The workspace *)

(** X7: [get_ws_id] of a workspace with boards asks for the identity of
    the first board registered (in insertion order) and, when the remote
    answers, returns the workspace id of the answer: one post, one reply
    consumed, the local model untouched. *)
Theorem get_ws_id_asks_first_board h a w first others b board_id response
  data workspace id rest :
  h !! a = Some (OWorkSpace w) ->
  Dict.values (ws_boards w) = first :: others ->
  board_at h first b ->
  b_board_id b = Some (VStr board_id) ->
  answers response data ->
  first_board_entry data "workspace" = Ok workspace ->
  py_getitem workspace "id" = Ok id ->
  exists ev,
    get_ws_id (VRef a) {| heap := h; replies := response :: rest |}
    = (Ok id, {| heap := h; replies := rest |}, ev)
    /\ posts ev = [identity_query board_id].
Proof.
  intros Ha Hvalues Hb Hid Hans Hentry Hwid.
  exists (sending w (identity_query board_id) ++ received w response).
  split; [|apply posts_request].
  unfold first_board_entry in Hentry.
  destruct (py_getitem data "boards") as [boards| |] eqn:Hboards;
    try discriminate.
  destruct (py_index boards 0) as [board| |] eqn:Hboard; try discriminate.
  unfold get_ws_id.
  rewrite (bind_reader _ _ {| heap := h; replies := response :: rest |} w)
    by (by apply get_ws_ref).
  rewrite Hvalues.
  rewrite (bind_reader _ _ {| heap := h; replies := response :: rest |} b)
    by (by apply get_board_ref).
  rewrite Hid.
  rewrite (bind_reader _ _ _ (VStr board_id)) by done.
  rewrite (bind_reader _ _ _ board_id) by done.
  rewrite (bind_Ok _ _ _ _ _ _
             (WorkSpace_post_request_answers w (identity_query board_id)
                _ _ h rest Hans)).
  rewrite (bind_reader _ _ {| heap := h; replies := rest |} boards)
    by (unfold lift; by rewrite Hboards).
  rewrite (bind_reader _ _ {| heap := h; replies := rest |} board)
    by (unfold lift; by rewrite Hboard).
  rewrite (bind_reader _ _ {| heap := h; replies := rest |} workspace)
    by (unfold lift; by rewrite Hentry).
  unfold lift. rewrite Hwid. by rewrite app_nil_r.
Qed.

Lemma get_ws_id_asks_first_board_witness :
  let w := {| ws_name := "w"; ws_token := "t"; ws_apiUrl := "u";
              ws_boards_limit := 500; ws_print_api_protocol := false;
              ws_boards := [("B", 1%nat); ("A", 2%nat)];
              ws_work_space_id := None |} in
  let board n id := OBoard {| b_work_space := VRef 0%nat; b_name := n;
                              b_columns := []; b_groups := [];
                              b_board_id := Some (VStr id) |} in
  let h := [OWorkSpace w; board "B" "11"; board "A" "22"] in
  let response :=
    VDict [("data",
            VDict [("boards",
                    VList [VDict [("id", VStr "11");
                                  ("workspace", VDict [("id", VInt 7)])]])])] in
  exists ev,
    get_ws_id (VRef 0%nat) {| heap := h; replies := [response] |}
    = (Ok (VInt 7), {| heap := h; replies := [] |}, ev)
    /\ posts ev = [identity_query "11"].
Proof.
  intros w board h response.
  eapply (get_ws_id_asks_first_board h 0%nat w 1%nat [2%nat] _ "11" response).
  - reflexivity.
  - reflexivity.
  - eexists. split; reflexivity.
  - reflexivity.
  - split; reflexivity.
  - reflexivity.
  - reflexivity.
Defined.

(** ** Boards created on monday *)

Lemma delete_groups_loop_run w self h o b board_id :
  h !! self = Some o -> board_of o = Some b ->
  b_board_id b = Some (VStr board_id) ->
  forall groups gids,
    Forall2 (fun g gid => py_getitem g "id" = Ok (VStr gid)) groups gids ->
    forall ds rest,
      Forall2 (fun d (_ : string) => exists data, answers d data) ds gids ->
      exists ev,
        delete_groups_loop w self groups {| heap := h; replies := ds ++ rest |}
        = (Ok tt, {| heap := h; replies := rest |}, ev)
        /\ posts ev = map (delete_group_query board_id) gids.
Proof.
  intros Ho Hb Hid groups gids Hgroups.
  induction Hgroups as [|g gid groups gids Hg Hgroups IH]; intros ds rest Hds.
  - inversion Hds; subst. exists []. by split.
  - inversion Hds as [|d ? ds' ? [data Hd] Hds']; subst.
    destruct (IH ds' rest Hds') as (ev & Hrun & Hposts).
    exists ((sending w (delete_group_query board_id gid) ++ received w d) ++ ev).
    split.
    + simpl delete_groups_loop.
      rewrite (bind_reader _ _ {| heap := h; replies := (d :: ds') ++ rest |} b)
        by (apply get_board_ref; by exists o).
      rewrite Hid. rewrite (bind_reader _ _ _ (VStr board_id)) by done.
      rewrite (bind_reader _ _ _ board_id) by done.
      rewrite (bind_reader _ _ _ (VStr gid)) by (unfold lift; by rewrite Hg).
      rewrite (bind_reader _ _ _ gid) by done.
      rewrite (bind_Ok _ _ _ _ _ _
                 (WorkSpace_post_request_answers w
                    (delete_group_query board_id gid) d data h (ds' ++ rest) Hd)).
      by rewrite Hrun.
    + rewrite posts_app, posts_request, Hposts. done.
Qed.

Lemma delete_default_groups_run w self h o b board_id response data gv groups
  gids ds rest :
  h !! self = Some o -> board_of o = Some b ->
  b_board_id b = Some (VStr board_id) ->
  answers response data ->
  first_board_entry data "groups" = Ok gv -> py_iter gv = Ok groups ->
  Forall2 (fun g gid => py_getitem g "id" = Ok (VStr gid)) groups gids ->
  Forall2 (fun d (_ : string) => exists data, answers d data) ds gids ->
  exists ev,
    delete_default_groups w self
      {| heap := h; replies := response :: ds ++ rest |}
    = (Ok tt, {| heap := h; replies := rest |}, ev)
    /\ posts ev
       = default_groups_query board_id :: map (delete_group_query board_id) gids.
Proof.
  intros Ho Hb Hid Hans Hentry Hiter Hgroups Hds.
  unfold first_board_entry in Hentry.
  destruct (py_getitem data "boards") as [boards| |] eqn:Hboards;
    try discriminate.
  destruct (py_index boards 0) as [board| |] eqn:Hboard; try discriminate.
  destruct (delete_groups_loop_run w self h o b board_id Ho Hb Hid groups gids
              Hgroups ds rest Hds) as (ev & Hrun & Hposts).
  exists ((sending w (default_groups_query board_id) ++ received w response)
          ++ ev).
  split.
  - unfold delete_default_groups.
    rewrite (bind_reader _ _ _ b) by (apply get_board_ref; by exists o).
    rewrite Hid. rewrite (bind_reader _ _ _ (VStr board_id)) by done.
    rewrite (bind_reader _ _ _ board_id) by done.
    rewrite (bind_Ok _ _ _ _ _ _
               (WorkSpace_post_request_answers w
                  (default_groups_query board_id) response data h
                  (ds ++ rest) Hans)).
    rewrite (bind_reader _ _ _ boards) by (unfold lift; by rewrite Hboards).
    rewrite (bind_reader _ _ _ board) by (unfold lift; by rewrite Hboard).
    rewrite (bind_reader _ _ _ gv) by (unfold lift; by rewrite Hentry).
    rewrite (bind_reader _ _ _ groups) by (unfold lift; by rewrite Hiter).
    by rewrite Hrun.
  - by rewrite posts_app, posts_request, Hposts.
Qed.

Lemma WorkSpace_add_board_run h rs wa w self b :
  h !! wa = Some (OWorkSpace w) -> board_at h self b ->
  WorkSpace_add_board (VRef wa) self {| heap := h; replies := rs |}
  = (Ok tt,
     {| heap := <[wa := OWorkSpace (with_board_registered (b_name b) self w)]> h;
        replies := rs |}, []).
Proof.
  intros Hw Hb. unfold WorkSpace_add_board.
  rewrite (bind_reader _ _ {| heap := h; replies := rs |} b)
    by (by apply get_board_ref).
  rewrite (bind_reader _ _ {| heap := h; replies := rs |} w)
    by (by apply get_ws_ref).
  reflexivity.
Qed.

Lemma insert_last (h : list obj) x y : <[List.length h := x]> (h ++ [y]) = h ++ [x].
Proof.
  rewrite insert_app_r_alt by lia. by rewrite Nat.sub_diag.
Qed.

(** The creation path of [Board.__init__] on the board just allocated. *)
Lemma Board_create_new_run pstr h wa w wid name create data1 board_id listing
  data2 gv groups gids ds rest :
  h !! wa = Some (OWorkSpace w) ->
  ws_work_space_id w = Some wid ->
  answers create data1 ->
  created_id data1 "create_board" = Ok (VStr board_id) ->
  answers listing data2 ->
  first_board_entry data2 "groups" = Ok gv -> py_iter gv = Ok groups ->
  Forall2 (fun g gid => py_getitem g "id" = Ok (VStr gid)) groups gids ->
  Forall2 (fun d (_ : string) => exists data, answers d data) ds gids ->
  exists ev,
    Board_create pstr (List.length h) (VRef wa) name false
      {| heap := h ++ [OBoard {| b_work_space := VRef wa; b_name := name;
                                 b_columns := []; b_groups := [];
                                 b_board_id := None |}];
         replies := create :: listing :: ds ++ rest |}
    = (Ok tt,
       {| heap :=
            <[wa := OWorkSpace (with_board_registered name (List.length h) w)]>
              (h ++ [OBoard {| b_work_space := VRef wa; b_name := name;
                               b_columns := []; b_groups := [];
                               b_board_id := Some (VStr board_id) |}]);
          replies := rest |}, ev)
    /\ posts ev
       = create_board_query name (pstr wid)
         :: default_groups_query board_id
         :: map (delete_group_query board_id) gids.
Proof.
  intros Hw Hwid Hans1 Hcreated Hans2 Hentry Hiter Hgroups Hds.
  set (self := List.length h).
  set (b0 := {| b_work_space := VRef wa; b_name := name; b_columns := [];
                b_groups := []; b_board_id := None |}).
  set (b1 := {| b_work_space := VRef wa; b_name := name; b_columns := [];
                b_groups := []; b_board_id := Some (VStr board_id) |}).
  set (h1 := h ++ [OBoard b1]).
  assert (Hwa : (wa < List.length h)%nat) by (by eapply lookup_lt_Some).
  assert (Hself1 : h1 !! self = Some (OBoard b1))
    by (by apply list_lookup_middle).
  destruct (delete_default_groups_run w self h1 (OBoard b1) b1 board_id listing
              data2 gv groups gids ds rest Hself1 eq_refl eq_refl Hans2 Hentry
              Hiter Hgroups Hds) as (ev2 & Hrun2 & Hposts2).
  unfold created_id in Hcreated.
  destruct (py_getitem data1 "create_board") as [cb| |] eqn:Hcb;
    try discriminate.
  exists ((sending w (create_board_query name (pstr wid)) ++ received w create)
          ++ ev2).
  split; [|by rewrite posts_app, posts_request, Hposts2].
  unfold Board_create. simpl negb. cbv iota.
  match goal with
  | |- bind ?m ?f ?s = _ =>
      assert (Hfirst : m s
              = (Ok tt, {| heap := h1; replies := rest |},
                 (sending w (create_board_query name (pstr wid))
                  ++ received w create) ++ ev2))
  end.
  { rewrite (bind_reader _ _ _ w)
      by (apply get_ws_ref; by apply lookup_app_l_Some).
    rewrite Hwid. rewrite (bind_reader _ _ _ wid) by done.
    rewrite (bind_Ok _ _ _ _ _ _
               (WorkSpace_post_request_answers w
                  (create_board_query name (pstr wid)) create data1
                  (h ++ [OBoard b0]) (listing :: ds ++ rest) Hans1)).
    rewrite (bind_reader _ _ _ cb) by (unfold lift; by rewrite Hcb).
    rewrite (bind_reader _ _ _ (VStr board_id))
      by (unfold lift; by rewrite Hcreated).
    rewrite (bind_Ok_nil _ _ _ tt _
               (update_board_at (h ++ [OBoard b0])
                  (listing :: ds ++ rest) self (OBoard b0) b0
                  (set_b_board_id (VStr board_id))
                  (list_lookup_middle _ _ _ _ eq_refl) eq_refl)).
    simpl with_board. unfold set_b_board_id. simpl.
    fold b1. unfold self. rewrite insert_last. fold self. fold h1.
    by rewrite Hrun2. }
  rewrite (bind_Ok _ _ _ _ _ _ Hfirst).
  rewrite (WorkSpace_add_board_run h1 rest wa w self b1).
  - by rewrite app_nil_r.
  - by apply lookup_app_l_Some.
  - by exists (OBoard b1).
Qed.

Lemma Board_init_without_groups dumps pstr ws name exists_ json_groups
  json_columns json_items board_id0 h rs :
  json_groups = None \/ json_groups = Some [] ->
  Board_init dumps pstr ws name exists_ json_groups json_columns json_items
    board_id0 {| heap := h; replies := rs |}
  = (let '(r, s', ev) :=
       Board_create pstr (List.length h) ws name exists_
         {| heap := h ++ [OBoard {| b_work_space := ws; b_name := name;
                                    b_columns := []; b_groups := [];
                                    b_board_id := None |}];
            replies := rs |} in
     (match r with
      | Ok _ => Ok (List.length h)
      | Raise e => Raise e
      | Blocked => Blocked
      end, s', ev)).
Proof.
  intros Hjson. unfold Board_init.
  rewrite (bind_Ok_nil _ _ _ _ _
             (alloc_run (OBoard {| b_work_space := ws; b_name := name;
                                   b_columns := []; b_groups := [];
                                   b_board_id := None |}) h rs)).
  assert (Hbranch :
    match json_groups with
    | Some (g :: gs) =>
        Board_hydrate dumps (List.length h) board_id0 (g :: gs) json_columns
          json_items ;;; ret (List.length h)
    | _ => Board_create pstr (List.length h) ws name exists_ ;;;
           ret (List.length h)
    end = (Board_create pstr (List.length h) ws name exists_ ;;;
           ret (List.length h))).
  { by destruct Hjson as [-> | ->]. }
  rewrite Hbranch. unfold bind, ret.
  destruct (Board_create pstr (List.length h) ws name exists_ _)
    as [[[[]| |] s'] ev]; by rewrite ?app_nil_r.
Qed.

(** X8: a board constructed without remote data ([json_groups] missing or
    empty, [exists] not set).  When the remote answers, the constructor
    posts the create-board mutation, asks for the groups of the new board
    and deletes each of them, in order; the board takes the id of the
    answer, has no columns and no groups, and is registered in its
    workspace under its name.  Columns, items and id handed to the
    constructor play no part. *)
Theorem Board_init_creates dumps pstr h wa w wid name json_groups json_columns
  json_items board_id0 create data1 board_id listing data2 gv groups gids ds
  rest :
  h !! wa = Some (OWorkSpace w) ->
  ws_work_space_id w = Some wid ->
  json_groups = None \/ json_groups = Some [] ->
  answers create data1 ->
  created_id data1 "create_board" = Ok (VStr board_id) ->
  answers listing data2 ->
  first_board_entry data2 "groups" = Ok gv -> py_iter gv = Ok groups ->
  Forall2 (fun g gid => py_getitem g "id" = Ok (VStr gid)) groups gids ->
  Forall2 (fun d (_ : string) => exists data, answers d data) ds gids ->
  exists ev,
    Board_init dumps pstr (VRef wa) name false json_groups json_columns
      json_items board_id0
      {| heap := h; replies := create :: listing :: ds ++ rest |}
    = (Ok (List.length h),
       {| heap :=
            <[wa := OWorkSpace (with_board_registered name (List.length h) w)]>
              (h ++ [OBoard {| b_work_space := VRef wa; b_name := name;
                               b_columns := []; b_groups := [];
                               b_board_id := Some (VStr board_id) |}]);
          replies := rest |}, ev)
    /\ posts ev
       = create_board_query name (pstr wid)
         :: default_groups_query board_id
         :: map (delete_group_query board_id) gids.
Proof.
  intros Hw Hwid Hjson Hans1 Hcreated Hans2 Hentry Hiter Hgroups Hds.
  destruct (Board_create_new_run pstr h wa w wid name create data1 board_id
              listing data2 gv groups gids ds rest Hw Hwid Hans1 Hcreated Hans2
              Hentry Hiter Hgroups Hds) as (ev & Hrun & Hposts).
  exists ev. split; [|done].
  rewrite (Board_init_without_groups _ _ _ _ _ _ _ _ _ _ _ Hjson).
  by rewrite Hrun.
Qed.

Lemma Board_init_creates_witness :
  let w := {| ws_name := "w"; ws_token := "t"; ws_apiUrl := "u";
              ws_boards_limit := 500; ws_print_api_protocol := false;
              ws_boards := []; ws_work_space_id := Some (VInt 7) |} in
  let create := VDict [("data", VDict [("create_board", VDict [("id", VStr "99")])])] in
  let group id := VDict [("id", VStr id); ("title", VStr "Group Title")] in
  let listing :=
    VDict [("data",
            VDict [("boards",
                    VList [VDict [("groups",
                                   VList [group "topics"; group "group_title"])]])])] in
  let ok := VDict [("data", VDict [])] in
  let column := {| cj_id := VStr "c"; cj_title := "A"; cj_type := VStr "text";
                   cj_description := VNone |} in
  exists ev,
    Board_init (fun _ => "{}") (fun _ => "7") (VRef 0%nat) "B" false (Some [])
      (Some [column]) None (VStr "123")
      {| heap := [OWorkSpace w]; replies := [create; listing; ok; ok; ok] |}
    = (Ok 1%nat,
       {| heap := [OWorkSpace (with_board_registered "B" 1%nat w);
                   OBoard {| b_work_space := VRef 0%nat; b_name := "B";
                             b_columns := []; b_groups := [];
                             b_board_id := Some (VStr "99") |}];
          replies := [ok] |}, ev)
    /\ posts ev
       = [create_board_query "B" "7"; default_groups_query "99";
          delete_group_query "99" "topics";
          delete_group_query "99" "group_title"].
Proof.
  intros w create group listing ok column.
  eapply (Board_init_creates (fun _ => "{}") (fun _ => "7") [OWorkSpace w]
            0%nat w (VInt 7) "B" (Some []) (Some [column]) None (VStr "123")
            create _ "99" listing _ _ _ ["topics"; "group_title"] [ok; ok] [ok]).
  - reflexivity.
  - reflexivity.
  - by right.
  - split; reflexivity.
  - reflexivity.
  - split; reflexivity.
  - reflexivity.
  - reflexivity.
  - repeat constructor.
  - repeat constructor; eexists; split; reflexivity.
Defined.

Lemma find_board_loop_passes w self name boards s :
  forallb (passed_over (ws_name w) name) boards = true ->
  find_board_loop w self name boards s = (Ok tt, s, []).
Proof.
  induction boards as [|board boards IH]; simpl; [done|].
  intros H. apply andb_prop in H as [Hb Hrest]. specialize (IH Hrest).
  unfold passed_over in Hb.
  destruct (py_getitem board "workspace") as [wv| |] eqn:Hwv; try discriminate.
  rewrite (bind_reader _ _ s wv) by done.
  destruct (py_truthy wv); simpl in *; [|exact IH].
  destruct (py_getitem wv "name") as [wn| |] eqn:Hwn; try discriminate.
  rewrite (bind_reader _ _ s wn) by done.
  destruct (is_str (ws_name w) wn); simpl in *; [|exact IH].
  destruct (py_getitem board "name") as [bn| |] eqn:Hbn; try discriminate.
  rewrite (bind_reader _ _ s bn) by done.
  destruct (is_str name bn); simpl in *; [discriminate | exact IH].
Qed.

Lemma find_board_loop_skips w self name pre boards s :
  forallb (passed_over (ws_name w) name) pre = true ->
  find_board_loop w self name (pre ++ boards) s
  = find_board_loop w self name boards s.
Proof.
  induction pre as [|board pre IH]; simpl; [done|].
  intros H. apply andb_prop in H as [Hb Hrest]. specialize (IH Hrest).
  unfold passed_over in Hb.
  destruct (py_getitem board "workspace") as [wv| |] eqn:Hwv; try discriminate.
  rewrite (bind_reader _ _ s wv) by done.
  destruct (py_truthy wv); simpl in *; [|exact IH].
  destruct (py_getitem wv "name") as [wn| |] eqn:Hwn; try discriminate.
  rewrite (bind_reader _ _ s wn) by done.
  destruct (is_str (ws_name w) wn); simpl in *; [|exact IH].
  destruct (py_getitem board "name") as [bn| |] eqn:Hbn; try discriminate.
  rewrite (bind_reader _ _ s bn) by done.
  destruct (is_str name bn); simpl in *; [discriminate | exact IH].
Qed.

(** X9: a board constructed with [exists] set whose name is not among the
    boards that the remote lists for the workspace.  The constructor posts
    the listing once and still registers the board in the workspace, but
    the board has no [board_id]: creating a column on it afterwards raises
    [AttributeError] before anything is posted. *)
Theorem Board_init_exists_not_listed dumps pstr h wa w name json_groups
  json_columns json_items board_id0 listing data bv boards rest :
  h !! wa = Some (OWorkSpace w) ->
  json_groups = None \/ json_groups = Some [] ->
  answers listing data ->
  py_getitem data "boards" = Ok bv -> py_iter bv = Ok boards ->
  forallb (passed_over (ws_name w) name) boards = true ->
  let s' := {| heap :=
                 <[wa := OWorkSpace (with_board_registered name (List.length h) w)]>
                   (h ++ [OBoard {| b_work_space := VRef wa; b_name := name;
                                    b_columns := []; b_groups := [];
                                    b_board_id := None |}]);
               replies := rest |} in
  (exists ev,
     Board_init dumps pstr (VRef wa) name true json_groups json_columns
       json_items board_id0 {| heap := h; replies := listing :: rest |}
     = (Ok (List.length h), s', ev)
     /\ posts ev = [listing_query])
  /\ forall title description column_type,
       add_new_column (List.length h) title description column_type VNone s'
       = (Raise AttributeError, s', []).
Proof.
  intros Hw Hjson Hans Hbv Hiter Hpass s'.
  set (b0 := {| b_work_space := VRef wa; b_name := name; b_columns := [];
                b_groups := []; b_board_id := None |}).
  assert (Hwa : (wa < List.length h)%nat) by (by eapply lookup_lt_Some).
  split.
  - exists (sending w listing_query ++ received w listing).
    split; [|apply posts_request].
    rewrite (Board_init_without_groups _ _ _ _ _ _ _ _ _ _ _ Hjson).
    fold b0. unfold Board_create. simpl negb. cbv iota.
    match goal with
    | |- context [bind ?m ?f ?s] =>
        assert (Hfirst : m s
                = (Ok tt, {| heap := h ++ [OBoard b0]; replies := rest |},
                   sending w listing_query ++ received w listing))
    end.
    { rewrite (bind_reader _ _ _ w)
        by (apply get_ws_ref; by apply lookup_app_l_Some).
      rewrite (bind_Ok _ _ _ _ _ _
                 (WorkSpace_post_request_answers w listing_query listing data
                    (h ++ [OBoard b0]) rest Hans)).
      rewrite (bind_reader _ _ _ bv) by (unfold lift; by rewrite Hbv).
      rewrite (bind_reader _ _ _ boards) by (unfold lift; by rewrite Hiter).
      rewrite (find_board_loop_passes _ _ _ _ _ Hpass). by rewrite app_nil_r. }
    rewrite (bind_Ok _ _ _ _ _ _ Hfirst).
    rewrite (WorkSpace_add_board_run (h ++ [OBoard b0]) rest wa w
               (List.length h) b0).
    + by rewrite app_nil_r.
    + by apply lookup_app_l_Some.
    + exists (OBoard b0). split; [by apply list_lookup_middle | done].
  - intros title description column_type.
    unfold add_new_column, Column_init. simpl py_truthy. cbv iota.
    assert (Hb : board_at (heap s') (List.length h) b0).
    { exists (OBoard b0). split; [|done]. simpl.
      rewrite list_lookup_insert_ne by lia. by apply list_lookup_middle. }
    unfold bind at 1. unfold bind at 1.
    rewrite (get_board_ref s' _ _ Hb). simpl b_work_space.
    unfold bind at 1.
    rewrite (get_ws_ref s' wa (with_board_registered name (List.length h) w)).
    + reflexivity.
    + simpl. apply list_lookup_insert_eq. rewrite length_app. lia.
Qed.

Lemma Board_init_exists_not_listed_witness :
  let w := {| ws_name := "mine"; ws_token := "t"; ws_apiUrl := "u";
              ws_boards_limit := 500; ws_print_api_protocol := false;
              ws_boards := []; ws_work_space_id := Some (VInt 7) |} in
  let listed n wsv := VDict [("id", VStr "5"); ("name", VStr n);
                             ("workspace", wsv)] in
  let listing :=
    VDict [("data",
            VDict [("boards",
                    VList [listed "B" VNone;
                           listed "B" (VDict [("name", VStr "other")]);
                           listed "A" (VDict [("name", VStr "mine")])])])] in
  let s' := {| heap := [OWorkSpace (with_board_registered "B" 1%nat w);
                        OBoard {| b_work_space := VRef 0%nat; b_name := "B";
                                  b_columns := []; b_groups := [];
                                  b_board_id := None |}];
               replies := [] |} in
  (exists ev,
     Board_init (fun _ => "{}") (fun _ => "7") (VRef 0%nat) "B" true None None
       None VNone {| heap := [OWorkSpace w]; replies := [listing] |}
     = (Ok 1%nat, s', ev)
     /\ posts ev = [listing_query])
  /\ forall title description column_type,
       add_new_column 1%nat title description column_type VNone s'
       = (Raise AttributeError, s', []).
Proof.
  intros w listed listing s'.
  eapply (Board_init_exists_not_listed (fun _ => "{}") (fun _ => "7")
            [OWorkSpace w] 0%nat w "B" None None None VNone listing).
  - reflexivity.
  - by left.
  - split; reflexivity.
  - reflexivity.
  - reflexivity.
  - reflexivity.
Defined.

(** X10: a board constructed with [exists] set whose name is listed for the
    workspace.  The constructor takes the id of the first listed board of
    that workspace and name, deletes the groups of that board on monday,
    and stops looking: boards listed after it play no part.  The board is
    registered in the workspace. *)
Theorem Board_init_exists_first_listed dumps pstr h wa w name json_groups
  json_columns json_items board_id0 listing data bv pre board post board_id
  groups_reply data2 gv groups gids ds rest :
  h !! wa = Some (OWorkSpace w) ->
  json_groups = None \/ json_groups = Some [] ->
  answers listing data ->
  py_getitem data "boards" = Ok bv -> py_iter bv = Ok (pre ++ board :: post) ->
  forallb (passed_over (ws_name w) name) pre = true ->
  listed_as (ws_name w) name board = true ->
  py_getitem board "id" = Ok (VStr board_id) ->
  answers groups_reply data2 ->
  first_board_entry data2 "groups" = Ok gv -> py_iter gv = Ok groups ->
  Forall2 (fun g gid => py_getitem g "id" = Ok (VStr gid)) groups gids ->
  Forall2 (fun d (_ : string) => exists data, answers d data) ds gids ->
  exists ev,
    Board_init dumps pstr (VRef wa) name true json_groups json_columns
      json_items board_id0
      {| heap := h; replies := listing :: groups_reply :: ds ++ rest |}
    = (Ok (List.length h),
       {| heap :=
            <[wa := OWorkSpace (with_board_registered name (List.length h) w)]>
              (h ++ [OBoard {| b_work_space := VRef wa; b_name := name;
                               b_columns := []; b_groups := [];
                               b_board_id := Some (VStr board_id) |}]);
          replies := rest |}, ev)
    /\ posts ev
       = listing_query :: default_groups_query board_id
         :: map (delete_group_query board_id) gids.
Proof.
  intros Hw Hjson Hans Hbv Hiter Hpass Hlisted Hid Hans2 Hentry Hiter2 Hgroups
    Hds.
  set (self := List.length h).
  set (b0 := {| b_work_space := VRef wa; b_name := name; b_columns := [];
                b_groups := []; b_board_id := None |}).
  set (b1 := {| b_work_space := VRef wa; b_name := name; b_columns := [];
                b_groups := []; b_board_id := Some (VStr board_id) |}).
  set (h1 := h ++ [OBoard b1]).
  assert (Hwa : (wa < List.length h)%nat) by (by eapply lookup_lt_Some).
  assert (Hself1 : h1 !! self = Some (OBoard b1))
    by (by apply list_lookup_middle).
  destruct (delete_default_groups_run w self h1 (OBoard b1) b1 board_id
              groups_reply data2 gv groups gids ds rest Hself1 eq_refl eq_refl
              Hans2 Hentry Hiter2 Hgroups Hds) as (ev2 & Hrun2 & Hposts2).
  exists ((sending w listing_query ++ received w listing) ++ ev2).
  split; [|by rewrite posts_app, posts_request, Hposts2].
  rewrite (Board_init_without_groups _ _ _ _ _ _ _ _ _ _ _ Hjson).
  fold b0 self. unfold Board_create. simpl negb. cbv iota.
  assert (Hfound :
    find_board_loop w self name (pre ++ board :: post)
      {| heap := h ++ [OBoard b0]; replies := groups_reply :: ds ++ rest |}
    = (Ok tt, {| heap := h1; replies := rest |}, ev2)).
  { rewrite (find_board_loop_skips _ _ _ _ _ _ Hpass). simpl find_board_loop.
    unfold listed_as in Hlisted.
    destruct (py_getitem board "workspace") as [wv| |] eqn:Hwv;
      try discriminate.
    rewrite (bind_reader _ _ _ wv) by done.
    destruct (py_truthy wv); [|discriminate]. cbn [negb].
    destruct (py_getitem wv "name") as [wn| |] eqn:Hwn; try discriminate.
    rewrite (bind_reader _ _ _ wn) by done.
    destruct (is_str (ws_name w) wn); [|discriminate]. cbn [negb].
    destruct (py_getitem board "name") as [bn| |] eqn:Hbn; try discriminate.
    rewrite (bind_reader _ _ _ bn) by done.
    destruct (is_str name bn); [|discriminate]. cbn [negb].
    rewrite (bind_reader _ _ _ (VStr board_id)) by (unfold lift; by rewrite Hid).
    rewrite (bind_Ok_nil _ _ _ tt _
               (update_board_at (h ++ [OBoard b0])
                  (groups_reply :: ds ++ rest) self (OBoard b0) b0
                  (set_b_board_id (VStr board_id))
                  (list_lookup_middle _ _ _ _ eq_refl) eq_refl)).
    simpl with_board. unfold set_b_board_id. simpl.
    fold b1. unfold self. rewrite insert_last. fold self. fold h1.
    exact Hrun2. }
  match goal with
  | |- context [bind ?m ?f ?s] =>
      assert (Hfirst : m s
              = (Ok tt, {| heap := h1; replies := rest |},
                 (sending w listing_query ++ received w listing) ++ ev2))
  end.
  { rewrite (bind_reader _ _ _ w)
      by (apply get_ws_ref; by apply lookup_app_l_Some).
    rewrite (bind_Ok _ _ _ _ _ _
               (WorkSpace_post_request_answers w listing_query listing data
                  (h ++ [OBoard b0]) (groups_reply :: ds ++ rest) Hans)).
    rewrite (bind_reader _ _ _ bv) by (unfold lift; by rewrite Hbv).
    rewrite (bind_reader _ _ _ (pre ++ board :: post))
      by (unfold lift; by rewrite Hiter).
    by rewrite Hfound. }
  rewrite (bind_Ok _ _ _ _ _ _ Hfirst).
  rewrite (WorkSpace_add_board_run h1 rest wa w self b1).
  - by rewrite app_nil_r.
  - by apply lookup_app_l_Some.
  - by exists (OBoard b1).
Qed.

Lemma Board_init_exists_first_listed_witness :
  let w := {| ws_name := "mine"; ws_token := "t"; ws_apiUrl := "u";
              ws_boards_limit := 500; ws_print_api_protocol := false;
              ws_boards := []; ws_work_space_id := Some (VInt 7) |} in
  let listed id n wsn := VDict [("id", VStr id); ("name", VStr n);
                                ("workspace", VDict [("name", VStr wsn)])] in
  let listing :=
    VDict [("data",
            VDict [("boards",
                    VList [listed "1" "B" "other"; listed "2" "B" "mine";
                           listed "3" "B" "mine"])])] in
  let groups_reply :=
    VDict [("data",
            VDict [("boards",
                    VList [VDict [("groups",
                                   VList [VDict [("id", VStr "topics")]])]])])] in
  let ok := VDict [("data", VDict [])] in
  exists ev,
    Board_init (fun _ => "{}") (fun _ => "7") (VRef 0%nat) "B" true None None
      None VNone
      {| heap := [OWorkSpace w]; replies := [listing; groups_reply; ok] |}
    = (Ok 1%nat,
       {| heap := [OWorkSpace (with_board_registered "B" 1%nat w);
                   OBoard {| b_work_space := VRef 0%nat; b_name := "B";
                             b_columns := []; b_groups := [];
                             b_board_id := Some (VStr "2") |}];
          replies := [] |}, ev)
    /\ posts ev = [listing_query; default_groups_query "2";
                   delete_group_query "2" "topics"].
Proof.
  intros w listed listing groups_reply ok.
  eapply (Board_init_exists_first_listed (fun _ => "{}") (fun _ => "7")
            [OWorkSpace w] 0%nat w "B" None None None VNone listing _ _
            [listed "1" "B" "other"] (listed "2" "B" "mine")
            [listed "3" "B" "mine"] "2" groups_reply _ _ _ ["topics"] [ok] []).
  - reflexivity.
  - by left.
  - split; reflexivity.
  - reflexivity.
  - reflexivity.
  - reflexivity.
  - reflexivity.
  - reflexivity.
  - split; reflexivity.
  - reflexivity.
  - reflexivity.
  - repeat constructor.
  - repeat constructor. eexists. split; reflexivity.
Defined.

(** ** The input board *)

Lemma Column_init_create_run h ba b wa w board_id title d ty response data
  column_id rest :
  board_at h ba b -> b_work_space b = VRef wa ->
  h !! wa = Some (OWorkSpace w) ->
  b_board_id b = Some (VStr board_id) ->
  answers response data ->
  created_id data "create_column" = Ok column_id ->
  Column_init (VRef ba) title (VStr d) (VStr ty) VNone
    {| heap := h; replies := response :: rest |}
  = (Ok (List.length h),
     {| heap := h ++ [OColumn {| c_board := VRef ba; c_title := title;
                                 c_description := VStr d;
                                 c_column_type := VStr ty;
                                 c_column_id := column_id |}];
        replies := rest |},
     sending w (create_column_query board_id title d ty)
     ++ received w response).
Proof.
  intros Hb Hws Hw Hid Hans Hcreated. unfold created_id in Hcreated.
  destruct (py_getitem data "create_column") as [cc| |] eqn:Hcc;
    try discriminate.
  unfold Column_init. change (py_truthy VNone) with false. cbv iota.
  rewrite (bind_reader _ _ _ b) by (by apply get_board_ref).
  rewrite Hws. rewrite (bind_reader _ _ _ w) by (by apply get_ws_ref).
  rewrite Hid. rewrite (bind_reader _ _ _ (VStr board_id)) by done.
  rewrite (bind_reader _ _ _ board_id) by done.
  rewrite (bind_reader _ _ _ d) by done.
  rewrite (bind_reader _ _ _ ty) by done.
  rewrite (bind_Ok _ _ _ _ _ _
             (WorkSpace_post_request_answers w
                (create_column_query board_id title d ty) response data h rest
                Hans)).
  rewrite (bind_reader _ _ _ cc) by (unfold lift; by rewrite Hcc).
  rewrite (bind_reader _ _ _ column_id) by (unfold lift; by rewrite Hcreated).
  rewrite alloc_run. by rewrite app_nil_r.
Qed.

(** X11: [InputBoard.__init__] sets up what [manager] needs.  When the
    remote answers the creation of the board, the cleaning of its groups
    and the creation of the status column, the constructor returns an
    input board whose workspace, remote id and status-column id are in
    place (the id of the column is the one the remote gave), with the
    handlers and the poll interval it was given; it has posted the four
    kinds of request in that order. *)
Theorem InputBoard_init_ready dumps pstr h wa w wid name execution_dict
  check_rate create data1 board_id listing data2 gv groups gids ds column
  data3 status_column_id rest :
  h !! wa = Some (OWorkSpace w) ->
  ws_work_space_id w = Some wid ->
  answers create data1 ->
  created_id data1 "create_board" = Ok (VStr board_id) ->
  answers listing data2 ->
  first_board_entry data2 "groups" = Ok gv -> py_iter gv = Ok groups ->
  Forall2 (fun g gid => py_getitem g "id" = Ok (VStr gid)) groups gids ->
  Forall2 (fun d (_ : string) => exists data, answers d data) ds gids ->
  answers column data3 ->
  created_id data3 "create_column" = Ok (VStr status_column_id) ->
  exists s' ev ib,
    InputBoard_init dumps pstr (VRef wa) name execution_dict check_rate
      {| heap := h;
         replies := create :: listing :: ds ++ column :: rest |}
    = (Ok (List.length h), s', ev)
    /\ replies s' = rest
    /\ input_board_ready (heap s') (VRef (List.length h)) ib
         (with_board_registered name (List.length h) w) board_id
         status_column_id
    /\ ib_execution_dict ib = execution_dict
    /\ ib_check_rate ib = check_rate
    /\ b_columns (ib_board ib) = [(status_title, S (List.length h))]
    /\ posts ev
       = create_board_query name (pstr wid)
         :: default_groups_query board_id
         :: map (delete_group_query board_id) gids
         ++ [create_column_query board_id status_title "" "status"].
Proof.
  intros Hw Hwid Hans1 Hcreated1 Hans2 Hentry Hiter Hgroups Hds Hans3 Hcreated3.
  destruct (Board_create_new_run pstr h wa w wid name create data1 board_id
              listing data2 gv groups gids ds (column :: rest) Hw Hwid Hans1
              Hcreated1 Hans2 Hentry Hiter Hgroups Hds) as (ev1 & Hrun1 & Hposts1).
  set (self := List.length h) in *.
  set (w' := with_board_registered name self w) in *.
  set (b1 := {| b_work_space := VRef wa; b_name := name; b_columns := [];
                b_groups := []; b_board_id := Some (VStr board_id) |}) in *.
  set (h1 := <[wa := OWorkSpace w']> (h ++ [OBoard b1])) in *.
  assert (Hwa : (wa < List.length h)%nat) by (by eapply lookup_lt_Some).
  assert (Hlen1 : List.length h1 = S self).
  { unfold h1. rewrite length_insert, length_app. simpl. unfold self. lia. }
  assert (Hself1 : h1 !! self = Some (OBoard b1)).
  { unfold h1. rewrite list_lookup_insert_ne by (unfold self; lia).
    by apply list_lookup_middle. }
  assert (Hw1 : h1 !! wa = Some (OWorkSpace w')).
  { unfold h1. apply list_lookup_insert_eq. rewrite length_app. lia. }
  set (c := {| c_board := VRef self; c_title := status_title;
               c_description := VStr ""; c_column_type := VStr "status";
               c_column_id := VStr status_column_id |}).
  set (b2 := set_b_columns (Dict.set status_title (List.length h1) []) b1).
  set (h2 := <[self := OBoard b2]> (h1 ++ [OColumn c])).
  set (ib := {| ib_board := b2; ib_status_column_id := VStr status_column_id;
                ib_execution_dict := execution_dict;
                ib_check_rate := check_rate |}).
  set (ev3 := sending w' (create_column_query board_id status_title "" "status")
              ++ received w' column).
  exists {| heap := <[self := OInputBoard ib]> h2; replies := rest |},
    (ev1 ++ ev3), ib.
  split; [|split; [done|split; [|split; [done|split; [done|split]]]]].
  - unfold InputBoard_init.
    rewrite (bind_Ok _ _ _ self {| heap := h1; replies := column :: rest |} ev1).
    2:{ rewrite (Board_init_without_groups _ _ _ _ _ _ _ _ _ _ _
                   (or_introl eq_refl)).
        fold self. by rewrite Hrun1. }
    assert (Hadd : add_new_column self status_title (VStr "") (VStr "status")
                     VNone {| heap := h1; replies := column :: rest |}
                   = (Ok (List.length h1), {| heap := h2; replies := rest |}, ev3)).
    { unfold add_new_column.
      rewrite (bind_Ok _ _ _ _ _ _
                 (Column_init_create_run h1 self b1 wa w' board_id status_title
                    "" "status" column data3 (VStr status_column_id) rest
                    ltac:(by exists (OBoard b1)) eq_refl Hw1 eq_refl Hans3
                    Hcreated3)).
      fold c.
      rewrite (bind_Ok_nil _ _ _ tt _
                 (Board_add_column_run (h1 ++ [OColumn c]) rest self (OBoard b1)
                    b1 (List.length h1) c
                    (lookup_app_l_Some _ _ _ _ Hself1) eq_refl
                    (list_lookup_middle _ _ _ _ eq_refl))).
      unfold ret. by rewrite app_nil_r. }
    rewrite (bind_Ok _ _ _ _ _ _ Hadd).
    assert (Hself2 : h2 !! self = Some (OBoard b2)).
    { unfold h2. apply list_lookup_insert_eq. rewrite length_app. lia. }
    rewrite (bind_reader _ _ {| heap := h2; replies := rest |} b2)
      by (apply get_board_ref; by exists (OBoard b2)).
    rewrite (bind_reader _ _ {| heap := h2; replies := rest |} (List.length h1))
      by (apply dict_lookup_run; apply DictFacts.get_set_eq).
    rewrite (bind_reader _ _ {| heap := h2; replies := rest |} c).
    2:{ apply get_column_ref. unfold h2. simpl.
        rewrite list_lookup_insert_ne by lia. by apply list_lookup_middle. }
    unfold bind, store, ret. simpl. by rewrite !app_nil_r.
  - exists self, wa. split; [done|]. simpl heap.
    assert (Hlen2 : List.length h2 = S (S self)).
    { unfold h2. rewrite length_insert, length_app. simpl. lia. }
    split; [apply list_lookup_insert_eq; lia|]. split; [done|].
    split; [|by split].
    rewrite list_lookup_insert_ne by (unfold self; lia). unfold h2.
    rewrite list_lookup_insert_ne by (unfold self; lia).
    by apply lookup_app_l_Some.
  - simpl. by rewrite Hlen1.
  - rewrite posts_app, Hposts1. unfold ev3. rewrite posts_request.
    by rewrite !app_comm_cons.
Qed.

Lemma InputBoard_init_ready_witness :
  let w := {| ws_name := "w"; ws_token := "t"; ws_apiUrl := "u";
              ws_boards_limit := 500; ws_print_api_protocol := false;
              ws_boards := []; ws_work_space_id := Some (VInt 7) |} in
  let create := VDict [("data", VDict [("create_board", VDict [("id", VStr "99")])])] in
  let group id := VDict [("id", VStr id); ("title", VStr "Group Title")] in
  let listing :=
    VDict [("data",
            VDict [("boards",
                    VList [VDict [("groups", VList [group "topics"])]])])] in
  let ok := VDict [("data", VDict [])] in
  let column :=
    VDict [("data", VDict [("create_column", VDict [("id", VStr "status")])])] in
  exists s' ev ib,
    InputBoard_init (fun _ => "{}") (fun _ => "7") (VRef 0%nat) "In"
      [("Photos", VFun 3%nat)] (VInt 5)
      {| heap := [OWorkSpace w]; replies := [create; listing; ok; column; ok] |}
    = (Ok 1%nat, s', ev)
    /\ replies s' = [ok]
    /\ input_board_ready (heap s') (VRef 1%nat) ib
         (with_board_registered "In" 1%nat w) "99" "status"
    /\ ib_execution_dict ib = [("Photos", VFun 3%nat)]
    /\ ib_check_rate ib = VInt 5
    /\ b_columns (ib_board ib) = [(status_title, 2%nat)]
    /\ posts ev
       = [create_board_query "In" "7"; default_groups_query "99";
          delete_group_query "99" "topics";
          create_column_query "99" status_title "" "status"].
Proof.
  intros w create group listing ok column.
  eapply (InputBoard_init_ready (fun _ => "{}") (fun _ => "7") [OWorkSpace w]
            0%nat w (VInt 7) "In" [("Photos", VFun 3%nat)] (VInt 5)
            create _ "99" listing _ _ _ ["topics"] [ok] column _ "status" [ok]).
  - reflexivity.
  - reflexivity.
  - split; reflexivity.
  - reflexivity.
  - split; reflexivity.
  - reflexivity.
  - reflexivity.
  - repeat constructor.
  - repeat constructor; eexists; split; reflexivity.
  - split; reflexivity.
  - reflexivity.
Defined.

(** X12: [InputBoard.update_handled_successfully] cannot mark an item as
    done: on a board that is ready it raises [TypeError] (it calls
    [post_request] without a query), nothing is posted and the state is
    left as it was. *)
Theorem update_handled_successfully_raises s self ib w board_id
  status_column_id item_id :
  input_board_ready (heap s) self ib w board_id status_column_id ->
  InputBoard_update_handled_successfully self item_id s
  = (Raise TypeError, s, []).
Proof.
  intros (ia & wa & -> & Hib & Hws & Hw & _).
  unfold InputBoard_update_handled_successfully.
  rewrite (bind_reader _ _ s (ib_board ib))
    by (apply get_board_ref; by exists (OInputBoard ib)).
  rewrite Hws. by rewrite (bind_reader _ _ s w) by (by apply get_ws_ref).
Qed.

Lemma update_handled_successfully_raises_witness :
  let w := {| ws_name := "w"; ws_token := "t"; ws_apiUrl := "u";
              ws_boards_limit := 500; ws_print_api_protocol := false;
              ws_boards := [("In", 1%nat)]; ws_work_space_id := Some (VInt 7) |} in
  let ib := {| ib_board := {| b_work_space := VRef 0%nat; b_name := "In";
                              b_columns := []; b_groups := [];
                              b_board_id := Some (VStr "99") |};
               ib_status_column_id := VStr "status";
               ib_execution_dict := []; ib_check_rate := VInt 5 |} in
  let s := {| heap := [OWorkSpace w; OInputBoard ib]; replies := [VNone] |} in
  InputBoard_update_handled_successfully (VRef 1%nat) (VStr "12") s
  = (Raise TypeError, s, []).
Proof.
  intros w ib s.
  apply (update_handled_successfully_raises s (VRef 1%nat) ib w "99" "status").
  exists 1%nat, 0%nat. repeat split; reflexivity.
Defined.

(** ** Groups *)

Lemma find_group_id_skips title pre groups :
  forallb (other_title title) pre = true ->
  find_group_id title (pre ++ groups) = find_group_id title groups.
Proof.
  induction pre as [|g pre IH]; simpl; [done|].
  intros H. apply andb_prop in H as [Hg Hpre]. unfold other_title in Hg.
  destruct (py_getitem g "title") as [t| |]; try discriminate.
  destruct (is_str title t); [discriminate | by apply IH].
Qed.

Lemma Group_get_id_run h ga g ba b wa w board_id response data gv groups rest :
  h !! ga = Some (OGroup g) -> g_board g = VRef ba -> board_at h ba b ->
  b_work_space b = VRef wa -> h !! wa = Some (OWorkSpace w) ->
  b_board_id b = Some (VStr board_id) ->
  answers response data ->
  first_board_entry data "groups" = Ok gv -> py_iter gv = Ok groups ->
  Group_get_id ga {| heap := h; replies := response :: rest |}
  = (find_group_id (g_title g) groups, {| heap := h; replies := rest |},
     sending w (groups_query board_id) ++ received w response).
Proof.
  intros Hg Hgb Hb Hws Hw Hid Hans Hentry Hiter. unfold first_board_entry in Hentry.
  destruct (py_getitem data "boards") as [boards| |] eqn:Hboards; try discriminate.
  destruct (py_index boards 0) as [board| |] eqn:Hboard; try discriminate.
  unfold Group_get_id.
  rewrite (bind_reader _ _ _ g) by (by apply get_group_ref).
  rewrite Hgb. rewrite (bind_reader _ _ _ b) by (by apply get_board_ref).
  rewrite Hws. rewrite (bind_reader _ _ _ w) by (by apply get_ws_ref).
  rewrite Hid. rewrite (bind_reader _ _ _ (VStr board_id)) by done.
  rewrite (bind_reader _ _ _ board_id) by done.
  rewrite (bind_Ok _ _ _ _ _ _
             (WorkSpace_post_request_answers w (groups_query board_id) response
                data h rest Hans)).
  rewrite (bind_reader _ _ _ boards) by (unfold lift; by rewrite Hboards).
  rewrite (bind_reader _ _ _ board) by (unfold lift; by rewrite Hboard).
  rewrite (bind_reader _ _ _ gv) by (unfold lift; by rewrite Hentry).
  rewrite (bind_reader _ _ _ groups) by (unfold lift; by rewrite Hiter).
  unfold lift. by rewrite app_nil_r.
Qed.

(** X13: [Group.get_id] returns the id that the remote lists for the first
    group of the board that carries the title of this group, whatever id
    the group object holds itself; it posts the listing of the board's
    groups once and leaves the objects alone. *)
Theorem Group_get_id_first_match h ga g ba b wa w board_id response data gv
  pre group post id rest :
  h !! ga = Some (OGroup g) -> g_board g = VRef ba -> board_at h ba b ->
  b_work_space b = VRef wa -> h !! wa = Some (OWorkSpace w) ->
  b_board_id b = Some (VStr board_id) ->
  answers response data ->
  first_board_entry data "groups" = Ok gv ->
  py_iter gv = Ok (pre ++ group :: post) ->
  forallb (other_title (g_title g)) pre = true ->
  py_getitem group "title" = Ok (VStr (g_title g)) ->
  py_getitem group "id" = Ok id ->
  exists ev,
    Group_get_id ga {| heap := h; replies := response :: rest |}
    = (Ok id, {| heap := h; replies := rest |}, ev)
    /\ posts ev = [groups_query board_id].
Proof.
  intros Hg Hgb Hb Hws Hw Hid Hans Hentry Hiter Hpre Htitle Hgid.
  eexists. split; [|apply (posts_request w _ response)].
  rewrite (Group_get_id_run h ga g ba b wa w board_id response data gv _ rest
             Hg Hgb Hb Hws Hw Hid Hans Hentry Hiter).
  rewrite (find_group_id_skips _ _ _ Hpre). simpl. rewrite Htitle. simpl.
  by rewrite String.eqb_refl, Hgid.
Qed.

Lemma Group_get_id_first_match_witness :
  let w := {| ws_name := "w"; ws_token := "t"; ws_apiUrl := "u";
              ws_boards_limit := 500; ws_print_api_protocol := false;
              ws_boards := [("B", 1%nat)]; ws_work_space_id := Some (VInt 7) |} in
  let b := {| b_work_space := VRef 0%nat; b_name := "B"; b_columns := [];
              b_groups := [("G", 2%nat)]; b_board_id := Some (VStr "55") |} in
  let g := {| g_board := VRef 1%nat; g_title := "G"; g_items := [];
              g_group_id := VStr "stale" |} in
  let entry id title := VDict [("id", VStr id); ("title", VStr title)] in
  let response :=
    VDict [("data",
            VDict [("boards",
                    VList [VDict [("id", VStr "55");
                                  ("groups",
                                   VList [entry "topics" "F"; entry "g1" "G";
                                          entry "g2" "G"])]])])] in
  let h := [OWorkSpace w; OBoard b; OGroup g] in
  exists ev,
    Group_get_id 2%nat {| heap := h; replies := [response] |}
    = (Ok (VStr "g1"), {| heap := h; replies := [] |}, ev)
    /\ posts ev = ["{ boards (ids: 55) {id groups {id title}}}"].
Proof.
  intros w b g entry response h.
  apply (Group_get_id_first_match h 2%nat g 1%nat b 0%nat w "55" response
           (VDict [("boards",
                    VList [VDict [("id", VStr "55");
                                  ("groups",
                                   VList [entry "topics" "F"; entry "g1" "G";
                                          entry "g2" "G"])]])])
           (VList [entry "topics" "F"; entry "g1" "G"; entry "g2" "G"])
           [entry "topics" "F"] (entry "g1" "G") [entry "g2" "G"] (VStr "g1") []);
    try reflexivity.
  - by exists (OBoard b).
  - split; reflexivity.
Defined.

(** X14: when no group that the remote lists for the board carries the
    title of this group, [Group.get_id] returns the empty string: no
    error is raised for a group that is not on the board. *)
Theorem Group_get_id_absent h ga g ba b wa w board_id response data gv groups
  rest :
  h !! ga = Some (OGroup g) -> g_board g = VRef ba -> board_at h ba b ->
  b_work_space b = VRef wa -> h !! wa = Some (OWorkSpace w) ->
  b_board_id b = Some (VStr board_id) ->
  answers response data ->
  first_board_entry data "groups" = Ok gv -> py_iter gv = Ok groups ->
  forallb (other_title (g_title g)) groups = true ->
  exists ev,
    Group_get_id ga {| heap := h; replies := response :: rest |}
    = (Ok (VStr ""), {| heap := h; replies := rest |}, ev)
    /\ posts ev = [groups_query board_id].
Proof.
  intros Hg Hgb Hb Hws Hw Hid Hans Hentry Hiter Hother.
  eexists. split; [|apply (posts_request w _ response)].
  rewrite (Group_get_id_run h ga g ba b wa w board_id response data gv _ rest
             Hg Hgb Hb Hws Hw Hid Hans Hentry Hiter).
  rewrite <- (app_nil_r groups). by rewrite (find_group_id_skips _ _ _ Hother).
Qed.

Lemma Group_get_id_absent_witness :
  let w := {| ws_name := "w"; ws_token := "t"; ws_apiUrl := "u";
              ws_boards_limit := 500; ws_print_api_protocol := false;
              ws_boards := [("B", 1%nat)]; ws_work_space_id := Some (VInt 7) |} in
  let b := {| b_work_space := VRef 0%nat; b_name := "B"; b_columns := [];
              b_groups := [("G", 2%nat)]; b_board_id := Some (VStr "55") |} in
  let g := {| g_board := VRef 1%nat; g_title := "G"; g_items := [];
              g_group_id := VStr "g1" |} in
  let entry id title := VDict [("id", VStr id); ("title", VStr title)] in
  let response :=
    VDict [("data",
            VDict [("boards",
                    VList [VDict [("groups", VList [entry "topics" "F"])]])])] in
  let h := [OWorkSpace w; OBoard b; OGroup g] in
  exists ev,
    Group_get_id 2%nat {| heap := h; replies := [response] |}
    = (Ok (VStr ""), {| heap := h; replies := [] |}, ev)
    /\ posts ev = ["{ boards (ids: 55) {id groups {id title}}}"].
Proof.
  intros w b g entry response h.
  apply (Group_get_id_absent h 2%nat g 1%nat b 0%nat w "55" response
           (VDict [("boards",
                    VList [VDict [("groups", VList [entry "topics" "F"])]])])
           (VList [entry "topics" "F"]) [entry "topics" "F"] []);
    try reflexivity.
  - by exists (OBoard b).
  - split; reflexivity.
Defined.

(** X15: [Group.set_items] cannot take items that exist on the remote.
    For an item with an id it builds the item without column values
    ([json_columns_values] is left at [None]), and iterating over [None]
    raises [TypeError]: nothing is built, nothing is posted. *)
Theorem Group_set_items_existing_item dumps self item rest s :
  py_truthy (ij_id item) = true ->
  Group_set_items dumps self (Some (item :: rest)) s = (Raise TypeError, s, []).
Proof.
  intros Hid. unfold Group_set_items. simpl Group_set_items_loop.
  unfold Item_init. rewrite Hid. reflexivity.
Qed.

Lemma Group_set_items_existing_item_witness :
  let item := {| ij_id := VStr "77"; ij_name := "a";
                 ij_group := {| gj_id := VStr "g1"; gj_title := "G" |};
                 ij_column_values := [("text", VStr "x")] |} in
  let s := {| heap := []; replies := [] |} in
  Group_set_items (fun _ => "{}") 2%nat (Some [item]) s
  = (Raise TypeError, s, []).
Proof.
  intros item s.
  apply (Group_set_items_existing_item (fun _ => "{}") 2%nat item [] s).
  reflexivity.
Defined.

Lemma refs_set k a d : refs (Dict.set k a d) = Dict.set k (VRef a) (refs d).
Proof.
  induction d as [|[k' a'] d IH]; simpl; [done|].
  destruct (String.eqb k k'); simpl; [done | by rewrite IH].
Qed.

Lemma Item_init_create_run dumps h ga g ba b wa w board_id group_id name
  item_id response data new_id rest :
  h !! ga = Some (OGroup g) -> g_board g = VRef ba -> board_at h ba b ->
  b_work_space b = VRef wa -> h !! wa = Some (OWorkSpace w) ->
  b_board_id b = Some (VStr board_id) ->
  g_group_id g = VStr group_id ->
  py_truthy item_id = false ->
  answers response data ->
  created_id data "create_item" = Ok new_id ->
  Item_init dumps (VRef ga) name item_id None []
    {| heap := h; replies := response :: rest |}
  = (Ok (List.length h),
     {| heap := h ++ [created_item (VRef ga) name new_id]; replies := rest |},
     sending w (create_item_query board_id group_id name "{}")
     ++ received w response).
Proof.
  intros Hg Hgb Hb Hws Hw Hid Hgid Hfalsy Hans Hcreated.
  unfold created_id in Hcreated.
  destruct (py_getitem data "create_item") as [ci| |] eqn:Hci; try discriminate.
  unfold Item_init. rewrite Hfalsy.
  rewrite (bind_reader _ _ _ "{}") by reflexivity.
  rewrite (bind_reader _ _ _ g) by (by apply get_group_ref).
  rewrite Hgb. rewrite (bind_reader _ _ _ b) by (by apply get_board_ref).
  rewrite Hws. rewrite (bind_reader _ _ _ w) by (by apply get_ws_ref).
  rewrite Hid. rewrite (bind_reader _ _ _ (VStr board_id)) by done.
  rewrite (bind_reader _ _ _ board_id) by done.
  rewrite Hgid. rewrite (bind_reader _ _ _ group_id) by done.
  rewrite (bind_Ok _ _ _ _ _ _
             (WorkSpace_post_request_answers w
                (create_item_query board_id group_id name "{}") response data h
                rest Hans)).
  rewrite (bind_reader _ _ _ ci) by (unfold lift; by rewrite Hci).
  rewrite (bind_reader _ _ _ new_id) by (unfold lift; by rewrite Hcreated).
  rewrite alloc_run. by rewrite app_nil_r.
Qed.

Lemma Group_set_items_loop_creates dumps ga g ba b wa w board_id group_id rest :
  g_board g = VRef ba -> b_work_space b = VRef wa ->
  b_board_id b = Some (VStr board_id) -> g_group_id g = VStr group_id ->
  forall items rs ids h d,
    h !! ga = Some (OGroup g) -> board_at h ba b ->
    h !! wa = Some (OWorkSpace w) ->
    Forall (fun item => py_truthy (ij_id item) = false) items ->
    List.length ids = List.length items ->
    Forall2 (fun r id => exists data,
               answers r data /\ created_id data "create_item" = Ok id) rs ids ->
    exists ev,
      Group_set_items_loop dumps ga items (refs d)
        {| heap := h; replies := rs ++ rest |}
      = (Ok (refs (register (List.length h) (map ij_name items) d)),
         {| heap := h ++ zip_with (fun item id =>
                                     created_item (VRef ga) (ij_name item) id)
                           items ids;
            replies := rest |}, ev)
      /\ posts ev
         = map (fun item => create_item_query board_id group_id (ij_name item) "{}")
             items.
Proof.
  intros Hgb Hws Hid Hgid items.
  induction items as [|item items IH]; intros rs ids h d Hg Hb Hw Hfalsy Hlen Hrs.
  - destruct ids; [|discriminate]. inversion Hrs; subst.
    exists []. simpl. by rewrite app_nil_r.
  - destruct ids as [|id ids]; [discriminate|].
    inversion Hrs as [|r ? rs' ? (data & Hans & Hcreated) Hrs']; subst.
    inversion Hfalsy as [|? ? Hitem Hitems]; subst.
    set (o := created_item (VRef ga) (ij_name item) id).
    destruct (IH rs' ids (h ++ [o]) (Dict.set (ij_name item) (List.length h) d))
      as (ev & Hrun & Hposts).
    + by apply lookup_app_l_Some.
    + destruct Hb as (ob & Hob & Hbo). exists ob. split; [|done].
      by apply lookup_app_l_Some.
    + by apply lookup_app_l_Some.
    + done.
    + simpl in Hlen. lia.
    + done.
    + eexists. split.
      * simpl Group_set_items_loop. simpl app.
        rewrite (bind_Ok _ _ _ _ _ _
                   (Item_init_create_run dumps h ga g ba b wa w board_id group_id
                      (ij_name item) (ij_id item) r data id (rs' ++ rest)
                      Hg Hgb Hb Hws Hw Hid Hgid Hitem Hans Hcreated)).
        fold o. rewrite <- refs_set. rewrite Hrun.
        rewrite length_app, Nat.add_1_r. simpl.
        by rewrite <- app_assoc.
      * rewrite posts_app, posts_request, Hposts. reflexivity.
Qed.

(** X16: [Group.set_items] on items without an id creates them on the
    remote.  When the remote answers every creation, one [create_item]
    mutation is posted per item, in order and with empty column values;
    the items are allocated in that order with the ids of the replies and
    returned under their names (a later item replaces an earlier one of the
    same name).  The objects that were there, the group among them, are
    left as they were: the group's own [items] are not extended. *)
Theorem Group_set_items_creates dumps h ga g ba b wa w board_id group_id item
  items rs ids rest :
  h !! ga = Some (OGroup g) -> g_board g = VRef ba -> board_at h ba b ->
  b_work_space b = VRef wa -> h !! wa = Some (OWorkSpace w) ->
  b_board_id b = Some (VStr board_id) -> g_group_id g = VStr group_id ->
  Forall (fun item => py_truthy (ij_id item) = false) (item :: items) ->
  List.length ids = S (List.length items) ->
  Forall2 (fun r id => exists data,
             answers r data /\ created_id data "create_item" = Ok id) rs ids ->
  exists ev,
    Group_set_items dumps ga (Some (item :: items))
      {| heap := h; replies := rs ++ rest |}
    = (Ok (VDict (refs (register (List.length h)
                          (map ij_name (item :: items)) []))),
       {| heap := h ++ zip_with (fun item id =>
                                   created_item (VRef ga) (ij_name item) id)
                         (item :: items) ids;
          replies := rest |}, ev)
    /\ posts ev
       = map (fun item => create_item_query board_id group_id (ij_name item) "{}")
           (item :: items).
Proof.
  intros Hg Hgb Hb Hws Hw Hid Hgid Hfalsy Hlen Hrs.
  destruct (Group_set_items_loop_creates dumps ga g ba b wa w board_id group_id
              rest Hgb Hws Hid Hgid (item :: items) rs ids h [] Hg Hb Hw Hfalsy
              Hlen Hrs) as (ev & Hrun & Hposts).
  exists ev. split; [|done].
  unfold Group_set_items. change (refs []) with (@nil (string * value)) in Hrun.
  rewrite (bind_Ok _ _ _ _ _ _ Hrun). unfold ret. by rewrite app_nil_r.
Qed.

Lemma Group_set_items_creates_witness :
  let w := {| ws_name := "w"; ws_token := "t"; ws_apiUrl := "u";
              ws_boards_limit := 500; ws_print_api_protocol := false;
              ws_boards := [("B", 1%nat)]; ws_work_space_id := Some (VInt 7) |} in
  let b := {| b_work_space := VRef 0%nat; b_name := "B"; b_columns := [];
              b_groups := [("G", 2%nat)]; b_board_id := Some (VStr "55") |} in
  let g := {| g_board := VRef 1%nat; g_title := "G"; g_items := [];
              g_group_id := VStr "g1" |} in
  let item name := {| ij_id := VNone; ij_name := name;
                      ij_group := {| gj_id := VStr "g1"; gj_title := "G" |};
                      ij_column_values := [] |} in
  let reply id :=
    VDict [("data", VDict [("create_item", VDict [("id", VStr id)])])] in
  let h := [OWorkSpace w; OBoard b; OGroup g] in
  exists ev,
    Group_set_items (fun _ => "{}") 2%nat (Some [item "a"; item "b"; item "a"])
      {| heap := h; replies := [reply "1"; reply "2"; reply "3"; reply "4"] |}
    = (Ok (VDict [("a", VRef 5%nat); ("b", VRef 4%nat)]),
       {| heap := h ++ [created_item (VRef 2%nat) "a" (VStr "1");
                        created_item (VRef 2%nat) "b" (VStr "2");
                        created_item (VRef 2%nat) "a" (VStr "3")];
          replies := [reply "4"] |}, ev)
    /\ posts ev
       = ["mutation {create_item (board_id: 55, group_id: " +:+ dq +:+ "g1" +:+ dq
           +:+ ", item_name: " +:+ dq +:+ "a" +:+ dq +:+ ", column_values: "
           +:+ dq +:+ "{}" +:+ dq +:+ ") { id } }";
          "mutation {create_item (board_id: 55, group_id: " +:+ dq +:+ "g1" +:+ dq
           +:+ ", item_name: " +:+ dq +:+ "b" +:+ dq +:+ ", column_values: "
           +:+ dq +:+ "{}" +:+ dq +:+ ") { id } }";
          "mutation {create_item (board_id: 55, group_id: " +:+ dq +:+ "g1" +:+ dq
           +:+ ", item_name: " +:+ dq +:+ "a" +:+ dq +:+ ", column_values: "
           +:+ dq +:+ "{}" +:+ dq +:+ ") { id } }"].
Proof.
  intros w b g item reply h.
  apply (Group_set_items_creates (fun _ => "{}") h 2%nat g 1%nat b 0%nat w "55"
           "g1" (item "a") [item "b"; item "a"]
           [reply "1"; reply "2"; reply "3"] [VStr "1"; VStr "2"; VStr "3"]
           [reply "4"]); try reflexivity.
  - by exists (OBoard b).
  - repeat constructor.
  - repeat constructor; eexists; split; try split; reflexivity.
Defined.

(** ** Items *)

(** X17: an item whose [group] is a title and not a group object (as
    [Board.set_items] leaves the items it hydrates) cannot be updated on
    the remote: [add_link], [set_rating] and, for an item with a text id,
    [add_update] raise [AttributeError] when they follow [self.group.board];
    nothing is posted and the state is left as it was. *)
Theorem titled_item_cannot_post s ia i title :
  heap s !! ia = Some (OItem i) -> i_group i = VStr title ->
  (forall column_title link description,
     Item_add_link ia column_title link description s
     = (Raise AttributeError, s, []))
  /\ (forall column_title v,
        Item_set_rating ia column_title v s = (Raise AttributeError, s, []))
  /\ (forall item_id content,
        i_item_id i = VStr item_id ->
        Item_add_update ia content s = (Raise AttributeError, s, [])).
Proof.
  intros Hi Hgroup.
  assert (Htarget : forall column_title,
            column_value_target ia column_title s = (Raise AttributeError, s, [])).
  { intros column_title. unfold column_value_target.
    rewrite (bind_reader _ _ s i) by (by apply get_item_ref).
    by rewrite Hgroup. }
  split; [|split].
  - intros column_title link description. unfold Item_add_link.
    destruct (negb (String.eqb description ""));
      by rewrite (bind_Raise _ _ _ _ _ _ (Htarget column_title)).
  - intros column_title v. unfold Item_set_rating.
    by rewrite (bind_Raise _ _ _ _ _ _ (Htarget column_title)).
  - intros item_id content Hid. unfold Item_add_update.
    rewrite (bind_reader _ _ s i) by (by apply get_item_ref).
    rewrite Hid. rewrite (bind_reader _ _ s item_id) by done.
    by rewrite Hgroup.
Qed.

Lemma titled_item_cannot_post_witness :
  let ij := {| ij_id := VStr "77"; ij_name := "a";
               ij_group := {| gj_id := VStr "g1"; gj_title := "G" |};
               ij_column_values := [("text", VStr "x")] |} in
  let s := {| heap := [OItem (mk_item ij)]; replies := [VNone] |} in
  (forall column_title link description,
     Item_add_link 0%nat column_title link description s
     = (Raise AttributeError, s, []))
  /\ (forall column_title v,
        Item_set_rating 0%nat column_title v s = (Raise AttributeError, s, []))
  /\ (forall item_id content,
        i_item_id (mk_item ij) = VStr item_id ->
        Item_add_update 0%nat content s = (Raise AttributeError, s, [])).
Proof.
  intros ij s.
  apply (titled_item_cannot_post s 0%nat (mk_item ij) "G"); reflexivity.
Defined.

Lemma column_value_target_run s ia i ga g ba b board_id item_id column_title ca
  c column_id :
  heap s !! ia = Some (OItem i) -> i_group i = VRef ga ->
  heap s !! ga = Some (OGroup g) -> g_board g = VRef ba ->
  board_at (heap s) ba b ->
  b_board_id b = Some (VStr board_id) -> i_item_id i = VStr item_id ->
  Dict.get column_title (b_columns b) = Some ca ->
  heap s !! ca = Some (OColumn c) -> c_column_id c = VStr column_id ->
  column_value_target ia column_title s
  = (Ok (board_id, item_id, column_id), s, []).
Proof.
  intros Hi Hig Hg Hgb Hb Hid Hiid Hca Hc Hcid. unfold column_value_target.
  rewrite (bind_reader _ _ s i) by (by apply get_item_ref).
  rewrite Hig. rewrite (bind_reader _ _ s g) by (by apply get_group_ref).
  rewrite Hgb. rewrite (bind_reader _ _ s b) by (by apply get_board_ref).
  rewrite Hid. rewrite (bind_reader _ _ s (VStr board_id)) by done.
  rewrite (bind_reader _ _ s board_id) by done.
  rewrite Hiid. rewrite (bind_reader _ _ s item_id) by done.
  rewrite (bind_reader _ _ s ca) by (by apply dict_lookup_run).
  rewrite (bind_reader _ _ s c) by (by apply get_column_ref).
  rewrite Hcid. by rewrite (bind_reader _ _ s column_id) by done.
Qed.

Lemma Item_post_run h ia i ga g ba b wa w query response data rest :
  h !! ia = Some (OItem i) -> i_group i = VRef ga ->
  h !! ga = Some (OGroup g) -> g_board g = VRef ba -> board_at h ba b ->
  b_work_space b = VRef wa -> h !! wa = Some (OWorkSpace w) ->
  answers response data ->
  Item_post ia query {| heap := h; replies := response :: rest |}
  = (Ok VNone, {| heap := h; replies := rest |},
     sending w query ++ received w response).
Proof.
  intros Hi Hig Hg Hgb Hb Hws Hw Hans. unfold Item_post.
  rewrite (bind_reader _ _ _ i) by (by apply get_item_ref).
  rewrite Hig. rewrite (bind_reader _ _ _ g) by (by apply get_group_ref).
  rewrite Hgb. rewrite (bind_reader _ _ _ b) by (by apply get_board_ref).
  rewrite Hws. rewrite (bind_reader _ _ _ w) by (by apply get_ws_ref).
  rewrite (bind_Ok _ _ _ _ _ _
             (WorkSpace_post_request_answers w query response data h rest Hans)).
  unfold ret. by rewrite app_nil_r.
Qed.

(** X18: [Item.add_link] on an item that knows its group posts one
    mutation for the column of that title on the item's board, with the
    link and its text; the text is the description, and the link itself
    when the description is empty.  The result is [None] and the objects
    are left as they were. *)
Theorem Item_add_link_posts h ia i ga g ba b wa w board_id item_id column_title
  ca c column_id link description response data rest :
  h !! ia = Some (OItem i) -> i_group i = VRef ga ->
  h !! ga = Some (OGroup g) -> g_board g = VRef ba -> board_at h ba b ->
  b_work_space b = VRef wa -> h !! wa = Some (OWorkSpace w) ->
  b_board_id b = Some (VStr board_id) -> i_item_id i = VStr item_id ->
  Dict.get column_title (b_columns b) = Some ca ->
  h !! ca = Some (OColumn c) -> c_column_id c = VStr column_id ->
  answers response data ->
  exists ev,
    Item_add_link ia column_title link description
      {| heap := h; replies := response :: rest |}
    = (Ok VNone, {| heap := h; replies := rest |}, ev)
    /\ posts ev
       = [link_query board_id item_id column_id link
            (link_text link description)].
Proof.
  intros Hi Hig Hg Hgb Hb Hws Hw Hid Hiid Hca Hc Hcid Hans.
  eexists. split; [|apply (posts_request w _ response)].
  unfold Item_add_link, link_text.
  destruct (String.eqb description ""); cbn [negb];
    rewrite (bind_reader _ _ _ (board_id, item_id, column_id))
      by (by eapply column_value_target_run);
    by eapply Item_post_run.
Qed.

Lemma Item_add_link_posts_witness :
  let w := {| ws_name := "w"; ws_token := "t"; ws_apiUrl := "u";
              ws_boards_limit := 500; ws_print_api_protocol := false;
              ws_boards := [("B", 1%nat)]; ws_work_space_id := Some (VInt 7) |} in
  let b := {| b_work_space := VRef 0%nat; b_name := "B";
              b_columns := [("Link", 3%nat)];
              b_groups := [("G", 2%nat)]; b_board_id := Some (VStr "55") |} in
  let g := {| g_board := VRef 1%nat; g_title := "G"; g_items := [("a", 4%nat)];
              g_group_id := VStr "g1" |} in
  let c := {| c_board := VRef 1%nat; c_title := "Link";
              c_description := VStr ""; c_column_type := VStr "link";
              c_column_id := VStr "link1" |} in
  let i := {| i_group := VRef 2%nat; i_item_id := VStr "77"; i_name := "a";
              i_columns_values := [] |} in
  let ok := VDict [("data", VDict [])] in
  let h := [OWorkSpace w; OBoard b; OGroup g; OColumn c; OItem i] in
  exists ev,
    Item_add_link 4%nat "Link" "http://x" "" {| heap := h; replies := [ok] |}
    = (Ok VNone, {| heap := h; replies := [] |}, ev)
    /\ posts ev
       = ["mutation { change_column_value (board_id: 55, item_id: 77, column_id: "
          +:+ dq +:+ "link1" +:+ dq +:+ ", value: " +:+ dq +:+ "{" +:+ bs +:+ dq
          +:+ "url" +:+ bs +:+ dq +:+ ":" +:+ bs +:+ dq +:+ "http://x" +:+ bs
          +:+ dq +:+ "," +:+ bs +:+ dq +:+ "text" +:+ bs +:+ dq +:+ ":" +:+ bs
          +:+ dq +:+ "http://x" +:+ bs +:+ dq +:+ "}" +:+ dq +:+ ") { id } }"].
Proof.
  intros w b g c i ok h.
  apply (Item_add_link_posts h 4%nat i 2%nat g 1%nat b 0%nat w "55" "77" "Link"
           3%nat c "link1" "http://x" "" ok (VDict []) []); try reflexivity.
  - by exists (OBoard b).
  - split; reflexivity.
Defined.

(** X19: [Item.set_rating] takes the rating as text.  On an item that
    knows its group and a column that is there, a text rating is posted in
    one mutation; any other value, a number included, raises [TypeError]
    before a request is made. *)
Theorem Item_set_rating_text h ia i ga g ba b wa w board_id item_id column_title
  ca c column_id v response data rest :
  h !! ia = Some (OItem i) -> i_group i = VRef ga ->
  h !! ga = Some (OGroup g) -> g_board g = VRef ba -> board_at h ba b ->
  b_work_space b = VRef wa -> h !! wa = Some (OWorkSpace w) ->
  b_board_id b = Some (VStr board_id) -> i_item_id i = VStr item_id ->
  Dict.get column_title (b_columns b) = Some ca ->
  h !! ca = Some (OColumn c) -> c_column_id c = VStr column_id ->
  answers response data ->
  let s := {| heap := h; replies := response :: rest |} in
  match v with
  | VStr rating =>
      exists ev,
        Item_set_rating ia column_title v s
        = (Ok VNone, {| heap := h; replies := rest |}, ev)
        /\ posts ev = [rating_query board_id item_id column_id rating]
  | _ => Item_set_rating ia column_title v s = (Raise TypeError, s, [])
  end.
Proof.
  intros Hi Hig Hg Hgb Hb Hws Hw Hid Hiid Hca Hc Hcid Hans s.
  assert (Htarget : column_value_target ia column_title s
                    = (Ok (board_id, item_id, column_id), s, []))
    by (by eapply column_value_target_run).
  destruct v as [|x|z|rating|l|d|a|f];
    try (unfold Item_set_rating; by rewrite (bind_reader _ _ _ _ Htarget)).
  eexists. split; [|apply (posts_request w _ response)].
  unfold Item_set_rating. rewrite (bind_reader _ _ _ _ Htarget).
  rewrite (bind_reader _ _ s rating) by done.
  by eapply Item_post_run.
Qed.

Lemma Item_set_rating_text_witness :
  let w := {| ws_name := "w"; ws_token := "t"; ws_apiUrl := "u";
              ws_boards_limit := 500; ws_print_api_protocol := false;
              ws_boards := [("B", 1%nat)]; ws_work_space_id := Some (VInt 7) |} in
  let b := {| b_work_space := VRef 0%nat; b_name := "B";
              b_columns := [("Stars", 3%nat)];
              b_groups := [("G", 2%nat)]; b_board_id := Some (VStr "55") |} in
  let g := {| g_board := VRef 1%nat; g_title := "G"; g_items := [("a", 4%nat)];
              g_group_id := VStr "g1" |} in
  let c := {| c_board := VRef 1%nat; c_title := "Stars";
              c_description := VStr ""; c_column_type := VStr "rating";
              c_column_id := VStr "rating1" |} in
  let i := {| i_group := VRef 2%nat; i_item_id := VStr "77"; i_name := "a";
              i_columns_values := [] |} in
  let ok := VDict [("data", VDict [])] in
  let h := [OWorkSpace w; OBoard b; OGroup g; OColumn c; OItem i] in
  let s := {| heap := h; replies := [ok] |} in
  Item_set_rating 4%nat "Stars" (VInt 5) s = (Raise TypeError, s, [])
  /\ exists ev,
       Item_set_rating 4%nat "Stars" (VStr "5") s
       = (Ok VNone, {| heap := h; replies := [] |}, ev)
       /\ posts ev
          = ["mutation { change_column_value (board_id: 55, item_id: 77, column_id: "
             +:+ dq +:+ "rating1" +:+ dq +:+ ", value: " +:+ dq +:+ "{" +:+ bs
             +:+ dq +:+ "rating" +:+ bs +:+ dq +:+ ":5}" +:+ dq +:+ ") { id } }"].
Proof.
  intros w b g c i ok h s. split.
  - apply (Item_set_rating_text h 4%nat i 2%nat g 1%nat b 0%nat w "55" "77"
             "Stars" 3%nat c "rating1" (VInt 5) ok (VDict []) []);
      try reflexivity.
    + by exists (OBoard b).
    + split; reflexivity.
  - apply (Item_set_rating_text h 4%nat i 2%nat g 1%nat b 0%nat w "55" "77"
             "Stars" 3%nat c "rating1" (VStr "5") ok (VDict []) []);
      try reflexivity.
    + by exists (OBoard b).
    + split; reflexivity.
Defined.

(** ** The dispatcher at its edges *)

Lemma dispatch_items_skips self pre items s :
  forallb processed pre = true ->
  dispatch_items self (pre ++ items) s = dispatch_items self items s.
Proof.
  induction pre as [|item pre IH]; [done|].
  intros H. simpl in H. apply andb_prop in H as [Hitem Hpre].
  unfold processed in Hitem.
  destruct (first_value item) as [v| |] eqn:Hv; try discriminate.
  rewrite <- app_comm_cons. cbn [dispatch_items].
  rewrite (bind_reader _ _ s v) by (unfold lift; by rewrite Hv).
  rewrite Hitem. rewrite (bind_reader _ _ s tt) by done. by apply IH.
Qed.

(** X20: an item that the remote lists without column values stops the
    poll.  The items before it being processed ones, the dispatcher raises
    [IndexError] when it reads the first column value of that item: the
    items after it are not looked at, nothing is posted and no thread is
    started. *)
Theorem dispatch_items_no_column_values self pre item post s :
  forallb processed pre = true ->
  py_getitem item "column_values" = Ok (VList []) ->
  dispatch_items self (pre ++ item :: post) s = (Raise IndexError, s, []).
Proof.
  intros Hpre Hcvs. rewrite (dispatch_items_skips _ _ _ _ Hpre).
  cbn [dispatch_items]. unfold first_value. rewrite Hcvs. reflexivity.
Qed.

Lemma dispatch_items_no_column_values_witness :
  let item id cvs :=
    VDict [("id", VStr id); ("name", VStr "n");
           ("group", VDict [("id", VStr "g"); ("title", VStr "Photos")]);
           ("column_values", VList cvs)] in
  let done_ := VDict [("title", VStr "Execution Status"); ("value", VStr "{}")] in
  let fresh := VDict [("title", VStr "Execution Status"); ("value", VNone)] in
  let s := {| heap := []; replies := [VNone] |} in
  dispatch_items (VRef 1%nat) ([item "1" [done_]] ++ item "2" [] :: [item "3" [fresh]]) s
  = (Raise IndexError, s, []).
Proof.
  intros item done_ fresh s.
  apply (dispatch_items_no_column_values (VRef 1%nat) [item "1" [done_]]
           (item "2" []) [item "3" [fresh]] s); reflexivity.
Defined.

(** X21: a new item in a group without a handler.  The items before it
    being processed ones, the dispatcher posts the mutation that sets the
    item to in progress and then raises [KeyError] when it looks up the
    handler of the item's group: the item is marked on the remote, no
    thread is started for it, and the items after it are not looked at. *)
Theorem dispatch_items_no_handler h self ib w board_id status_column_id pre item
  item_id group title post response data rest :
  input_board_ready h self ib w board_id status_column_id ->
  forallb processed pre = true ->
  unprocessed item = true ->
  py_getitem item "id" = Ok (VStr item_id) ->
  py_getitem item "group" = Ok group ->
  py_getitem group "title" = Ok (VStr title) ->
  Dict.get title (ib_execution_dict ib) = None ->
  answers response data ->
  exists ev,
    dispatch_items self (pre ++ item :: post)
      {| heap := h; replies := response :: rest |}
    = (Raise KeyError, {| heap := h; replies := rest |}, ev)
    /\ posts ev = [status_query board_id item_id status_column_id "0"]
    /\ starts ev = [].
Proof.
  intros (ia & wa & -> & Hib & Hws & Hw & Hbid & Hcol) Hpre Hnew Hid Hgroup
    Htitle Hnone Hans.
  set (query := status_query board_id item_id status_column_id "0").
  exists (sending w query ++ received w response).
  split; [|split; [apply posts_request|]].
  - rewrite (dispatch_items_skips _ _ _ _ Hpre). cbn [dispatch_items].
    unfold unprocessed in Hnew.
    destruct (first_value item) as [v| |] eqn:Hv; try discriminate.
    rewrite (bind_reader _ _ _ v) by done.
    apply negb_true_iff in Hnew. rewrite Hnew.
    assert (Hmark : mark_in_progress (VRef ia) item
                      {| heap := h; replies := response :: rest |}
                    = (Ok data, {| heap := h; replies := rest |},
                       sending w query ++ received w response)).
    { unfold mark_in_progress.
      rewrite (bind_reader _ _ _ ib) by (by apply get_input_board_ref).
      rewrite Hws. rewrite (bind_reader _ _ _ w) by (by apply get_ws_ref).
      rewrite Hbid. rewrite (bind_reader _ _ _ (VStr board_id)) by done.
      rewrite (bind_reader _ _ _ board_id) by done.
      rewrite (bind_reader _ _ _ (VStr item_id)) by (unfold lift; by rewrite Hid).
      rewrite (bind_reader _ _ _ item_id) by done.
      rewrite Hcol. rewrite (bind_reader _ _ _ status_column_id) by done.
      by apply WorkSpace_post_request_answers. }
    assert (Hstart : start_analyzer (VRef ia) item {| heap := h; replies := rest |}
                     = (Raise KeyError, {| heap := h; replies := rest |}, [])).
    { unfold start_analyzer.
      rewrite (bind_reader _ _ _ (VStr item_id)) by (unfold lift; by rewrite Hid).
      rewrite (bind_reader _ _ _ ib) by (by apply get_input_board_ref).
      rewrite (bind_reader _ _ _ group) by (unfold lift; by rewrite Hgroup).
      rewrite (bind_reader _ _ _ (VStr title)) by (unfold lift; by rewrite Htitle).
      simpl dict_lookup_value. unfold dict_lookup. by rewrite Hnone. }
    assert (Hitem : dispatch_item (VRef ia) item
                      {| heap := h; replies := response :: rest |}
                    = (Raise KeyError, {| heap := h; replies := rest |},
                       sending w query ++ received w response)).
    { unfold dispatch_item. rewrite (bind_Ok _ _ _ _ _ _ Hmark).
      rewrite Hstart. by rewrite app_nil_r. }
    by rewrite (bind_Raise _ _ _ _ _ _ Hitem).
  - rewrite starts_app. unfold sending, received.
    by destruct (ws_print_api_protocol w).
Qed.

Lemma dispatch_items_no_handler_witness :
  let w := {| ws_name := "w"; ws_token := "t"; ws_apiUrl := "u";
              ws_boards_limit := 500; ws_print_api_protocol := false;
              ws_boards := [("In", 1%nat)]; ws_work_space_id := Some (VInt 7) |} in
  let ib := {| ib_board := {| b_work_space := VRef 0%nat; b_name := "In";
                              b_columns := []; b_groups := [];
                              b_board_id := Some (VStr "99") |};
               ib_status_column_id := VStr "status";
               ib_execution_dict := [("Photos", VFun 3%nat)];
               ib_check_rate := VInt 5 |} in
  let item id title value :=
    VDict [("id", VStr id); ("name", VStr "n");
           ("group", VDict [("id", VStr "g"); ("title", VStr title)]);
           ("column_values",
            VList [VDict [("title", VStr "Execution Status"); ("value", value)]])] in
  let ok := VDict [("data", VDict [])] in
  let h := [OWorkSpace w; OInputBoard ib] in
  exists ev,
    dispatch_items (VRef 1%nat)
      ([item "1" "Photos" (VStr "{}")] ++ item "2" "Videos" VNone
       :: [item "3" "Photos" VNone])
      {| heap := h; replies := [ok; ok] |}
    = (Raise KeyError, {| heap := h; replies := [ok] |}, ev)
    /\ posts ev
       = ["mutation { change_column_value (board_id: 99, item_id: 2, column_id: "
          +:+ dq +:+ "status" +:+ dq +:+ ", value: " +:+ dq +:+ "{" +:+ bs +:+ dq
          +:+ "index" +:+ bs +:+ dq +:+ " : 0}" +:+ dq +:+ ") { id } }"]
    /\ starts ev = [].
Proof.
  intros w ib item ok h.
  apply (dispatch_items_no_handler h (VRef 1%nat) ib w "99" "status"
           [item "1" "Photos" (VStr "{}")] (item "2" "Videos" VNone) "2"
           (VDict [("id", VStr "g"); ("title", VStr "Videos")]) "Videos"
           [item "3" "Photos" VNone] ok (VDict []) [ok]); try reflexivity.
  - exists 1%nat, 0%nat. repeat split; reflexivity.
  - split; reflexivity.
Defined.

(** X22: [InputBoard.manager] only talks to the remote.  However many
    passes of its loop are observed, and whatever the remote replies, the
    objects of the program are after them what they were before: the
    dispatcher keeps no record of the items it has handed out. *)
Theorem InputBoard_manager_keeps_objects self ib w board_id status_column_id
  cycles : forall s,
  input_board_ready (heap s) self ib w board_id status_column_id ->
  heap (InputBoard_manager self cycles s).1.2 = heap s.
Proof.
  induction cycles as [|n IH]; intros s Hready; [done|].
  simpl InputBoard_manager. unfold bind.
  pose proof (poll_cycle_heap self ib w board_id status_column_id s Hready)
    as Hcycle.
  destruct (poll_cycle self s) as [[[[]| |] s1] ev1]; simpl in Hcycle; try done.
  assert (Hready1 : input_board_ready (heap s1) self ib w board_id
                      status_column_id) by (by rewrite Hcycle).
  specialize (IH s1 Hready1).
  destruct (InputBoard_manager self n s1) as [[r s2] ev2]. simpl in *.
  by rewrite IH.
Qed.

Lemma InputBoard_manager_keeps_objects_witness :
  let w := {| ws_name := "w"; ws_token := "t"; ws_apiUrl := "u";
              ws_boards_limit := 500; ws_print_api_protocol := false;
              ws_boards := [("In", 1%nat)]; ws_work_space_id := Some (VInt 7) |} in
  let ib := {| ib_board := {| b_work_space := VRef 0%nat; b_name := "In";
                              b_columns := []; b_groups := [];
                              b_board_id := Some (VStr "99") |};
               ib_status_column_id := VStr "status";
               ib_execution_dict := [("Photos", VFun 3%nat)];
               ib_check_rate := VInt 5 |} in
  let item id value :=
    VDict [("id", VStr id); ("name", VStr "n");
           ("group", VDict [("id", VStr "g"); ("title", VStr "Photos")]);
           ("column_values",
            VList [VDict [("title", VStr "Execution Status"); ("value", value)]])] in
  let listing items :=
    VDict [("data", VDict [("boards", VList [VDict [("items", VList items)]])])] in
  let ok := VDict [("data", VDict [])] in
  let s := {| heap := [OWorkSpace w; OInputBoard ib];
              replies := [listing [item "1" VNone]; ok;
                          listing [item "1" (VStr "{}")]] |} in
  heap (InputBoard_manager (VRef 1%nat) 2 s).1.2 = heap s.
Proof.
  intros w ib item listing ok s.
  apply (InputBoard_manager_keeps_objects (VRef 1%nat) ib w "99" "status" 2 s).
  exists 1%nat, 0%nat. repeat split; reflexivity.
Defined.
